(** * monero-update: the update-validation state machine of [updater.cpp]

    A shallow embedding of the [Updater] class: its published status
    fields, the signals it emits, the stage operations (DNS quorum,
    version selection, public-key import, Gitian signature quorum,
    download, hash check) and the worker loop that drives the state
    machine, followed by the properties established about them. *)

From Stdlib Require Import ZArith Lia Ascii String.
From Stdlib Require Strings.Byte.
From stdpp Require Import gmap strings list pretty.

#[local] Open Scope string_scope.
#[local] Open Scope list_scope.

(** ** Tri-state verdicts and the states of the machine *)

Module TriState.
Inductive tristate_t : Set := TriUnknown | TriTrue | TriFalse.

Definition eqb (a b : tristate_t) : bool :=
  match a, b with
  | TriUnknown, TriUnknown | TriTrue, TriTrue | TriFalse, TriFalse => true
  | _, _ => false
  end.
End TriState.
Export TriState.

Inductive State : Set :=
  | StateNone | StateInit | StateQueryDNS | StateDNSFailed | StateCheckVersion
  | StateUpToDate | StateBackInTime | StateNoUpdateInfoFound | StateDownload
  | StateDownloadFailed | StateCheckHash | StateBadHash | StateValidUpdate
  | StateImportPubkeys | StatePubkeyImportFailed | StateFetchGitianSigs
  | StateVerifyGitianSignatures | StateNoGitianSigs | StateNotEnoughGitianSigs
  | StateBadGitianSigs.

#[global] Instance State_eq_dec : EqDecision State.
Proof. solve_decision. Defined.

(** [MIN_GITIAN_SIGS] *)
Definition MIN_GITIAN_SIGS : Z := 2.

(** The table [states]: outcome class and display name of every state. *)
Definition states (s : State) : tristate_t * string :=
  match s with
  | StateNone => (TriUnknown, "None")
  | StateInit => (TriUnknown, "Initializing")
  | StateQueryDNS => (TriUnknown, "Querying DNS")
  | StateDNSFailed => (TriFalse, "DNS check failed")
  | StateCheckVersion => (TriUnknown, "Checking version")
  | StateUpToDate => (TriTrue, "We are up to date")
  | StateBackInTime => (TriTrue, "Only old versions found")
  | StateNoUpdateInfoFound => (TriFalse, "No update information found")
  | StateDownload => (TriUnknown, "Downloading update")
  | StateDownloadFailed => (TriFalse, "Download failed")
  | StateCheckHash => (TriUnknown, "Checking hash")
  | StateBadHash => (TriFalse, "Invalid hash")
  | StateImportPubkeys => (TriUnknown, "Importing public keys")
  | StatePubkeyImportFailed => (TriFalse, "Failed to import public keys")
  | StateFetchGitianSigs => (TriUnknown, "Fetching Gitian signatures")
  | StateVerifyGitianSignatures => (TriUnknown, "Verifying Gitian signatures")
  | StateNoGitianSigs => (TriFalse, "No Gitian signatures found")
  | StateNotEnoughGitianSigs =>
      (TriFalse, "Not enough matching Gitian signatures found")
  | StateBadGitianSigs =>
      (TriFalse, "At least one Gitian signature was invalid")
  | StateValidUpdate => (TriTrue, "Valid update downloaded and verified")
  end.

Definition get_state_outcome (s : State) : tristate_t := fst (states s).
Definition get_state_name (s : State) : string := snd (states s).

(** The four MoneroPulse domains. *)
Definition dns_urls : list string :=
  [ "updates.moneropulse.org"; "updates.moneropulse.net";
    "updates.moneropulse.co"; "updates.moneropulse.se" ].

(** ** Unsigned 32-bit counters *)

Definition u32 (z : Z) : Z := (z mod 2 ^ 32)%Z.

(** ** The object and the signals it emits *)

(** One answer of the resolver: the TXT records of a host, whether DNSSEC
    was available, and whether it validated. *)
Record dns_query_result_t := {
  records : list string;
  avail : bool;
  valid : bool
}.

Inductive Event :=
  | stateChanged (name : string)
  | stateOutcomeChanged (outcome : tristate_t)
  | selectingChanged (selecting : bool)
  | dnsValidChanged (t : tristate_t)
  | hashValidChanged (t : tristate_t)
  | validGitianSigsChanged (n : Z)
  | minValidGitianSigsChanged (n : Z)
  | processedGitianSigsChanged (n : Z)
  | totalGitianSigsChanged (n : Z)
  | versionChanged (v : string)
  | message (s : string)
  | downloadStarted
  | downloadProgress (length content_length : Z)
  | downloadFinished (success : bool)
  | validUpdateReady (path : string).

Record Updater := {
  state : State;
  next_state : State;
  dnsValid : tristate_t;
  hashValid : tristate_t;
  validGitianSigs : Z;
  minValidGitianSigs : Z;
  totalGitianSigs : Z;
  processedGitianSigs : Z;
  software : string;
  buildtag : string;
  current_version : string;
  version : string;
  expected_hash : string;
  download_path : string;
  messages : list string;
  dns_query_done : bool;
  version_check_done : bool;
  download_done : bool;
  download_success : bool;
  gitian_pubkeys_import_done : bool;
  gitian_pubkeys_import_success : bool;
  gitian_verify_sigs_done : bool;
  gitian_verify_sigs_success : bool;
  bad_gitian_signature_found : bool;
  dns_query_results : list dns_query_result_t;
  good_dns_records : list string;
  imported_fingerprints : gmap string string
}.

Definition with_state (v : State) (u : Updater) : Updater :=
  {| state := v; next_state := next_state u; dnsValid := dnsValid u;
     hashValid := hashValid u; validGitianSigs := validGitianSigs u;
     minValidGitianSigs := minValidGitianSigs u;
     totalGitianSigs := totalGitianSigs u;
     processedGitianSigs := processedGitianSigs u; software := software u;
     buildtag := buildtag u; current_version := current_version u;
     version := version u; expected_hash := expected_hash u;
     download_path := download_path u; messages := messages u;
     dns_query_done := dns_query_done u;
     version_check_done := version_check_done u;
     download_done := download_done u; download_success := download_success u;
     gitian_pubkeys_import_done := gitian_pubkeys_import_done u;
     gitian_pubkeys_import_success := gitian_pubkeys_import_success u;
     gitian_verify_sigs_done := gitian_verify_sigs_done u;
     gitian_verify_sigs_success := gitian_verify_sigs_success u;
     bad_gitian_signature_found := bad_gitian_signature_found u;
     dns_query_results := dns_query_results u;
     good_dns_records := good_dns_records u;
     imported_fingerprints := imported_fingerprints u |}.

Definition with_next_state (v : State) (u : Updater) : Updater :=
  {| state := state u; next_state := v; dnsValid := dnsValid u;
     hashValid := hashValid u; validGitianSigs := validGitianSigs u;
     minValidGitianSigs := minValidGitianSigs u;
     totalGitianSigs := totalGitianSigs u;
     processedGitianSigs := processedGitianSigs u; software := software u;
     buildtag := buildtag u; current_version := current_version u;
     version := version u; expected_hash := expected_hash u;
     download_path := download_path u; messages := messages u;
     dns_query_done := dns_query_done u;
     version_check_done := version_check_done u;
     download_done := download_done u; download_success := download_success u;
     gitian_pubkeys_import_done := gitian_pubkeys_import_done u;
     gitian_pubkeys_import_success := gitian_pubkeys_import_success u;
     gitian_verify_sigs_done := gitian_verify_sigs_done u;
     gitian_verify_sigs_success := gitian_verify_sigs_success u;
     bad_gitian_signature_found := bad_gitian_signature_found u;
     dns_query_results := dns_query_results u;
     good_dns_records := good_dns_records u;
     imported_fingerprints := imported_fingerprints u |}.

Definition with_dnsValid (v : tristate_t) (u : Updater) : Updater :=
  {| state := state u; next_state := next_state u; dnsValid := v;
     hashValid := hashValid u; validGitianSigs := validGitianSigs u;
     minValidGitianSigs := minValidGitianSigs u;
     totalGitianSigs := totalGitianSigs u;
     processedGitianSigs := processedGitianSigs u; software := software u;
     buildtag := buildtag u; current_version := current_version u;
     version := version u; expected_hash := expected_hash u;
     download_path := download_path u; messages := messages u;
     dns_query_done := dns_query_done u;
     version_check_done := version_check_done u;
     download_done := download_done u; download_success := download_success u;
     gitian_pubkeys_import_done := gitian_pubkeys_import_done u;
     gitian_pubkeys_import_success := gitian_pubkeys_import_success u;
     gitian_verify_sigs_done := gitian_verify_sigs_done u;
     gitian_verify_sigs_success := gitian_verify_sigs_success u;
     bad_gitian_signature_found := bad_gitian_signature_found u;
     dns_query_results := dns_query_results u;
     good_dns_records := good_dns_records u;
     imported_fingerprints := imported_fingerprints u |}.

Definition with_hashValid (v : tristate_t) (u : Updater) : Updater :=
  {| state := state u; next_state := next_state u; dnsValid := dnsValid u;
     hashValid := v; validGitianSigs := validGitianSigs u;
     minValidGitianSigs := minValidGitianSigs u;
     totalGitianSigs := totalGitianSigs u;
     processedGitianSigs := processedGitianSigs u; software := software u;
     buildtag := buildtag u; current_version := current_version u;
     version := version u; expected_hash := expected_hash u;
     download_path := download_path u; messages := messages u;
     dns_query_done := dns_query_done u;
     version_check_done := version_check_done u;
     download_done := download_done u; download_success := download_success u;
     gitian_pubkeys_import_done := gitian_pubkeys_import_done u;
     gitian_pubkeys_import_success := gitian_pubkeys_import_success u;
     gitian_verify_sigs_done := gitian_verify_sigs_done u;
     gitian_verify_sigs_success := gitian_verify_sigs_success u;
     bad_gitian_signature_found := bad_gitian_signature_found u;
     dns_query_results := dns_query_results u;
     good_dns_records := good_dns_records u;
     imported_fingerprints := imported_fingerprints u |}.

Definition with_validGitianSigs (v : Z) (u : Updater) : Updater :=
  {| state := state u; next_state := next_state u; dnsValid := dnsValid u;
     hashValid := hashValid u; validGitianSigs := v;
     minValidGitianSigs := minValidGitianSigs u;
     totalGitianSigs := totalGitianSigs u;
     processedGitianSigs := processedGitianSigs u; software := software u;
     buildtag := buildtag u; current_version := current_version u;
     version := version u; expected_hash := expected_hash u;
     download_path := download_path u; messages := messages u;
     dns_query_done := dns_query_done u;
     version_check_done := version_check_done u;
     download_done := download_done u; download_success := download_success u;
     gitian_pubkeys_import_done := gitian_pubkeys_import_done u;
     gitian_pubkeys_import_success := gitian_pubkeys_import_success u;
     gitian_verify_sigs_done := gitian_verify_sigs_done u;
     gitian_verify_sigs_success := gitian_verify_sigs_success u;
     bad_gitian_signature_found := bad_gitian_signature_found u;
     dns_query_results := dns_query_results u;
     good_dns_records := good_dns_records u;
     imported_fingerprints := imported_fingerprints u |}.

Definition with_minValidGitianSigs (v : Z) (u : Updater) : Updater :=
  {| state := state u; next_state := next_state u; dnsValid := dnsValid u;
     hashValid := hashValid u; validGitianSigs := validGitianSigs u;
     minValidGitianSigs := v; totalGitianSigs := totalGitianSigs u;
     processedGitianSigs := processedGitianSigs u; software := software u;
     buildtag := buildtag u; current_version := current_version u;
     version := version u; expected_hash := expected_hash u;
     download_path := download_path u; messages := messages u;
     dns_query_done := dns_query_done u;
     version_check_done := version_check_done u;
     download_done := download_done u; download_success := download_success u;
     gitian_pubkeys_import_done := gitian_pubkeys_import_done u;
     gitian_pubkeys_import_success := gitian_pubkeys_import_success u;
     gitian_verify_sigs_done := gitian_verify_sigs_done u;
     gitian_verify_sigs_success := gitian_verify_sigs_success u;
     bad_gitian_signature_found := bad_gitian_signature_found u;
     dns_query_results := dns_query_results u;
     good_dns_records := good_dns_records u;
     imported_fingerprints := imported_fingerprints u |}.

Definition with_totalGitianSigs (v : Z) (u : Updater) : Updater :=
  {| state := state u; next_state := next_state u; dnsValid := dnsValid u;
     hashValid := hashValid u; validGitianSigs := validGitianSigs u;
     minValidGitianSigs := minValidGitianSigs u; totalGitianSigs := v;
     processedGitianSigs := processedGitianSigs u; software := software u;
     buildtag := buildtag u; current_version := current_version u;
     version := version u; expected_hash := expected_hash u;
     download_path := download_path u; messages := messages u;
     dns_query_done := dns_query_done u;
     version_check_done := version_check_done u;
     download_done := download_done u; download_success := download_success u;
     gitian_pubkeys_import_done := gitian_pubkeys_import_done u;
     gitian_pubkeys_import_success := gitian_pubkeys_import_success u;
     gitian_verify_sigs_done := gitian_verify_sigs_done u;
     gitian_verify_sigs_success := gitian_verify_sigs_success u;
     bad_gitian_signature_found := bad_gitian_signature_found u;
     dns_query_results := dns_query_results u;
     good_dns_records := good_dns_records u;
     imported_fingerprints := imported_fingerprints u |}.

Definition with_processedGitianSigs (v : Z) (u : Updater) : Updater :=
  {| state := state u; next_state := next_state u; dnsValid := dnsValid u;
     hashValid := hashValid u; validGitianSigs := validGitianSigs u;
     minValidGitianSigs := minValidGitianSigs u;
     totalGitianSigs := totalGitianSigs u; processedGitianSigs := v;
     software := software u; buildtag := buildtag u;
     current_version := current_version u; version := version u;
     expected_hash := expected_hash u; download_path := download_path u;
     messages := messages u; dns_query_done := dns_query_done u;
     version_check_done := version_check_done u;
     download_done := download_done u; download_success := download_success u;
     gitian_pubkeys_import_done := gitian_pubkeys_import_done u;
     gitian_pubkeys_import_success := gitian_pubkeys_import_success u;
     gitian_verify_sigs_done := gitian_verify_sigs_done u;
     gitian_verify_sigs_success := gitian_verify_sigs_success u;
     bad_gitian_signature_found := bad_gitian_signature_found u;
     dns_query_results := dns_query_results u;
     good_dns_records := good_dns_records u;
     imported_fingerprints := imported_fingerprints u |}.

Definition with_software (v : string) (u : Updater) : Updater :=
  {| state := state u; next_state := next_state u; dnsValid := dnsValid u;
     hashValid := hashValid u; validGitianSigs := validGitianSigs u;
     minValidGitianSigs := minValidGitianSigs u;
     totalGitianSigs := totalGitianSigs u;
     processedGitianSigs := processedGitianSigs u; software := v;
     buildtag := buildtag u; current_version := current_version u;
     version := version u; expected_hash := expected_hash u;
     download_path := download_path u; messages := messages u;
     dns_query_done := dns_query_done u;
     version_check_done := version_check_done u;
     download_done := download_done u; download_success := download_success u;
     gitian_pubkeys_import_done := gitian_pubkeys_import_done u;
     gitian_pubkeys_import_success := gitian_pubkeys_import_success u;
     gitian_verify_sigs_done := gitian_verify_sigs_done u;
     gitian_verify_sigs_success := gitian_verify_sigs_success u;
     bad_gitian_signature_found := bad_gitian_signature_found u;
     dns_query_results := dns_query_results u;
     good_dns_records := good_dns_records u;
     imported_fingerprints := imported_fingerprints u |}.

Definition with_version (v : string) (u : Updater) : Updater :=
  {| state := state u; next_state := next_state u; dnsValid := dnsValid u;
     hashValid := hashValid u; validGitianSigs := validGitianSigs u;
     minValidGitianSigs := minValidGitianSigs u;
     totalGitianSigs := totalGitianSigs u;
     processedGitianSigs := processedGitianSigs u; software := software u;
     buildtag := buildtag u; current_version := current_version u;
     version := v; expected_hash := expected_hash u;
     download_path := download_path u; messages := messages u;
     dns_query_done := dns_query_done u;
     version_check_done := version_check_done u;
     download_done := download_done u; download_success := download_success u;
     gitian_pubkeys_import_done := gitian_pubkeys_import_done u;
     gitian_pubkeys_import_success := gitian_pubkeys_import_success u;
     gitian_verify_sigs_done := gitian_verify_sigs_done u;
     gitian_verify_sigs_success := gitian_verify_sigs_success u;
     bad_gitian_signature_found := bad_gitian_signature_found u;
     dns_query_results := dns_query_results u;
     good_dns_records := good_dns_records u;
     imported_fingerprints := imported_fingerprints u |}.

Definition with_expected_hash (v : string) (u : Updater) : Updater :=
  {| state := state u; next_state := next_state u; dnsValid := dnsValid u;
     hashValid := hashValid u; validGitianSigs := validGitianSigs u;
     minValidGitianSigs := minValidGitianSigs u;
     totalGitianSigs := totalGitianSigs u;
     processedGitianSigs := processedGitianSigs u; software := software u;
     buildtag := buildtag u; current_version := current_version u;
     version := version u; expected_hash := v;
     download_path := download_path u; messages := messages u;
     dns_query_done := dns_query_done u;
     version_check_done := version_check_done u;
     download_done := download_done u; download_success := download_success u;
     gitian_pubkeys_import_done := gitian_pubkeys_import_done u;
     gitian_pubkeys_import_success := gitian_pubkeys_import_success u;
     gitian_verify_sigs_done := gitian_verify_sigs_done u;
     gitian_verify_sigs_success := gitian_verify_sigs_success u;
     bad_gitian_signature_found := bad_gitian_signature_found u;
     dns_query_results := dns_query_results u;
     good_dns_records := good_dns_records u;
     imported_fingerprints := imported_fingerprints u |}.

Definition with_download_path (v : string) (u : Updater) : Updater :=
  {| state := state u; next_state := next_state u; dnsValid := dnsValid u;
     hashValid := hashValid u; validGitianSigs := validGitianSigs u;
     minValidGitianSigs := minValidGitianSigs u;
     totalGitianSigs := totalGitianSigs u;
     processedGitianSigs := processedGitianSigs u; software := software u;
     buildtag := buildtag u; current_version := current_version u;
     version := version u; expected_hash := expected_hash u;
     download_path := v; messages := messages u;
     dns_query_done := dns_query_done u;
     version_check_done := version_check_done u;
     download_done := download_done u; download_success := download_success u;
     gitian_pubkeys_import_done := gitian_pubkeys_import_done u;
     gitian_pubkeys_import_success := gitian_pubkeys_import_success u;
     gitian_verify_sigs_done := gitian_verify_sigs_done u;
     gitian_verify_sigs_success := gitian_verify_sigs_success u;
     bad_gitian_signature_found := bad_gitian_signature_found u;
     dns_query_results := dns_query_results u;
     good_dns_records := good_dns_records u;
     imported_fingerprints := imported_fingerprints u |}.

Definition with_messages (v : list string) (u : Updater) : Updater :=
  {| state := state u; next_state := next_state u; dnsValid := dnsValid u;
     hashValid := hashValid u; validGitianSigs := validGitianSigs u;
     minValidGitianSigs := minValidGitianSigs u;
     totalGitianSigs := totalGitianSigs u;
     processedGitianSigs := processedGitianSigs u; software := software u;
     buildtag := buildtag u; current_version := current_version u;
     version := version u; expected_hash := expected_hash u;
     download_path := download_path u; messages := v;
     dns_query_done := dns_query_done u;
     version_check_done := version_check_done u;
     download_done := download_done u; download_success := download_success u;
     gitian_pubkeys_import_done := gitian_pubkeys_import_done u;
     gitian_pubkeys_import_success := gitian_pubkeys_import_success u;
     gitian_verify_sigs_done := gitian_verify_sigs_done u;
     gitian_verify_sigs_success := gitian_verify_sigs_success u;
     bad_gitian_signature_found := bad_gitian_signature_found u;
     dns_query_results := dns_query_results u;
     good_dns_records := good_dns_records u;
     imported_fingerprints := imported_fingerprints u |}.

Definition with_dns_query_done (v : bool) (u : Updater) : Updater :=
  {| state := state u; next_state := next_state u; dnsValid := dnsValid u;
     hashValid := hashValid u; validGitianSigs := validGitianSigs u;
     minValidGitianSigs := minValidGitianSigs u;
     totalGitianSigs := totalGitianSigs u;
     processedGitianSigs := processedGitianSigs u; software := software u;
     buildtag := buildtag u; current_version := current_version u;
     version := version u; expected_hash := expected_hash u;
     download_path := download_path u; messages := messages u;
     dns_query_done := v; version_check_done := version_check_done u;
     download_done := download_done u; download_success := download_success u;
     gitian_pubkeys_import_done := gitian_pubkeys_import_done u;
     gitian_pubkeys_import_success := gitian_pubkeys_import_success u;
     gitian_verify_sigs_done := gitian_verify_sigs_done u;
     gitian_verify_sigs_success := gitian_verify_sigs_success u;
     bad_gitian_signature_found := bad_gitian_signature_found u;
     dns_query_results := dns_query_results u;
     good_dns_records := good_dns_records u;
     imported_fingerprints := imported_fingerprints u |}.

Definition with_version_check_done (v : bool) (u : Updater) : Updater :=
  {| state := state u; next_state := next_state u; dnsValid := dnsValid u;
     hashValid := hashValid u; validGitianSigs := validGitianSigs u;
     minValidGitianSigs := minValidGitianSigs u;
     totalGitianSigs := totalGitianSigs u;
     processedGitianSigs := processedGitianSigs u; software := software u;
     buildtag := buildtag u; current_version := current_version u;
     version := version u; expected_hash := expected_hash u;
     download_path := download_path u; messages := messages u;
     dns_query_done := dns_query_done u; version_check_done := v;
     download_done := download_done u; download_success := download_success u;
     gitian_pubkeys_import_done := gitian_pubkeys_import_done u;
     gitian_pubkeys_import_success := gitian_pubkeys_import_success u;
     gitian_verify_sigs_done := gitian_verify_sigs_done u;
     gitian_verify_sigs_success := gitian_verify_sigs_success u;
     bad_gitian_signature_found := bad_gitian_signature_found u;
     dns_query_results := dns_query_results u;
     good_dns_records := good_dns_records u;
     imported_fingerprints := imported_fingerprints u |}.

Definition with_download_done (v : bool) (u : Updater) : Updater :=
  {| state := state u; next_state := next_state u; dnsValid := dnsValid u;
     hashValid := hashValid u; validGitianSigs := validGitianSigs u;
     minValidGitianSigs := minValidGitianSigs u;
     totalGitianSigs := totalGitianSigs u;
     processedGitianSigs := processedGitianSigs u; software := software u;
     buildtag := buildtag u; current_version := current_version u;
     version := version u; expected_hash := expected_hash u;
     download_path := download_path u; messages := messages u;
     dns_query_done := dns_query_done u;
     version_check_done := version_check_done u; download_done := v;
     download_success := download_success u;
     gitian_pubkeys_import_done := gitian_pubkeys_import_done u;
     gitian_pubkeys_import_success := gitian_pubkeys_import_success u;
     gitian_verify_sigs_done := gitian_verify_sigs_done u;
     gitian_verify_sigs_success := gitian_verify_sigs_success u;
     bad_gitian_signature_found := bad_gitian_signature_found u;
     dns_query_results := dns_query_results u;
     good_dns_records := good_dns_records u;
     imported_fingerprints := imported_fingerprints u |}.

Definition with_download_success (v : bool) (u : Updater) : Updater :=
  {| state := state u; next_state := next_state u; dnsValid := dnsValid u;
     hashValid := hashValid u; validGitianSigs := validGitianSigs u;
     minValidGitianSigs := minValidGitianSigs u;
     totalGitianSigs := totalGitianSigs u;
     processedGitianSigs := processedGitianSigs u; software := software u;
     buildtag := buildtag u; current_version := current_version u;
     version := version u; expected_hash := expected_hash u;
     download_path := download_path u; messages := messages u;
     dns_query_done := dns_query_done u;
     version_check_done := version_check_done u;
     download_done := download_done u; download_success := v;
     gitian_pubkeys_import_done := gitian_pubkeys_import_done u;
     gitian_pubkeys_import_success := gitian_pubkeys_import_success u;
     gitian_verify_sigs_done := gitian_verify_sigs_done u;
     gitian_verify_sigs_success := gitian_verify_sigs_success u;
     bad_gitian_signature_found := bad_gitian_signature_found u;
     dns_query_results := dns_query_results u;
     good_dns_records := good_dns_records u;
     imported_fingerprints := imported_fingerprints u |}.

Definition with_gitian_pubkeys_import_done (v : bool) (u : Updater) : Updater :=
  {| state := state u; next_state := next_state u; dnsValid := dnsValid u;
     hashValid := hashValid u; validGitianSigs := validGitianSigs u;
     minValidGitianSigs := minValidGitianSigs u;
     totalGitianSigs := totalGitianSigs u;
     processedGitianSigs := processedGitianSigs u; software := software u;
     buildtag := buildtag u; current_version := current_version u;
     version := version u; expected_hash := expected_hash u;
     download_path := download_path u; messages := messages u;
     dns_query_done := dns_query_done u;
     version_check_done := version_check_done u;
     download_done := download_done u; download_success := download_success u;
     gitian_pubkeys_import_done := v;
     gitian_pubkeys_import_success := gitian_pubkeys_import_success u;
     gitian_verify_sigs_done := gitian_verify_sigs_done u;
     gitian_verify_sigs_success := gitian_verify_sigs_success u;
     bad_gitian_signature_found := bad_gitian_signature_found u;
     dns_query_results := dns_query_results u;
     good_dns_records := good_dns_records u;
     imported_fingerprints := imported_fingerprints u |}.

Definition with_gitian_pubkeys_import_success (v : bool) (u : Updater) : Updater :=
  {| state := state u; next_state := next_state u; dnsValid := dnsValid u;
     hashValid := hashValid u; validGitianSigs := validGitianSigs u;
     minValidGitianSigs := minValidGitianSigs u;
     totalGitianSigs := totalGitianSigs u;
     processedGitianSigs := processedGitianSigs u; software := software u;
     buildtag := buildtag u; current_version := current_version u;
     version := version u; expected_hash := expected_hash u;
     download_path := download_path u; messages := messages u;
     dns_query_done := dns_query_done u;
     version_check_done := version_check_done u;
     download_done := download_done u; download_success := download_success u;
     gitian_pubkeys_import_done := gitian_pubkeys_import_done u;
     gitian_pubkeys_import_success := v;
     gitian_verify_sigs_done := gitian_verify_sigs_done u;
     gitian_verify_sigs_success := gitian_verify_sigs_success u;
     bad_gitian_signature_found := bad_gitian_signature_found u;
     dns_query_results := dns_query_results u;
     good_dns_records := good_dns_records u;
     imported_fingerprints := imported_fingerprints u |}.

Definition with_gitian_verify_sigs_done (v : bool) (u : Updater) : Updater :=
  {| state := state u; next_state := next_state u; dnsValid := dnsValid u;
     hashValid := hashValid u; validGitianSigs := validGitianSigs u;
     minValidGitianSigs := minValidGitianSigs u;
     totalGitianSigs := totalGitianSigs u;
     processedGitianSigs := processedGitianSigs u; software := software u;
     buildtag := buildtag u; current_version := current_version u;
     version := version u; expected_hash := expected_hash u;
     download_path := download_path u; messages := messages u;
     dns_query_done := dns_query_done u;
     version_check_done := version_check_done u;
     download_done := download_done u; download_success := download_success u;
     gitian_pubkeys_import_done := gitian_pubkeys_import_done u;
     gitian_pubkeys_import_success := gitian_pubkeys_import_success u;
     gitian_verify_sigs_done := v;
     gitian_verify_sigs_success := gitian_verify_sigs_success u;
     bad_gitian_signature_found := bad_gitian_signature_found u;
     dns_query_results := dns_query_results u;
     good_dns_records := good_dns_records u;
     imported_fingerprints := imported_fingerprints u |}.

Definition with_gitian_verify_sigs_success (v : bool) (u : Updater) : Updater :=
  {| state := state u; next_state := next_state u; dnsValid := dnsValid u;
     hashValid := hashValid u; validGitianSigs := validGitianSigs u;
     minValidGitianSigs := minValidGitianSigs u;
     totalGitianSigs := totalGitianSigs u;
     processedGitianSigs := processedGitianSigs u; software := software u;
     buildtag := buildtag u; current_version := current_version u;
     version := version u; expected_hash := expected_hash u;
     download_path := download_path u; messages := messages u;
     dns_query_done := dns_query_done u;
     version_check_done := version_check_done u;
     download_done := download_done u; download_success := download_success u;
     gitian_pubkeys_import_done := gitian_pubkeys_import_done u;
     gitian_pubkeys_import_success := gitian_pubkeys_import_success u;
     gitian_verify_sigs_done := gitian_verify_sigs_done u;
     gitian_verify_sigs_success := v;
     bad_gitian_signature_found := bad_gitian_signature_found u;
     dns_query_results := dns_query_results u;
     good_dns_records := good_dns_records u;
     imported_fingerprints := imported_fingerprints u |}.

Definition with_bad_gitian_signature_found (v : bool) (u : Updater) : Updater :=
  {| state := state u; next_state := next_state u; dnsValid := dnsValid u;
     hashValid := hashValid u; validGitianSigs := validGitianSigs u;
     minValidGitianSigs := minValidGitianSigs u;
     totalGitianSigs := totalGitianSigs u;
     processedGitianSigs := processedGitianSigs u; software := software u;
     buildtag := buildtag u; current_version := current_version u;
     version := version u; expected_hash := expected_hash u;
     download_path := download_path u; messages := messages u;
     dns_query_done := dns_query_done u;
     version_check_done := version_check_done u;
     download_done := download_done u; download_success := download_success u;
     gitian_pubkeys_import_done := gitian_pubkeys_import_done u;
     gitian_pubkeys_import_success := gitian_pubkeys_import_success u;
     gitian_verify_sigs_done := gitian_verify_sigs_done u;
     gitian_verify_sigs_success := gitian_verify_sigs_success u;
     bad_gitian_signature_found := v; dns_query_results := dns_query_results u;
     good_dns_records := good_dns_records u;
     imported_fingerprints := imported_fingerprints u |}.

Definition with_dns_query_results (v : list dns_query_result_t) (u : Updater) : Updater :=
  {| state := state u; next_state := next_state u; dnsValid := dnsValid u;
     hashValid := hashValid u; validGitianSigs := validGitianSigs u;
     minValidGitianSigs := minValidGitianSigs u;
     totalGitianSigs := totalGitianSigs u;
     processedGitianSigs := processedGitianSigs u; software := software u;
     buildtag := buildtag u; current_version := current_version u;
     version := version u; expected_hash := expected_hash u;
     download_path := download_path u; messages := messages u;
     dns_query_done := dns_query_done u;
     version_check_done := version_check_done u;
     download_done := download_done u; download_success := download_success u;
     gitian_pubkeys_import_done := gitian_pubkeys_import_done u;
     gitian_pubkeys_import_success := gitian_pubkeys_import_success u;
     gitian_verify_sigs_done := gitian_verify_sigs_done u;
     gitian_verify_sigs_success := gitian_verify_sigs_success u;
     bad_gitian_signature_found := bad_gitian_signature_found u;
     dns_query_results := v; good_dns_records := good_dns_records u;
     imported_fingerprints := imported_fingerprints u |}.

Definition with_good_dns_records (v : list string) (u : Updater) : Updater :=
  {| state := state u; next_state := next_state u; dnsValid := dnsValid u;
     hashValid := hashValid u; validGitianSigs := validGitianSigs u;
     minValidGitianSigs := minValidGitianSigs u;
     totalGitianSigs := totalGitianSigs u;
     processedGitianSigs := processedGitianSigs u; software := software u;
     buildtag := buildtag u; current_version := current_version u;
     version := version u; expected_hash := expected_hash u;
     download_path := download_path u; messages := messages u;
     dns_query_done := dns_query_done u;
     version_check_done := version_check_done u;
     download_done := download_done u; download_success := download_success u;
     gitian_pubkeys_import_done := gitian_pubkeys_import_done u;
     gitian_pubkeys_import_success := gitian_pubkeys_import_success u;
     gitian_verify_sigs_done := gitian_verify_sigs_done u;
     gitian_verify_sigs_success := gitian_verify_sigs_success u;
     bad_gitian_signature_found := bad_gitian_signature_found u;
     dns_query_results := dns_query_results u; good_dns_records := v;
     imported_fingerprints := imported_fingerprints u |}.

Definition with_imported_fingerprints (v : gmap string string) (u : Updater) : Updater :=
  {| state := state u; next_state := next_state u; dnsValid := dnsValid u;
     hashValid := hashValid u; validGitianSigs := validGitianSigs u;
     minValidGitianSigs := minValidGitianSigs u;
     totalGitianSigs := totalGitianSigs u;
     processedGitianSigs := processedGitianSigs u; software := software u;
     buildtag := buildtag u; current_version := current_version u;
     version := version u; expected_hash := expected_hash u;
     download_path := download_path u; messages := messages u;
     dns_query_done := dns_query_done u;
     version_check_done := version_check_done u;
     download_done := download_done u; download_success := download_success u;
     gitian_pubkeys_import_done := gitian_pubkeys_import_done u;
     gitian_pubkeys_import_success := gitian_pubkeys_import_success u;
     gitian_verify_sigs_done := gitian_verify_sigs_done u;
     gitian_verify_sigs_success := gitian_verify_sigs_success u;
     bad_gitian_signature_found := bad_gitian_signature_found u;
     dns_query_results := dns_query_results u;
     good_dns_records := good_dns_records u; imported_fingerprints := v |}.

(** The object together with the log of every signal emitted so far, most
    recent first; each signal is logged with the object as it was when the
    signal was emitted, which is what a connected slot can read back. *)
Record World := {
  self : Updater;
  emitted : list (Event * Updater)
}.

Definition assign (f : Updater -> Updater) (w : World) : World :=
  {| self := f (self w); emitted := emitted w |}.

Definition emit (e : Event) (w : World) : World :=
  {| self := self w; emitted := (e, self w) :: emitted w |}.

(** The signals alone, most recent first. *)
Definition signals (w : World) : list Event := map fst (emitted w).

(** The object as constructed, before the worker first runs. *)
Definition SOFTWARE : string := "monero".

Definition Updater_new (detect_build_tag : string) : World :=
  {| self :=
       {| state := StateNone; next_state := StateInit;
          dnsValid := TriUnknown; hashValid := TriUnknown;
          validGitianSigs := 0; minValidGitianSigs := 0;
          totalGitianSigs := 0; processedGitianSigs := 0;
          software := SOFTWARE; buildtag := detect_build_tag;
          current_version := ""; version := ""; expected_hash := "";
          download_path := ""; messages := [];
          dns_query_done := false; version_check_done := false;
          download_done := false; download_success := false;
          gitian_pubkeys_import_done := false;
          gitian_pubkeys_import_success := false;
          gitian_verify_sigs_done := false;
          gitian_verify_sigs_success := false;
          bad_gitian_signature_found := false;
          dns_query_results := []; good_dns_records := [];
          imported_fingerprints := ∅ |};
     emitted := [] |}.

(** ** Property setters *)

Definition setDnsValid (t : tristate_t) (w : World) : World :=
  let w := assign (with_dnsValid t) w in
  emit (dnsValidChanged (dnsValid (self w))) w.

Definition setHashValid (t : tristate_t) (w : World) : World :=
  let w := assign (with_hashValid t) w in
  emit (hashValidChanged (hashValid (self w))) w.

Definition setValidGitianSigs (sigs : Z) (w : World) : World :=
  let w := assign (with_validGitianSigs (u32 sigs)) w in
  emit (validGitianSigsChanged (validGitianSigs (self w))) w.

Definition setMinValidGitianSigs (sigs : Z) (w : World) : World :=
  let w := assign (with_minValidGitianSigs (u32 sigs)) w in
  emit (minValidGitianSigsChanged (validGitianSigs (self w))) w.

Definition setProcessedGitianSigs (sigs : Z) (w : World) : World :=
  let w := assign (with_processedGitianSigs (u32 sigs)) w in
  emit (processedGitianSigsChanged (processedGitianSigs (self w))) w.

Definition setTotalGitianSigs (sigs : Z) (w : World) : World :=
  let w := assign (with_totalGitianSigs (u32 sigs)) w in
  emit (totalGitianSigsChanged (totalGitianSigs (self w))) w.

Definition add_message (s : string) (w : World) : World :=
  let w := assign (fun u => with_messages (messages u ++ [s]) u) w in
  emit (message s) w.

(** [set_state] only records the requested state; the worker commits it. *)
Definition set_state (s : State) (w : World) : World :=
  assign (with_next_state s) w.

Definition getSelecting (u : Updater) : bool :=
  bool_decide (state u = StateInit).

(** ** String helpers standing for the library calls of the source *)

(** [boost::split(fields, s, boost::is_any_of(seps))]: every separator ends
    a field; adjacent separators give empty fields. *)
Fixpoint split (seps : ascii -> bool) (s : string) : list string :=
  match s with
  | EmptyString => [EmptyString]
  | String c rest =>
      if seps c then EmptyString :: split seps rest
      else match split seps rest with
           | [] => [String c EmptyString]
           | field :: fields => String c field :: fields
           end
  end.

Definition is_any_of (seps : string) (c : ascii) : bool :=
  existsb (Ascii.eqb c) (list_ascii_of_string seps).

(** [boost::join(l, sep)] *)
Fixpoint join (sep : string) (l : list string) : string :=
  match l with
  | [] => ""
  | [x] => x
  | x :: rest => x +:+ sep +:+ join sep rest
  end.

(** [isalnum] in the C locale. *)
Definition isalnum (c : ascii) : bool :=
  let n := nat_of_ascii c in
  ((48 <=? n)%nat && (n <=? 57)%nat) || ((65 <=? n)%nat && (n <=? 90)%nat)
  || ((97 <=? n)%nat && (n <=? 122)%nat).

Definition isdigit (c : ascii) : bool :=
  let n := nat_of_ascii c in (48 <=? n)%nat && (n <=? 57)%nat.

(** [strstr(haystack, needle) != NULL] *)
Fixpoint strstr (haystack needle : string) : bool :=
  String.prefix needle haystack
  || match haystack with
     | EmptyString => false
     | String _ rest => strstr rest needle
     end.

(** [s.find(c)]: index of the first [c], [None] for [npos]. *)
Fixpoint find_char (c : ascii) (s : string) : option nat :=
  match s with
  | EmptyString => None
  | String d rest =>
      if Ascii.eqb c d then Some 0 else S <$> find_char c rest
  end.

(** [s.substr(0, n)] *)
Definition substr0 (n : nat) (s : string) : string := String.substring 0 n s.

(** [std::to_string] on a size. *)
Definition to_string (n : nat) : string := pretty n.

(** ** Collaborators

    The services the class calls into: resolver, HTTP client, SHA-256,
    the OpenPGP engine, the regular-expression engine, the URL builder and
    the embedded key table. *)

(** What [gpgme_op_verify] and [gpgme_op_verify_result] give for one
    detached signature. *)
Record gpgme_signature := {
  fpr : string;
  status : Z;      (* gpg_error_t, 0 for success *)
  summary : Z      (* bit set of GPGME_SIGSUM_... *)
}.

Record verify_outcome := {
  contents_data_err : Z;     (* gpgme_data_new_from_mem on the contents *)
  signature_data_err : Z;    (* gpgme_data_new_from_mem on the signature *)
  op_verify_err : Z;         (* gpgme_op_verify *)
  verify_result : option (list gpgme_signature)
                             (* [None]: null result; [Some []]: no signatures *)
}.

(** What the import of one armored key gives. *)
Record import_outcome := {
  pubkey_data_err : Z;        (* gpgme_data_new_from_mem *)
  op_import_err : Z;          (* gpgme_op_import *)
  import_fpr : option string; (* [None]: no result, no import, no fingerprint
                                 or a failed import status *)
  get_key_err : Z;            (* gpgme_get_key *)
  tofu_policy_err : Z         (* gpgme_op_tofu_policy *)
}.

Definition GPGME_SIGSUM_VALID : Z := 1.
Definition GPGME_SIGSUM_GREEN : Z := 2.
Definition GPGME_SIGSUM_RED : Z := 4.

Record Env := {
  (* std::default_random_engine(time(NULL) ^ getpid())() *)
  random_engine : nat;
  (* tools::DNSResolver::get_txt_record *)
  get_txt_record : string -> dns_query_result_t;
  (* tools::download to a temporary file followed by load_file_to_string *)
  download : string -> option string;
  (* tools::sha256sum: the 32 bytes of the digest, or failure *)
  sha256sum : string -> option (list Byte.byte);
  (* tools::get_update_url software subdir buildtag version *)
  get_update_url : string -> string -> string -> string -> string;
  (* boost::filesystem::path(url).filename() *)
  path_filename : string -> string;
  (* temp_directory_path() / unique_path(pattern) *)
  unique_path : string -> string;
  (* boost::regex_search of an expression in a line: the first capture *)
  regex_search : string -> string -> option string;
  (* the anchors of the signature directory listing, see [listing_users] *)
  init_gpgme : bool;
  gpgme_import : string -> import_outcome;
  gpgme_verify : string -> string -> verify_outcome;
  (* pubkeys.h: owner label and armored key *)
  pubkeys : list (string * string)
}.

(** ** DNS quorum stage *)

Definition no_result : dns_query_result_t :=
  {| records := []; avail := false; valid := false |}.

(** The test the source applies to a record set: DNSSEC available and
    validated, and at least one record. *)
Definition is_valid_record_set (r : dns_query_result_t) : bool :=
  avail r && valid r && negb (Nat.eqb (length (records r)) 0).

(** Modelled from the spec: [tools::dns_utils::dns_records_match] lives in
    common/dns_utils, outside the file at hand; the spec describes it as
    equality of the two record lists as sets, ignoring element order. *)
Definition dns_records_match (a b : list string) : bool :=
  forallb (fun x => existsb (String.eqb x) b) a
  && forallb (fun y => existsb (String.eqb y) a) b.

(** The diagnostic do-while loop: every index once, starting at
    [first_index] and wrapping around. *)
Definition log_skipped_one (dns_urls : list string)
    (results : list dns_query_result_t) (cur_index : nat) (w : World) : World :=
  let url := nth cur_index dns_urls "" in
  let r := nth cur_index results no_result in
  if negb (avail r) then
    add_message ("DNSSEC not available for hostname: " +:+ url +:+ ", skipping.") w
  else if negb (valid r) then
    add_message ("DNSSEC validation failed for hostname: " +:+ url +:+ ", skipping.") w
  else if Nat.eqb (length (records r)) 0 then
    add_message ("No records for hostname: " +:+ url +:+ ", skipping.") w
  else w.

Definition log_skipped (dns_urls : list string)
    (results : list dns_query_result_t) (first_index : nat) (w : World) : World :=
  let n := length dns_urls in
  fold_left
    (fun w k => log_skipped_one dns_urls results ((first_index + k) mod n) w)
    (seq 0 n) w.

(** The nested search loops: the first [i < size - 1] that is a valid
    record set and whose records match those of some [j > i]. [None]
    stands for [good_records_index = -1]. *)
Definition matches_later (results : list dns_query_result_t) (i : nat) : bool :=
  existsb
    (fun j => dns_records_match (records (nth i results no_result))
                                (records (nth j results no_result)))
    (seq (i + 1) (length results - (i + 1))).

Definition find_good_records_index (results : list dns_query_result_t)
  : option nat :=
  List.find
    (fun i => is_valid_record_set (nth i results no_result)
              && matches_later results i)
    (seq 0 (length results - 1)).

Definition load_txt_records_from_dns (E : Env) (dns_urls : list string)
    (w : World) : World :=
  let w := assign (with_dns_query_done false) w in
  let w := setDnsValid TriUnknown w in
  let w := assign (with_good_dns_records []) w in
  let first_index := random_engine E mod length dns_urls in
  let w := add_message ("Lookup up DNS TXT records for: "
                        +:+ join ", " dns_urls) w in
  let results := map (get_txt_record E) dns_urls in
  let w := assign (with_dns_query_results results) w in
  let w := log_skipped dns_urls results first_index w in
  let num_valid_records := length (List.filter is_valid_record_set results) in
  if (num_valid_records <? 2)%nat then
    let w := add_message "WARNING: no two valid DNS TXT records were received" w in
    let w := setDnsValid TriFalse w in
    assign (with_dns_query_done true) w
  else
    match find_good_records_index results with
    | None =>
        let w := add_message "WARNING: no two DNS TXT records matched" w in
        let w := setDnsValid TriFalse w in
        assign (with_dns_query_done true) w
    | Some good_records_index =>
        let w := add_message ("Found " +:+ to_string num_valid_records +:+ "/"
                              +:+ to_string (length dns_urls)
                              +:+ " matching DNSSEC records") w in
        let w := assign (with_good_dns_records
                           (records (nth good_records_index results no_result))) w in
        let w := setDnsValid TriTrue w in
        assign (with_dns_query_done true) w
    end.

(** ** Version-selection stage *)

(** Modelled from the spec: [tools::vercmp] lives in common/vercmp, outside
    the file at hand; the spec describes it as a dotted-numeric comparator:
    component-wise integer compare, the shorter vector treated as
    zero-padded. The result is negative, zero or positive. *)
Fixpoint atoi_from (acc : Z) (s : string) : Z :=
  match s with
  | EmptyString => acc
  | String c rest =>
      if isdigit c
      then atoi_from (10 * acc + (Z.of_nat (nat_of_ascii c) - 48)) rest
      else acc
  end.

Definition version_fields (v : string) : list Z :=
  map (atoi_from 0) (split (is_any_of ".") v).

Fixpoint compare_fields (n : nat) (f0 f1 : list Z) : Z :=
  match n with
  | 0 => 0
  | S n =>
      let a := hd 0%Z f0 in
      let b := hd 0%Z f1 in
      if (a <? b)%Z then (-1)
      else if (b <? a)%Z then 1
      else compare_fields n (tl f0) (tl f1)
  end.

Definition vercmp (v0 v1 : string) : Z :=
  let f0 := version_fields v0 in
  let f1 := version_fields v1 in
  compare_fields (Nat.max (length f0) (length f1)) f0 f1.

(** The [for] loop of [process_version] with its locals [found] and [hash];
    the code after the loop is the [[]] case. *)
Fixpoint process_records (software buildtag : string) (records : list string)
    (found : bool) (hash : string) (w : World) : World :=
  match records with
  | [] =>
      let w :=
        if negb (String.eqb (version (self w)) "") then
          let w := assign (with_expected_hash hash) w in
          emit (versionChanged (version (self w))) w
        else w in
      assign (with_version_check_done true) w
  | record :: rest =>
      let w := add_message ("Got record: " +:+ record) w in
      let fields := split (is_any_of ":") record in
      if negb (Nat.eqb (length fields) 4) then
        let w := add_message ("Updates record does not have 4 fields: "
                              +:+ record) w in
        process_records software buildtag rest found hash w
      else
        let fields0 := nth 0 fields "" in
        let fields1 := nth 1 fields "" in
        let fields2 := nth 2 fields "" in
        let fields3 := nth 3 fields "" in
        if negb (String.eqb software fields0)
           || negb (String.eqb buildtag fields1) then
          process_records software buildtag rest found hash w
        else
          let alnum := forallb isalnum (list_ascii_of_string fields3) in
          if negb (Nat.eqb (String.length fields3) 64) && negb alnum then
            let w := add_message ("Invalid hash: " +:+ fields3) w in
            process_records software buildtag rest found hash w
          else
            let cmp := vercmp (version (self w)) fields2 in
            if found && (cmp >? 0)%Z then
              process_records software buildtag rest found hash w
            else if found && (cmp =? 0)%Z && negb (String.eqb hash fields3) then
              let w := add_message ("Two matches found for " +:+ software
                                    +:+ " version " +:+ version (self w)
                                    +:+ " on " +:+ buildtag) w in
              let w := assign (with_version "") w in
              assign (with_version_check_done true) w
            else
              let w := assign (with_version fields2) w in
              let hash := fields3 in
              let w := add_message ("Found new version " +:+ version (self w)
                                    +:+ " with hash " +:+ hash) w in
              process_records software buildtag rest true hash w
  end.

Definition process_version (software buildtag : string)
    (records : list string) (w : World) : World :=
  let w := assign (with_version_check_done false) w in
  let w := assign (with_version "") w in
  let w := emit (versionChanged "") w in
  process_records software buildtag records false "" w.

(** ** Download stage and the two commands *)

Definition subdir_of (buildtag software : string) : string :=
  if strstr buildtag "-source" then "source"
  else if strstr software "-gui" then "" else "cli".

Definition start_download (E : Env) (w : World) : World :=
  let subdir := subdir_of (buildtag (self w)) (software (self w)) in
  let url := get_update_url E (software (self w)) subdir (buildtag (self w))
                            (version (self w)) in
  let filename := path_filename E url in
  let w := assign (with_download_path
                     (unique_path E ("%%%%-%%%%-%%%%-%%%%-" +:+ filename))) w in
  let w := assign (with_download_done false) w in
  let w := assign (with_download_success false) w in
  let w := add_message ("Downloading " +:+ url +:+ " to "
                        +:+ download_path (self w)) w in
  emit downloadStarted w.

(** The completion callback handed to [tools::download_async]. *)
Definition on_result (success : bool) (w : World) : World :=
  let w := add_message ("Download finished: "
                        +:+ (if success then "success" else "failed")) w in
  let w := assign (with_download_done true) w in
  let w := assign (with_download_success success) w in
  emit (downloadFinished success) w.

(** The progress callback. *)
Definition on_progress (length content_length : Z) (w : World) : World :=
  emit (downloadProgress length content_length) w.

Definition retryDownload (w : World) : World :=
  if decide (state (self w) = StateDownloadFailed)
  then set_state StateDownload w
  else w.

Definition select (s : string) (w : World) : World :=
  if String.eqb s "gui" then
    let w := assign (with_software "monero-gui") w in
    set_state StateQueryDNS w
  else if String.eqb s "cli" then
    let w := assign (with_software "monero") w in
    set_state StateQueryDNS w
  else w.

(** ** Hash-check stage *)

Definition digits : string := "0123456789abcdef".

Definition digit_at (k : Z) : ascii :=
  match String.get (Z.to_nat k) digits with
  | Some c => c
  | None => "000"%char
  end.

(** The loop rendering [file_hash[0..31]] as text, two characters a byte. *)
Definition file_hash_as_text (file_hash : list Byte.byte) : string :=
  string_of_list_ascii
    (flat_map
       (fun i =>
          let b := Z.of_N (Byte.to_N (nth i file_hash Byte.x00)) in
          [digit_at (Z.shiftr b 4); digit_at (Z.land b 15)])
       (seq 0 32)).

#[global] Arguments file_hash_as_text : simpl never.

Definition check_hash (E : Env) (w : World) : World :=
  let w := setHashValid TriUnknown w in
  match sha256sum E (download_path (self w)) with
  | None =>
      let w := add_message "Error calculating file hash" w in
      setHashValid TriFalse w
  | Some file_hash =>
      let text := file_hash_as_text file_hash in
      if negb (String.eqb text (expected_hash (self w))) then
        let w := add_message "Invalid file hash" w in
        setHashValid TriFalse w
      else
        let w := add_message ("Update verified, hash " +:+ text) w in
        let w := emit (validUpdateReady (download_path (self w))) w in
        setHashValid TriTrue w
  end.

(** ** Public-key import stage *)

Definition import_failed (w : World) : World :=
  let w := assign (with_gitian_pubkeys_import_done true) w in
  assign (with_gitian_pubkeys_import_success false) w.

(** The loop over the key table; the code after the loop is the [[]] case. *)
Fixpoint import_keys (E : Env) (keys : list (string * string)) (w : World)
  : World :=
  match keys with
  | [] =>
      let w := assign (with_gitian_pubkeys_import_done true) w in
      assign (with_gitian_pubkeys_import_success true) w
  | e :: rest =>
      let o := gpgme_import E (snd e) in
      if negb (pubkey_data_err o =? 0)%Z then import_failed w
      else if negb (op_import_err o =? 0)%Z then import_failed w
      else match import_fpr o with
           | None => import_failed w
           | Some fingerprint =>
               if negb (get_key_err o =? 0)%Z then import_failed w
               else if negb (tofu_policy_err o =? 0)%Z then import_failed w
               else
                 let w := add_message ("Imported key " +:+ fingerprint
                                       +:+ " from " +:+ fst e) w in
                 let w := assign (fun u =>
                            with_imported_fingerprints
                              (<[fingerprint := fst e]> (imported_fingerprints u)) u) w in
                 import_keys E rest w
           end
  end.

Definition import_pubkeys (E : Env) (w : World) : World :=
  let w := assign (with_gitian_pubkeys_import_done false) w in
  let w := assign (with_gitian_pubkeys_import_success false) w in
  if negb (init_gpgme E) then
    let w := add_message "Failed to initialize GPG" w in
    import_failed w
  else import_keys E (pubkeys E) w.

(** ** Signature-quorum stage *)

(** [summary & bit] as a condition. *)
Definition has_bit (summary bit : Z) : bool := negb (Z.land summary bit =? 0)%Z.

(** [verify_gitian_signature]: the verdict, and [fingerprint], which is
    passed by reference and written only once a signature is at hand. *)
Definition verify_gitian_signature (E : Env) (contents signature : string)
    (fingerprint : string) : tristate_t * string :=
  let o := gpgme_verify E contents signature in
  if negb (contents_data_err o =? 0)%Z then (TriUnknown, fingerprint)
  else if negb (signature_data_err o =? 0)%Z then (TriUnknown, fingerprint)
  else if negb (op_verify_err o =? 0)%Z then (TriFalse, fingerprint)
  else match verify_result o with
       | None | Some [] => (TriFalse, fingerprint)
       | Some (sig :: _) =>
           let fingerprint := fpr sig in
           if negb (status sig =? 0)%Z then (TriUnknown, fingerprint)
           else if has_bit (summary sig) GPGME_SIGSUM_RED
           then (TriFalse, fingerprint)
           else if has_bit (summary sig) GPGME_SIGSUM_VALID
           then (TriTrue, fingerprint)
           else (TriTrue, fingerprint)
       end.

Definition dnssec_to_gitian : gmap string string :=
  list_to_map
    [ ("linux-x64", "x86_64-linux-gnu"); ("linux-x32", "i686-linux-gnu");
      ("win-x64", "x86_64-w64-mingw32"); ("win-x32", "i686-w64-mingw32");
      ("freebsd", "x86_64-unknown-freebsd");
      ("mac-x64", "x86_64-apple-darwin11");
      ("linux-armv7", "arm-linux-gnueabihf");
      ("linux-armv8", "aarch64-linux-gnu") ].

Definition platform_to_gitian : gmap string string :=
  list_to_map [ ("mac", "osx") ].

(** The [while (1)] scan of the listing page for user names. [idx] grows
    by at least the length of the prefix in every round, so the length of
    the page bounds the number of rounds. *)
Definition dquote : string := String "034"%char "".

Definition user_chars : string :=
  "abcdefghijlkmnopqrstuvwxyzABCDEFGHIJLKMNOPQRSTUVWXYZ_-0123456789".

Fixpoint scan_users (fuel : nat) (s link_prefix : string) (idx : nat)
    (users : list string) : list string :=
  match fuel with
  | 0 => users
  | S fuel =>
      match String.index idx link_prefix s with
      | None => users
      | Some idx =>
          let after := idx + String.length link_prefix in
          match String.index after dquote s with
          | None => users
          | Some idx2 =>
              if (String.length s <=? idx2 + 2)%nat then users
              else
                let user :=
                  if (idx2 =? after)%nat
                  then String.substring (after + 1) (String.length s) s
                  else String.substring (after + 1) (idx2 - after - 1) s in
                if (20 <? String.length user)%nat
                   || negb (forallb (is_any_of user_chars)
                              (list_ascii_of_string user))
                then scan_users fuel s link_prefix idx2 users
                else scan_users fuel s link_prefix idx2 (users ++ [user])
          end
      end
  end.

(** The last line of the assertion file that the expression matches gives
    [hash]; [None] when [found] stays false. *)
Definition find_hash (E : Env) (expression assert_contents : string)
  : option string :=
  fold_left
    (fun hash line =>
       match regex_search E expression line with
       | Some h => Some h
       | None => hash
       end)
    (split (is_any_of (String "010"%char "")) assert_contents) None.

(** The strings [fetch_gitian_sigs] builds from the object. *)
Definition gitian_platform (buildtag : string) : string :=
  let platform := buildtag in
  let platform :=
    match find_char "-"%char platform with
    | Some idx => substr0 idx platform
    | None => platform
    end in
  default platform (platform_to_gitian !! platform).

Definition base_tree_url_path (u : Updater) : string :=
  "/monero-project/gitian.sigs/tree/master/v" +:+ version u +:+ "-"
  +:+ gitian_platform (buildtag u).

Definition base_blob_url_path (u : Updater) : string :=
  "/monero-project/gitian.sigs/master/v" +:+ version u +:+ "-"
  +:+ gitian_platform (buildtag u).

Definition base_tree_url (u : Updater) : string :=
  "https://github.com" +:+ base_tree_url_path u.

Definition base_blob_url (u : Updater) : string :=
  "https://raw.githubusercontent.com" +:+ base_blob_url_path u.

Definition gitian_filename (E : Env) (u : Updater) : string :=
  let subdir := subdir_of (buildtag u) (software u) in
  let gitian_tag := default (buildtag u) (dnssec_to_gitian !! buildtag u) in
  let url := get_update_url E (software u) subdir gitian_tag (version u) in
  path_filename E url.

Definition hash_expression (filename : string) : string :=
  "([abcdefABCDEF0123456789]+)  " +:+ filename +:+ "$".

Definition assert_url (base_blob_url platform : string) (u : Updater)
    (user : string) : string :=
  base_blob_url +:+ "/" +:+ user +:+ "/" +:+ software u +:+ "-" +:+ platform
  +:+ "-" +:+ substr0 4 (version u) +:+ "-build.assert".

Definition sig_url (base_blob_url platform : string) (u : Updater)
    (user : string) : string :=
  base_blob_url +:+ "/" +:+ user +:+ "/" +:+ software u +:+ "-" +:+ platform
  +:+ "-" +:+ substr0 4 (version u) +:+ "-build.assert.sig".

(** One round of the loop over the users; [fingerprints] is the local map
    of the fingerprints already counted. *)
Definition verify_user (E : Env) (base_blob_url platform filename expression : string)
    (user : string) (st : gmap string string * World)
  : gmap string string * World :=
  let '(fingerprints, w) := st in
  let '(fingerprints, w) :=
    match download E (assert_url base_blob_url platform (self w) user) with
    | Some assert_contents =>
        match download E (sig_url base_blob_url platform (self w) user) with
        | Some sig_contents =>
            let '(res, fingerprint) :=
              verify_gitian_signature E assert_contents sig_contents "" in
            let it := fingerprints !! fingerprint in
            let imported := imported_fingerprints (self w) !! fingerprint in
            if TriState.eqb res TriTrue && bool_decide (it = None)
               && negb (bool_decide (imported = None)) then
              match find_hash E expression assert_contents with
              | None =>
                  (fingerprints,
                   add_message ("No hash found in Gitian assert file for "
                                +:+ filename +:+ " from " +:+ user) w)
              | Some hash =>
                  if negb (String.eqb hash (expected_hash (self w))) then
                    (fingerprints,
                     add_message ("Gitian hash does not match expected hash for "
                                  +:+ filename +:+ " from " +:+ user) w)
                  else
                    let w := add_message
                               ("Good Gitian signature with matching hash from "
                                +:+ user +:+ ", fingerprint " +:+ fingerprint) w in
                    let w := setValidGitianSigs (validGitianSigs (self w) + 1) w in
                    (<[fingerprint := user]> fingerprints, w)
              end
            else if TriState.eqb res TriTrue && bool_decide (it = None)
                    && bool_decide (imported = None) then
              (fingerprints,
               add_message ("Valid Gitian signature from " +:+ user
                            +:+ ", but from key " +:+ fingerprint
                            +:+ " which is not the one on record") w)
            else if TriState.eqb res TriTrue && negb (bool_decide (it = None)) then
              (fingerprints,
               add_message ("Duplicate Gitian signature from " +:+ user
                            +:+ ", previously seen from " +:+ default "" it
                            +:+ ", fingerprint " +:+ fingerprint) w)
            else if TriState.eqb res TriFalse then
              let w := add_message ("Bad Gitian signature from " +:+ user) w in
              (fingerprints, assign (with_bad_gitian_signature_found true) w)
            else
              (fingerprints,
               add_message ("Inconclusive Gitian signature from " +:+ user
                            +:+ ", fingerprint " +:+ fingerprint) w)
        | None =>
            (fingerprints,
             add_message ("Failed to fetch "
                          +:+ sig_url base_blob_url platform (self w) user) w)
        end
    | None =>
        (fingerprints,
         add_message ("Failed to fetch "
                      +:+ assert_url base_blob_url platform (self w) user) w)
    end in
  (fingerprints, setProcessedGitianSigs (processedGitianSigs (self w) + 1) w).

Definition verify_users (E : Env) (base_blob_url platform filename expression : string)
    (users : list string) (st : gmap string string * World)
  : gmap string string * World :=
  fold_left
    (fun st user => verify_user E base_blob_url platform filename expression user st)
    users st.

(** The stretches of [fetch_gitian_sigs] around its loop: the resets at
    its head, the two ways of finding no signatures, and the verdict after
    the loop. *)
Definition sigs_reset (w : World) : World :=
  let w := assign (with_gitian_verify_sigs_success false) w in
  let w := assign (with_gitian_verify_sigs_success false) w in
  let w := assign (with_bad_gitian_signature_found false) w in
  let w := setTotalGitianSigs 0 w in
  let w := setProcessedGitianSigs 0 w in
  add_message ("Fetching Gitian signatures from " +:+ base_tree_url (self w)) w.

Definition no_gitian_sigs (w : World) : World :=
  let w := add_message "Gitian signatures not found" w in
  let w := setValidGitianSigs 0 w in
  let w := assign (with_gitian_verify_sigs_done true) w in
  let w := assign (with_gitian_verify_sigs_success false) w in
  set_state StateNoGitianSigs w.

Definition no_users_listed (w : World) : World :=
  let w := assign (with_gitian_verify_sigs_done true) w in
  let w := assign (with_gitian_verify_sigs_success false) w in
  let w := add_message "No Gitian signatures found" w in
  set_state StateNoGitianSigs w.

Definition sigs_loop_exit (w : World) : World :=
  let w := assign (with_gitian_verify_sigs_done true) w in
  assign (fun u =>
            with_gitian_verify_sigs_success
              ((MIN_GITIAN_SIGS <=? validGitianSigs u)%Z
               && negb (bad_gitian_signature_found u)) u) w.

Definition fetch_gitian_sigs (E : Env) (w : World) : World :=
  let w := sigs_reset w in
  let platform := gitian_platform (buildtag (self w)) in
  let base_tree_url := base_tree_url (self w) in
  let base_blob_url := base_blob_url (self w) in
  match download E base_tree_url with
  | None => no_gitian_sigs w
  | Some s =>
      let filename := gitian_filename E (self w) in
      let expression := hash_expression filename in
      let w := setValidGitianSigs 0 w in
      let w := setMinValidGitianSigs MIN_GITIAN_SIGS w in
      let link_prefix := "href=" +:+ dquote +:+ base_tree_url_path (self w) in
      let users := scan_users (S (String.length s)) s link_prefix 0 [] in
      if Nat.eqb (length users) 0 then no_users_listed w
      else
        let w := set_state StateVerifyGitianSignatures w in
        let w := setTotalGitianSigs (Z.of_nat (length users)) w in
        let '(_, w) := verify_users E base_blob_url platform filename
                                    expression users (∅, w) in
        sigs_loop_exit w
  end.

(** ** The state machine *)

Definition change_state (E : Env) (w : World) : World :=
  if decide (state (self w) = next_state (self w)) then w
  else
    let w := assign (fun u => with_state (next_state u) u) w in
    let s := state (self w) in
    let selecting := getSelecting (self w) in
    let w := emit (stateChanged (get_state_name s)) w in
    let w := emit (stateOutcomeChanged (get_state_outcome s)) w in
    let w := emit (selectingChanged selecting) w in
    match s with
    | StateInit =>
        let w := assign (with_dns_query_done false) w in
        let w := assign (with_version_check_done false) w in
        let w := setDnsValid TriUnknown w in
        let w := setHashValid TriUnknown w in
        let w := setValidGitianSigs 0 w in
        let w := setMinValidGitianSigs 0 w in
        assign (with_bad_gitian_signature_found false) w
    | StateQueryDNS => load_txt_records_from_dns E dns_urls w
    | StateCheckVersion =>
        process_version (software (self w)) (buildtag (self w))
                        (good_dns_records (self w)) w
    | StateDownload => start_download E w
    | StateCheckHash => check_hash E w
    | StateImportPubkeys => import_pubkeys E w
    | StateFetchGitianSigs => fetch_gitian_sigs E w
    | _ => w
    end.

(** One round of the loop of [updater_thread] while [running] holds. *)
Definition updater_thread (E : Env) (w : World) : World :=
  let w := change_state E w in
  let u := self w in
  match state u with
  | StateQueryDNS =>
      if negb (dns_query_done u) then w
      else if Nat.eqb (length (good_dns_records u)) 0
      then set_state StateDNSFailed w
      else set_state StateCheckVersion w
  | StateCheckVersion =>
      if negb (version_check_done u) then w
      else if String.eqb (version u) "" then set_state StateNoUpdateInfoFound w
      else
        let cmp := vercmp (version u) (current_version u) in
        if (cmp >? 0)%Z then set_state StateImportPubkeys w
        else if (cmp <? 0)%Z then set_state StateBackInTime w
        else set_state StateUpToDate w
  | StateImportPubkeys =>
      if negb (gitian_pubkeys_import_done u) then w
      else if gitian_pubkeys_import_success u
      then set_state StateFetchGitianSigs w
      else set_state StatePubkeyImportFailed w
  | StateVerifyGitianSignatures =>
      if negb (gitian_verify_sigs_done u) then w
      else if gitian_verify_sigs_success u then set_state StateDownload w
      else if negb (bad_gitian_signature_found u)
      then set_state StateNotEnoughGitianSigs w
      else set_state StateBadGitianSigs w
  | StateDownload =>
      if negb (download_done u) then w
      else if download_success u then set_state StateCheckHash w
      else set_state StateDownloadFailed w
  | StateCheckHash =>
      match hashValid u with
      | TriTrue => set_state StateValidUpdate w
      | TriFalse => set_state StateBadHash w
      | TriUnknown => w
      end
  | _ => w
  end.

(** [n] rounds of the worker with no command in between. *)
Fixpoint updater_thread_rounds (E : Env) (n : nat) (w : World) : World :=
  match n with
  | 0 => w
  | S n => updater_thread_rounds E n (updater_thread E w)
  end.

(** ** A concrete run

    A small world in which every collaborator is scripted: two domains
    publish the same record, three users ([alice], [bob], [carol]) are
    listed, every file can be fetched, and the engine knows one key per
    user. The signature the engine reports for [carol] is left open. *)

Definition good_file_hash : list Byte.byte := repeat Byte.xab 32.

Definition good_hash : string := file_hash_as_text good_file_hash.

Definition good_record : string := "monero:linux-x64:0.18.1:" +:+ good_hash.

Definition anchor (user : string) : string :=
  "<a href=" +:+ dquote +:+ "/monero-project/gitian.sigs/tree/master/v0.18.1-linux/"
  +:+ user +:+ dquote +:+ ">" +:+ user +:+ "</a> ".

Definition listing_page : string :=
  anchor "alice" +:+ anchor "bob" +:+ anchor "carol" +:+ "</html>".

Definition good_signature (fingerprint : string) : gpgme_signature :=
  {| fpr := fingerprint; status := 0;
     summary := Z.lor GPGME_SIGSUM_VALID GPGME_SIGSUM_GREEN |}.

Definition red_signature (fingerprint : string) : gpgme_signature :=
  {| fpr := fingerprint; status := 0; summary := GPGME_SIGSUM_RED |}.

Definition verified (sig : gpgme_signature) : verify_outcome :=
  {| contents_data_err := 0; signature_data_err := 0; op_verify_err := 0;
     verify_result := Some [sig] |}.

Definition imported_ok (fingerprint : string) : import_outcome :=
  {| pubkey_data_err := 0; op_import_err := 0;
     import_fpr := Some fingerprint; get_key_err := 0; tofu_policy_err := 0 |}.

Definition scripted (answers : string -> dns_query_result_t)
    (digest : option (list Byte.byte)) (carol : gpgme_signature) : Env :=
  {| random_engine := 7;
     get_txt_record := answers;
     download := fun url =>
       if String.eqb url
            "https://github.com/monero-project/gitian.sigs/tree/master/v0.18.1-linux"
       then Some listing_page else Some url;
     sha256sum := fun _ => digest;
     get_update_url := fun software subdir buildtag version =>
       "https://downloads.getmonero.org/" +:+ subdir +:+ "/" +:+ software
       +:+ "-" +:+ buildtag +:+ "-v" +:+ version +:+ ".tar.bz2";
     path_filename := fun url => List.last (split (is_any_of "/") url) "";
     unique_path := fun pattern => "/tmp/" +:+ pattern;
     regex_search := fun _ line =>
       if String.eqb line "" then None else Some good_hash;
     init_gpgme := true;
     gpgme_import := imported_ok;
     gpgme_verify := fun contents _ =>
       if strstr contents "/alice/" then verified (good_signature "A11CE")
       else if strstr contents "/bob/" then verified (good_signature "B0B")
       else verified carol;
     pubkeys := [("alice", "A11CE"); ("bob", "B0B"); ("carol", "CA401")] |}.

Definition two_domains_agree (host : string) : dns_query_result_t :=
  if String.eqb host "updates.moneropulse.org"
     || String.eqb host "updates.moneropulse.net"
  then {| records := [good_record]; avail := true; valid := true |}
  else no_result.

(** The object on a 64-bit Linux host, the worker having run once and the
    user having chosen the command-line tools. *)
Definition started : World :=
  select "cli" (updater_thread (scripted two_domains_agree None (good_signature "CA401"))
                               (Updater_new "linux-x64")).

(** The same run with a digest service that fails, taken up to the round
    in which the finished download is noticed. *)
Definition no_digest : Env :=
  scripted two_domains_agree None (good_signature "CA401").

Definition downloaded : World :=
  updater_thread no_digest
    (on_result true (updater_thread_rounds no_digest 6 started)).

(** ** Spec-side notions used in the statements below *)

(** The resolver of a run in which the third domain offers the records of
    the first without DNSSEC, and the second domain publishes another
    release. *)
Definition other_record : string :=
  "monero:linux-x64:0.18.0:" +:+ file_hash_as_text (repeat Byte.xcd 32).

Definition unvalidated_echo (host : string) : dns_query_result_t :=
  if String.eqb host "updates.moneropulse.org"
  then {| records := [good_record]; avail := true; valid := true |}
  else if String.eqb host "updates.moneropulse.net"
  then {| records := [other_record]; avail := true; valid := true |}
  else if String.eqb host "updates.moneropulse.co"
  then {| records := [good_record]; avail := false; valid := false |}
  else no_result.

(** A resolver that reaches nobody. *)
Definition dns_down (host : string) : dns_query_result_t := no_result.





(** Lowercase hexadecimal as the spec words it, stated on its own and not
    through the rendering loop of [check_hash]: a digit below ten is the
    character ['0'] plus the digit, a digit from ten on the character
    ['a'] plus the digit minus ten; a byte gives the digit of its high
    half and then the digit of its low half; a sequence of bytes gives the
    digits of its bytes in order. *)
Definition lower_hex_digit (n : N) : ascii :=
  if (n <? 10)%N then ascii_of_N (N_of_ascii "0" + n)
  else ascii_of_N (N_of_ascii "a" + (n - 10)).

Definition lower_hex_of_byte (b : Byte.byte) : list ascii :=
  [lower_hex_digit (Byte.to_N b / 16); lower_hex_digit (Byte.to_N b mod 16)].

Definition lower_hex (bytes : list Byte.byte) : string :=
  string_of_list_ascii (flat_map lower_hex_of_byte bytes).

(** The 32 bytes of a SHA-256 digest. [crypto::hash] is an array of 32
    bytes; a list stands for it here, and a list of another length is read
    as its first 32 bytes, absent ones being zero. *)
Definition sha256_bytes (file_hash : list Byte.byte) : list Byte.byte :=
  firstn 32 (file_hash ++ repeat Byte.x00 32).

(** The hash check as the spec words it: the digest of the downloaded file,
    in lowercase hexadecimal, is the expected hash. *)
Definition hash_matches (E : Env) (u : Updater) : Prop :=
  exists file_hash,
    sha256sum E (download_path u) = Some file_hash
    /\ lower_hex (sha256_bytes file_hash) = expected_hash u.

Definition is_validUpdateReady (e : Event) : bool :=
  match e with validUpdateReady _ => true | _ => false end.

(** A character of [0-9a-f]. *)
Definition is_lower_hex (c : ascii) : bool :=
  let n := N_of_ascii c in
  ((N_of_ascii "0" <=? n) && (n <=? N_of_ascii "9"))%N
  || ((N_of_ascii "a" <=? n) && (n <=? N_of_ascii "f"))%N.

(** The resolver of a run in which the two domains that answer publish,
    for the same version, two records with different hashes. *)
Definition rival_record : string :=
  "monero:linux-x64:0.18.1:" +:+ lower_hex (repeat Byte.xcd 32).

Definition two_hashes_published (host : string) : dns_query_result_t :=
  if String.eqb host "updates.moneropulse.org"
     || String.eqb host "updates.moneropulse.net"
  then {| records := [good_record; rival_record]; avail := true; valid := true |}
  else no_result.

Definition tie_published : Env :=
  scripted two_hashes_published None (good_signature "CA401").

(** That run, up to the round in which the DNS answers are in. *)
Definition tie_queried : World := updater_thread tie_published started.

(** The world once the worker has committed the requested state and
    announced it, before the entry action runs. *)
Definition committed (w : World) : World :=
  let w := assign (fun u => with_state (next_state u) u) w in
  let s := state (self w) in
  let w := emit (stateChanged (get_state_name s)) w in
  let w := emit (stateOutcomeChanged (get_state_outcome s)) w in
  emit (selectingChanged (getSelecting (self w))) w.

(** What the filter at the head of the loop of [process_version] lets
    through: the version and hash fields of a record with four fields, the
    right software and build tag, and a hash field the test accepts. *)
Definition survivor (software buildtag record : string)
  : option (string * string) :=
  let fields := split (is_any_of ":") record in
  if negb (Nat.eqb (length fields) 4) then None
  else if negb (String.eqb software (nth 0 fields ""))
          || negb (String.eqb buildtag (nth 1 fields "")) then None
  else
    let fields3 := nth 3 fields "" in
    if negb (Nat.eqb (String.length fields3) 64)
       && negb (forallb isalnum (list_ascii_of_string fields3)) then None
    else Some (nth 2 fields "", fields3).

Fixpoint survivors (software buildtag : string) (records : list string)
  : list (string * string) :=
  match records with
  | [] => []
  | record :: rest =>
      match survivor software buildtag record with
      | Some r => r :: survivors software buildtag rest
      | None => survivors software buildtag rest
      end
  end.

(** The choice the loop makes among the survivors, started with its locals
    [found], [version] and [hash]: [None] when it gives up on two matches,
    otherwise the version and hash it ends with. *)
Fixpoint pick (l : list (string * string)) (found : bool)
    (version hash : string) : option (string * string) :=
  match l with
  | [] => Some (version, hash)
  | (v, h) :: rest =>
      let cmp := vercmp version v in
      if found && (cmp >? 0)%Z then pick rest found version hash
      else if found && (cmp =? 0)%Z && negb (String.eqb hash h) then None
      else pick rest true v h
  end.

(** Two survivors of equal version and different hashes. *)
Definition ambiguous (l : list (string * string)) : bool :=
  existsb
    (fun r1 =>
       existsb (fun r2 => (vercmp (fst r1) (fst r2) =? 0)%Z
                          && negb (String.eqb (snd r1) (snd r2))) l)
    l.

(** [r] has the highest version of [l]. *)
Definition is_top (l : list (string * string)) (r : string * string) : bool :=
  forallb (fun r' => (0 <=? vercmp (fst r) (fst r'))%Z) l.

(** Two survivors of the highest version with different hashes. *)
Definition top_ambiguous (l : list (string * string)) : bool :=
  existsb
    (fun r1 =>
       is_top l r1
       && existsb (fun r2 => is_top l r2
                             && negb (String.eqb (snd r1) (snd r2))) l)
    l.

(** What the engine says of the signature a user published: [None] when
    the assertion or its signature cannot be fetched, otherwise the verdict
    and fingerprint [verify_gitian_signature] returns. *)
Definition user_verdict (E : Env) (base_blob_url platform : string)
    (u : Updater) (user : string) : option (tristate_t * string) :=
  match download E (assert_url base_blob_url platform u user) with
  | Some assert_contents =>
      match download E (sig_url base_blob_url platform u user) with
      | Some sig_contents =>
          Some (verify_gitian_signature E assert_contents sig_contents "")
      | None => None
      end
  | None => None
  end.

(** The users [fetch_gitian_sigs] finds in the listing page. *)
Definition listed_users (E : Env) (u : Updater) : list string :=
  match download E (base_tree_url u) with
  | Some s =>
      scan_users (S (String.length s)) s
                 ("href=" +:+ dquote +:+ base_tree_url_path u) 0 []
  | None => []
  end.

(** The end of every round of the loop over the users. *)
Definition finish_round (w : World) : World :=
  setProcessedGitianSigs (processedGitianSigs (self w) + 1) w.

(** The fingerprints for which a run of the loop increments
    [validGitianSigs], in the order of the rounds. *)
Fixpoint counted_fingerprints (E : Env)
    (base_blob_url platform filename expression : string)
    (users : list string) (st : gmap string string * World) : list string :=
  match users with
  | [] => []
  | user :: rest =>
      let st' := verify_user E base_blob_url platform filename expression
                             user st in
      let later := counted_fingerprints E base_blob_url platform filename
                                        expression rest st' in
      if (validGitianSigs (self (snd st')) =? validGitianSigs (self (snd st)))%Z
      then later
      else match user_verdict E base_blob_url platform (self (snd st)) user with
           | Some (_, fingerprint) => fingerprint :: later
           | None => later
           end
  end.

(** The three counters as the spec orders them, and as they stand between
    the two increments of one round. *)
Definition counters_ordered (u : Updater) : Prop :=
  (0 <= validGitianSigs u <= processedGitianSigs u
   /\ processedGitianSigs u <= totalGitianSigs u)%Z.

Definition counters_in_round (u : Updater) : Prop :=
  (0 <= validGitianSigs u <= processedGitianSigs u + 1
   /\ 0 <= processedGitianSigs u <= totalGitianSigs u)%Z.

(** The run in which [carol] publishes a signature the engine marks RED,
    taken up to the round in which the keys are imported. *)
Definition bad_carol : Env :=
  scripted two_domains_agree (Some good_file_hash) (red_signature "CA401").

Definition keys_imported : World := updater_thread_rounds bad_carol 3 started.

(** The world in which the loop over [users] starts. *)
Definition sigs_loop_entry (users : list string) (w : World) : World :=
  let w := sigs_reset w in
  let w := setValidGitianSigs 0 w in
  let w := setMinValidGitianSigs MIN_GITIAN_SIGS w in
  let w := set_state StateVerifyGitianSignatures w in
  setTotalGitianSigs (Z.of_nat (length users)) w.

(** What a round leaves untouched. *)
Definition same_inputs (u u' : Updater) : Prop :=
  software u' = software u /\ version u' = version u
  /\ buildtag u' = buildtag u /\ expected_hash u' = expected_hash u
  /\ imported_fingerprints u' = imported_fingerprints u
  /\ totalGitianSigs u' = totalGitianSigs u
  /\ state u' = state u /\ next_state u' = next_state u
  /\ gitian_verify_sigs_done u' = gitian_verify_sigs_done u.

(** * Notions for the statements on whole runs and single stages *)

(** ** Observing the fields of the object

    One name per member of the class that the model carries, and the
    value of a member as an element of one type, so that what an operation
    leaves alone can be said of all these members at once. The model
    carries every member [updater.cpp] names except the handles
    [download_handle], [gpg_home] and [ctx] and the plumbing of the worker
    thread ([running], [thread], [mutex], [cond]); nothing is said here of
    those. *)
Inductive field : Set :=
  | F_state | F_next_state | F_dnsValid
  | F_hashValid | F_validGitianSigs | F_minValidGitianSigs
  | F_totalGitianSigs | F_processedGitianSigs | F_software
  | F_buildtag | F_current_version | F_version
  | F_expected_hash | F_download_path | F_messages
  | F_dns_query_done | F_version_check_done | F_download_done
  | F_download_success | F_gitian_pubkeys_import_done | F_gitian_pubkeys_import_success
  | F_gitian_verify_sigs_done | F_gitian_verify_sigs_success | F_bad_gitian_signature_found
  | F_dns_query_results | F_good_dns_records | F_imported_fingerprints.

Inductive observation :=
  | OState (s : State) | OTri (t : tristate_t) | OZ (z : Z) | OStr (s : string)
  | OBool (b : bool) | OStrs (l : list string)
  | OResults (l : list dns_query_result_t) | OMap (m : gmap string string).

Definition observe (f : field) (u : Updater) : observation :=
  match f with
  | F_state => OState (state u)
  | F_next_state => OState (next_state u)
  | F_dnsValid => OTri (dnsValid u)
  | F_hashValid => OTri (hashValid u)
  | F_validGitianSigs => OZ (validGitianSigs u)
  | F_minValidGitianSigs => OZ (minValidGitianSigs u)
  | F_totalGitianSigs => OZ (totalGitianSigs u)
  | F_processedGitianSigs => OZ (processedGitianSigs u)
  | F_software => OStr (software u)
  | F_buildtag => OStr (buildtag u)
  | F_current_version => OStr (current_version u)
  | F_version => OStr (version u)
  | F_expected_hash => OStr (expected_hash u)
  | F_download_path => OStr (download_path u)
  | F_messages => OStrs (messages u)
  | F_dns_query_done => OBool (dns_query_done u)
  | F_version_check_done => OBool (version_check_done u)
  | F_download_done => OBool (download_done u)
  | F_download_success => OBool (download_success u)
  | F_gitian_pubkeys_import_done => OBool (gitian_pubkeys_import_done u)
  | F_gitian_pubkeys_import_success => OBool (gitian_pubkeys_import_success u)
  | F_gitian_verify_sigs_done => OBool (gitian_verify_sigs_done u)
  | F_gitian_verify_sigs_success => OBool (gitian_verify_sigs_success u)
  | F_bad_gitian_signature_found => OBool (bad_gitian_signature_found u)
  | F_dns_query_results => OResults (dns_query_results u)
  | F_good_dns_records => OStrs (good_dns_records u)
  | F_imported_fingerprints => OMap (imported_fingerprints u)
  end.

Definition field_eqb (f g : field) : bool :=
  match f, g with
  | F_state, F_state => true
  | F_next_state, F_next_state => true
  | F_dnsValid, F_dnsValid => true
  | F_hashValid, F_hashValid => true
  | F_validGitianSigs, F_validGitianSigs => true
  | F_minValidGitianSigs, F_minValidGitianSigs => true
  | F_totalGitianSigs, F_totalGitianSigs => true
  | F_processedGitianSigs, F_processedGitianSigs => true
  | F_software, F_software => true
  | F_buildtag, F_buildtag => true
  | F_current_version, F_current_version => true
  | F_version, F_version => true
  | F_expected_hash, F_expected_hash => true
  | F_download_path, F_download_path => true
  | F_messages, F_messages => true
  | F_dns_query_done, F_dns_query_done => true
  | F_version_check_done, F_version_check_done => true
  | F_download_done, F_download_done => true
  | F_download_success, F_download_success => true
  | F_gitian_pubkeys_import_done, F_gitian_pubkeys_import_done => true
  | F_gitian_pubkeys_import_success, F_gitian_pubkeys_import_success => true
  | F_gitian_verify_sigs_done, F_gitian_verify_sigs_done => true
  | F_gitian_verify_sigs_success, F_gitian_verify_sigs_success => true
  | F_bad_gitian_signature_found, F_bad_gitian_signature_found => true
  | F_dns_query_results, F_dns_query_results => true
  | F_good_dns_records, F_good_dns_records => true
  | F_imported_fingerprints, F_imported_fingerprints => true
  | _, _ => false
  end.

Definition among (f : field) (l : list field) : bool := existsb (field_eqb f) l.

(** [u'] differs from [u] in the members [l] at most. *)
Definition changes_only (l : list field) (u u' : Updater) : Prop :=
  forall f, among f l = false -> observe f u' = observe f u.

(** ** The worker seen as two halves *)

(** The [switch] of [updater_thread] that polls the stage of the current
    state; [updater_thread] is [change_state] followed by it. *)
Definition poll (w : World) : World :=
  let u := self w in
  match state u with
  | StateQueryDNS =>
      if negb (dns_query_done u) then w
      else if Nat.eqb (length (good_dns_records u)) 0
      then set_state StateDNSFailed w
      else set_state StateCheckVersion w
  | StateCheckVersion =>
      if negb (version_check_done u) then w
      else if String.eqb (version u) "" then set_state StateNoUpdateInfoFound w
      else
        let cmp := vercmp (version u) (current_version u) in
        if (cmp >? 0)%Z then set_state StateImportPubkeys w
        else if (cmp <? 0)%Z then set_state StateBackInTime w
        else set_state StateUpToDate w
  | StateImportPubkeys =>
      if negb (gitian_pubkeys_import_done u) then w
      else if gitian_pubkeys_import_success u
      then set_state StateFetchGitianSigs w
      else set_state StatePubkeyImportFailed w
  | StateVerifyGitianSignatures =>
      if negb (gitian_verify_sigs_done u) then w
      else if gitian_verify_sigs_success u then set_state StateDownload w
      else if negb (bad_gitian_signature_found u)
      then set_state StateNotEnoughGitianSigs w
      else set_state StateBadGitianSigs w
  | StateDownload =>
      if negb (download_done u) then w
      else if download_success u then set_state StateCheckHash w
      else set_state StateDownloadFailed w
  | StateCheckHash =>
      match hashValid u with
      | TriTrue => set_state StateValidUpdate w
      | TriFalse => set_state StateBadHash w
      | TriUnknown => w
      end
  | _ => w
  end.

(** The edges the worker can ask for: those of the [switch] above, and the
    two [fetch_gitian_sigs] asks for itself. *)
Definition worker_edge (s s' : State) : bool :=
  match s, s' with
  | StateQueryDNS, (StateDNSFailed | StateCheckVersion)
  | StateCheckVersion,
    (StateNoUpdateInfoFound | StateImportPubkeys | StateBackInTime
     | StateUpToDate)
  | StateImportPubkeys, (StateFetchGitianSigs | StatePubkeyImportFailed)
  | StateFetchGitianSigs, (StateVerifyGitianSignatures | StateNoGitianSigs)
  | StateVerifyGitianSignatures,
    (StateDownload | StateNotEnoughGitianSigs | StateBadGitianSigs)
  | StateDownload, (StateCheckHash | StateDownloadFailed)
  | StateCheckHash, (StateValidUpdate | StateBadHash) => true
  | _, _ => false
  end.

(** The states in which a round of the worker can do something once the
    state is committed. *)
Definition polled (s : State) : bool :=
  match s with
  | StateQueryDNS | StateCheckVersion | StateImportPubkeys
  | StateVerifyGitianSignatures | StateDownload | StateCheckHash => true
  | _ => false
  end.

(** The states past the DNS quorum, and those past the signature quorum. *)
Definition after_dns (s : State) : bool :=
  match s with
  | StateNone | StateInit | StateQueryDNS | StateDNSFailed => false
  | _ => true
  end.

Definition after_quorum (s : State) : bool :=
  match s with
  | StateDownload | StateDownloadFailed | StateCheckHash | StateBadHash
  | StateValidUpdate => true
  | _ => false
  end.

(** ** Runs

    What can happen to the object: a round of the worker, one of the two
    commands, or a callback of the download. *)
Inductive step (E : Env) : World -> World -> Prop :=
  | step_round w : step E w (updater_thread E w)
  | step_select s w : step E w (select s w)
  | step_retryDownload w : step E w (retryDownload w)
  | step_on_result success w : step E w (on_result success w)
  | step_on_progress length content_length w :
      step E w (on_progress length content_length w).

Inductive reachable (E : Env) (detect_build_tag : string) : World -> Prop :=
  | reachable_new : reachable E detect_build_tag (Updater_new detect_build_tag)
  | reachable_step w w' :
      reachable E detect_build_tag w -> step E w w' ->
      reachable E detect_build_tag w'.

(** ** Runs with the commands taken apart

    The commands run on another thread than the worker, and they are not
    one step each: [select] writes [software] and only then asks for
    QueryDNS, and [retryDownload] tests [state] before it asks for
    Download. Rounds of the worker and callbacks can fall between the two
    halves of a command; here each half is an action of its own. *)
Definition select_software (s : string) (w : World) : World :=
  if String.eqb s "gui" then assign (with_software "monero-gui") w
  else if String.eqb s "cli" then assign (with_software "monero") w
  else w.

Definition select_request (s : string) (w : World) : World :=
  if String.eqb s "gui" || String.eqb s "cli"
  then set_state StateQueryDNS w
  else w.

Inductive act (E : Env) : World -> World -> Prop :=
  | act_round w : act E w (updater_thread E w)
  | act_select_software s w : act E w (select_software s w)
  | act_select_request s w : act E w (select_request s w)
  | act_on_result success w : act E w (on_result success w)
  | act_on_progress length content_length w :
      act E w (on_progress length content_length w).

(** The runs of these actions. The flag tells whether some call of
    [retryDownload] has found the machine in DownloadFailed: from then on
    its write of [next_state] can come at any time. *)
Inductive interleaved (E : Env) (detect_build_tag : string)
  : bool -> World -> Prop :=
  | interleaved_new :
      interleaved E detect_build_tag false (Updater_new detect_build_tag)
  | interleaved_act armed w w' :
      interleaved E detect_build_tag armed w -> act E w w' ->
      interleaved E detect_build_tag armed w'
  | interleaved_retry_test armed w :
      interleaved E detect_build_tag armed w ->
      state (self w) = StateDownloadFailed ->
      interleaved E detect_build_tag true w
  | interleaved_retry_write w :
      interleaved E detect_build_tag true w ->
      interleaved E detect_build_tag true (set_state StateDownload w).

(** What holds of the hash check in every such run. *)
Definition hash_checked (E : Env) (u : Updater) : Prop :=
  (state u = StateCheckHash -> hashValid u = TriTrue -> hash_matches E u)
  /\ (next_state u = StateValidUpdate ->
      (state u = StateCheckHash /\ hashValid u = TriTrue)
      \/ state u = StateValidUpdate)
  /\ (state u = StateValidUpdate ->
      hash_matches E u /\ hashValid u = TriTrue).

(** What holds of the two quorum verdicts as long as no [retryDownload]
    has found the machine in DownloadFailed. *)
Definition quorum_flags (u : Updater) : Prop :=
  (next_state u = StateInit ->
   (state u = StateNone \/ state u = StateInit)
   /\ good_dns_records u = [] /\ gitian_verify_sigs_success u = false)
  /\ (good_dns_records u <> [] -> dnsValid u = TriTrue)
  /\ (after_dns (state u) || after_dns (next_state u) = true ->
      good_dns_records u <> [])
  /\ (gitian_verify_sigs_success u = true ->
      (MIN_GITIAN_SIGS <= validGitianSigs u)%Z
      /\ bad_gitian_signature_found u = false)
  /\ (after_quorum (state u) || after_quorum (next_state u) = true ->
      gitian_verify_sigs_success u = true).

(** The scripted run with a digest that matches, up to [ValidUpdate]. *)
Definition all_good : Env :=
  scripted two_domains_agree (Some good_file_hash) (good_signature "CA401").

Definition verified_update : World :=
  updater_thread_rounds all_good 3
    (on_result true
       (updater_thread_rounds all_good 6
          (select "cli" (updater_thread all_good (Updater_new "linux-x64"))))).

(** ** Notions for the statements on single stages *)

(** A user name the scan of the listing page keeps: the negation of the
    test before [continue]. *)
Definition valid_user (user : string) : bool :=
  (String.length user <=? 20)%nat
  && forallb (is_any_of user_chars) (list_ascii_of_string user).

(** The value of a character of [digits]: its position there. *)
Definition hex_value (c : ascii) : Z :=
  match String.index 0 (String c "") digits with
  | Some k => Z.of_nat k
  | None => 0
  end.

(** An import of one key that passes every test of the loop of
    [import_pubkeys]. *)
Definition import_ok (o : import_outcome) : bool :=
  (pubkey_data_err o =? 0)%Z && (op_import_err o =? 0)%Z
  && match import_fpr o with Some _ => true | None => false end
  && (get_key_err o =? 0)%Z && (tofu_policy_err o =? 0)%Z.

(** The texts of the [message] signals of a log, most recent first. *)
Definition message_texts (log : list (Event * Updater)) : list string :=
  flat_map (fun eu => match fst eu with message s => [s] | _ => [] end) log.

(** The same collaborators with another random engine. *)
Definition with_random_engine (n : nat) (E : Env) : Env :=
  {| random_engine := n;
     get_txt_record := get_txt_record E;
     download := download E;
     sha256sum := sha256sum E;
     get_update_url := get_update_url E;
     path_filename := path_filename E;
     unique_path := unique_path E;
     regex_search := regex_search E;
     init_gpgme := init_gpgme E;
     gpgme_import := gpgme_import E;
     gpgme_verify := gpgme_verify E;
     pubkeys := pubkeys E |}.

(** The message the diagnostic loop of [load_txt_records_from_dns] logs
    for one index, if any. *)
Definition skipped_message (dns_urls : list string)
    (results : list dns_query_result_t) (cur_index : nat) : list string :=
  let url := nth cur_index dns_urls "" in
  let r := nth cur_index results no_result in
  if negb (avail r) then
    ["DNSSEC not available for hostname: " +:+ url +:+ ", skipping."]
  else if negb (valid r) then
    ["DNSSEC validation failed for hostname: " +:+ url +:+ ", skipping."]
  else if Nat.eqb (length (records r)) 0 then
    ["No records for hostname: " +:+ url +:+ ", skipping."]
  else [].

(** A signal whose payload is what the object holds when it is emitted.
    [minValidGitianSigsChanged] is emitted with [validGitianSigs]; the
    download signals are read against the two download flags. *)
Definition carries_own_value (eu : Event * Updater) : Prop :=
  let u := snd eu in
  match fst eu with
  | stateChanged name => name = get_state_name (state u)
  | stateOutcomeChanged outcome => outcome = get_state_outcome (state u)
  | selectingChanged selecting => selecting = getSelecting u
  | dnsValidChanged t => t = dnsValid u
  | hashValidChanged t => t = hashValid u
  | validGitianSigsChanged n => n = validGitianSigs u
  | minValidGitianSigsChanged n => n = validGitianSigs u
  | processedGitianSigsChanged n => n = processedGitianSigs u
  | totalGitianSigsChanged n => n = totalGitianSigs u
  | versionChanged v => v = version u
  | message s => last (messages u) = Some s
  | downloadStarted => download_done u = false
  | downloadProgress _ _ => True
  | downloadFinished success =>
      download_done u = true /\ download_success u = success
  | validUpdateReady path => path = download_path u
  end.

(** [w'] comes from [w] by emitting signals and appending to the message
    log only: the new signals carry the values of their members, and the
    new messages are the texts of the new [message] signals. *)
Definition logged (w w' : World) : Prop :=
  exists new,
    emitted w' = new ++ emitted w
    /\ messages (self w') = messages (self w) ++ rev (message_texts new)
    /\ Forall carries_own_value new.

(** The members the entry action of a state writes, [state] apart. *)
Definition stage_members (s : State) : list field :=
  match s with
  | StateInit =>
      [F_dns_query_done; F_version_check_done; F_dnsValid; F_hashValid;
       F_validGitianSigs; F_minValidGitianSigs; F_bad_gitian_signature_found]
  | StateQueryDNS =>
      [F_dns_query_done; F_dnsValid; F_good_dns_records; F_dns_query_results;
       F_messages]
  | StateCheckVersion =>
      [F_version_check_done; F_version; F_expected_hash; F_messages]
  | StateDownload =>
      [F_download_path; F_download_done; F_download_success; F_messages]
  | StateCheckHash => [F_hashValid; F_messages]
  | StateImportPubkeys =>
      [F_gitian_pubkeys_import_done; F_gitian_pubkeys_import_success;
       F_imported_fingerprints; F_messages]
  | StateFetchGitianSigs =>
      [F_gitian_verify_sigs_success; F_gitian_verify_sigs_done;
       F_bad_gitian_signature_found; F_totalGitianSigs; F_processedGitianSigs;
       F_validGitianSigs; F_minValidGitianSigs; F_messages]
  | _ => []
  end.

(** The scripted run waiting for its download, and stopped after the
    download failed. *)
Definition awaiting_download : World := updater_thread_rounds all_good 6 started.

Definition download_failed : World :=
  updater_thread_rounds all_good 2 (on_result false awaiting_download).

(** The states whose stage is over within the round that enters them: all
    the states the worker leaves by itself, Download apart. *)
Definition answers_at_once (s : State) : bool :=
  match s with
  | StateQueryDNS | StateCheckVersion | StateImportPubkeys
  | StateFetchGitianSigs | StateVerifyGitianSignatures | StateCheckHash => true
  | _ => false
  end.

(** VerifyGitianSignatures is entered, or asked for, with the loop over
    the users already done. *)
Definition sigs_done_known (u : Updater) : Prop :=
  state u = StateVerifyGitianSignatures
  \/ next_state u = StateVerifyGitianSignatures ->
  gitian_verify_sigs_done u = true.

(** ** A run in which a late retry skips the signature quorum

    Both programs are published, and the engine cannot check the
    signatures on the assertions of the GUI. The command-line tools pass
    both quorums and their download fails; the user selects the GUI and
    retries: the test of retryDownload finds DownloadFailed, the worker
    takes the GUI through the stages up to NotEnoughGitianSigs, and only
    then retryDownload writes its request. *)
Definition gui_record : string := "monero-gui:linux-x64:0.18.1:" +:+ good_hash.

Definition both_published (host : string) : dns_query_result_t :=
  if String.eqb host "updates.moneropulse.org"
     || String.eqb host "updates.moneropulse.net"
  then {| records := [good_record; gui_record]; avail := true; valid := true |}
  else no_result.

Definition unchecked_signature : gpgme_signature :=
  {| fpr := ""; status := 1; summary := 0 |}.

Definition gui_unsigned : Env :=
  let E := scripted both_published (Some good_file_hash)
                    (good_signature "CA401") in
  {| random_engine := random_engine E;
     get_txt_record := get_txt_record E;
     download := download E;
     sha256sum := sha256sum E;
     get_update_url := get_update_url E;
     path_filename := path_filename E;
     unique_path := unique_path E;
     regex_search := regex_search E;
     init_gpgme := init_gpgme E;
     gpgme_import := gpgme_import E;
     gpgme_verify := fun contents signature =>
       if strstr contents "monero-gui" then verified unchecked_signature
       else gpgme_verify E contents signature;
     pubkeys := pubkeys E |}.

Definition gui_selected : World :=
  select_request "gui"
    (select_software "gui"
       (updater_thread_rounds gui_unsigned 2
          (on_result false
             (updater_thread_rounds gui_unsigned 6
                (select_request "cli"
                   (select_software "cli"
                      (updater_thread gui_unsigned
                         (Updater_new "linux-x64")))))))).

Definition unsigned_update : World :=
  updater_thread_rounds gui_unsigned 3
    (on_result true
       (updater_thread gui_unsigned
          (set_state StateDownload
             (updater_thread_rounds gui_unsigned 7 gui_selected)))).

(** * Properties *)

Ltac split_all := repeat match goal with |- _ /\ _ => split end.

Lemma tristate_eqb_eq a b : TriState.eqb a b = true <-> a = b.
Proof. destruct a, b; simpl; split; congruence. Qed.

(** ** The property setters *)

Lemma setMinValidGitianSigs_spec n w :
  minValidGitianSigs (self (setMinValidGitianSigs n w)) = u32 n
  /\ signals (setMinValidGitianSigs n w)
     = minValidGitianSigsChanged (validGitianSigs (self w)) :: signals w.
Proof. split; reflexivity. Qed.

(** C9: [setMinValidGitianSigs(n)] writes [n] to [minValidGitianSigs], but
    the signal it emits carries [validGitianSigs]: on the call
    [setMinValidGitianSigs(MIN_GITIAN_SIGS)] of a first run the field
    becomes 2 and [minValidGitianSigsChanged(0)] is emitted. *)
Theorem setMinValidGitianSigs_emits_other_field :
  let w := setMinValidGitianSigs MIN_GITIAN_SIGS started in
  minValidGitianSigs (self w) = 2%Z
  /\ hd_error (signals w) = Some (minValidGitianSigsChanged 0)
  /\ minValidGitianSigsChanged 0 <> minValidGitianSigsChanged (minValidGitianSigs (self w)).
Proof. cbv zeta; split_all; vm_compute; congruence. Qed.

(** ** The commands *)

Lemma select_any_state s w :
  s = "cli" \/ s = "gui" -> next_state (self (select s w)) = StateQueryDNS.
Proof. intros [-> | ->]; reflexivity. Qed.

Lemma retryDownload_guarded w :
  state (self w) <> StateDownloadFailed -> retryDownload w = w.
Proof. intros H. unfold retryDownload. destruct (decide _); [done | reflexivity]. Qed.

(** C8: [select] is not limited to [Init]. With every resolver down the
    machine stops in [DNSFailed]; [select("gui")] there changes [software]
    and the worker then moves from [DNSFailed] to [QueryDNS]. *)
Theorem select_restarts_from_DNSFailed :
  let E := scripted dns_down None (good_signature "CA401") in
  let stopped := updater_thread_rounds E 2 started in
  let w := updater_thread E (select "gui" stopped) in
  state (self stopped) = StateDNSFailed
  /\ next_state (self stopped) = StateDNSFailed
  /\ updater_thread E stopped = stopped
  /\ state (self w) = StateQueryDNS
  /\ software (self w) = "monero-gui".
Proof. cbv zeta; split_all; vm_compute; reflexivity. Qed.

(** ** Signature verification *)





(** ** Hash check *)

Lemma hex_digits_of_byte (x : Byte.byte) :
  let b := Z.of_N (Byte.to_N x) in
  is_lower_hex (digit_at (Z.shiftr b 4)) = true
  /\ is_lower_hex (digit_at (Z.land b 15)) = true.
Proof. destruct x; split; reflexivity. Qed.

(** The text compared with the expected hash is 64 characters long and
    made of [0-9a-f] only. *)
Lemma file_hash_as_text_shape file_hash :
  String.length (file_hash_as_text file_hash) = 64
  /\ forallb is_lower_hex (list_ascii_of_string (file_hash_as_text file_hash))
     = true.
Proof.
  unfold file_hash_as_text. split; [reflexivity|].
  rewrite list_ascii_of_string_of_list_ascii.
  apply forallb_forall. intros c Hc. apply in_flat_map in Hc as (i & _ & Hc).
  destruct (hex_digits_of_byte (nth i file_hash Byte.x00)) as [Hhi Hlo].
  destruct Hc as [<- | [<- | []]]; assumption.
Qed.

(** What [check_hash] leaves behind, by the outcome of the digest and of the
    comparison. *)
Lemma check_hash_cases E w :
  let w' := check_hash E w in
  let path := download_path (self w) in
  match sha256sum E path with
  | Some file_hash =>
      if String.eqb (file_hash_as_text file_hash) (expected_hash (self w))
      then hashValid (self w') = TriTrue
           /\ exists m, signals w'
                        = [hashValidChanged TriTrue; validUpdateReady path;
                           message m; hashValidChanged TriUnknown] ++ signals w
      else hashValid (self w') = TriFalse
           /\ exists m, signals w'
                        = [hashValidChanged TriFalse; message m;
                           hashValidChanged TriUnknown] ++ signals w
  | None =>
      hashValid (self w') = TriFalse
      /\ exists m, signals w'
                   = [hashValidChanged TriFalse; message m;
                      hashValidChanged TriUnknown] ++ signals w
  end.
Proof.
  cbv zeta. unfold check_hash. cbn.
  destruct (sha256sum E (download_path (self w))) as [file_hash|]; cbn.
  - destruct (String.eqb (file_hash_as_text file_hash) (expected_hash (self w)));
      cbn; split; eauto.
  - split; eauto.
Qed.

(** The rendering loop of [check_hash] against the lowercase hexadecimal
    of the spec: the text the code compares with [expected_hash] is the
    lowercase hexadecimal of the 32 bytes of the digest. *)
Lemma digits_of_byte_lower_hex (x : Byte.byte) :
  let b := Z.of_N (Byte.to_N x) in
  [digit_at (Z.shiftr b 4); digit_at (Z.land b 15)] = lower_hex_of_byte x.
Proof. destruct x; reflexivity. Qed.

Lemma firstn_padded {A} (x : A) n : forall m (l : list A),
  n <= m ->
  firstn n (l ++ repeat x m) = map (fun i => nth i l x) (seq 0 n).
Proof.
  induction n as [|n IH]; intros m l Hle; [reflexivity|].
  cbn [seq map]. rewrite <- seq_shift, map_map.
  destruct l as [|a rest].
  - destruct m as [|m]; [lia|]. cbn [app repeat firstn nth]. f_equal.
    change (repeat x m) with ([] ++ repeat x m). rewrite IH by lia.
    apply map_ext. intros i. destruct i; reflexivity.
  - cbn [app firstn nth]. f_equal. apply IH. lia.
Qed.

Lemma sha256_bytes_32 (file_hash : list Byte.byte) :
  length file_hash = 32 -> sha256_bytes file_hash = file_hash.
Proof.
  intros H. unfold sha256_bytes.
  rewrite firstn_app, H, Nat.sub_diag. cbn [firstn].
  rewrite app_nil_r, <- H. apply firstn_all.
Qed.

Lemma file_hash_as_text_lower_hex (file_hash : list Byte.byte) :
  file_hash_as_text file_hash = lower_hex (sha256_bytes file_hash).
Proof.
  unfold file_hash_as_text, lower_hex, sha256_bytes.
  rewrite (firstn_padded Byte.x00 32 32 file_hash) by lia. f_equal.
  generalize (seq 0 32). intros l.
  induction l as [|i l IH]; [reflexivity|].
  cbn [flat_map map]. rewrite IH. f_equal.
  exact (digits_of_byte_lower_hex (nth i file_hash Byte.x00)).
Qed.

Lemma hash_matches_dec E u :
  match sha256sum E (download_path u) with
  | Some file_hash =>
      if String.eqb (file_hash_as_text file_hash) (expected_hash u)
      then hash_matches E u else ~ hash_matches E u
  | None => ~ hash_matches E u
  end.
Proof.
  unfold hash_matches.
  destruct (sha256sum E (download_path u)) as [file_hash|] eqn:Hsum.
  - rewrite file_hash_as_text_lower_hex.
    destruct (String.eqb_spec (lower_hex (sha256_bytes file_hash))
                              (expected_hash u)).
    + eauto.
    + intros (h & [= <-] & Heq). contradiction.
  - intros (h & [=] & _).
Qed.

(** C4: after [check_hash], [hashValid] is [true] iff the digest of the
    downloaded file could be computed and its 32 bytes, written in
    lowercase hexadecimal, are [expected_hash] character for character,
    and is [false] otherwise; [validUpdateReady(download_path)] is emitted
    once in the first case and not at all in the second. The lowercase
    hexadecimal of the 32 bytes is 64 characters of [0-9a-f], and the 32
    bytes of a digest of 32 bytes are the digest itself. *)
Theorem check_hash_valid_iff E w :
  let w' := check_hash E w in
  (hashValid (self w') = TriTrue <-> hash_matches E (self w))
  /\ (hashValid (self w') = TriFalse <-> ~ hash_matches E (self w))
  /\ (exists new,
        signals w' = new ++ signals w
        /\ (hash_matches E (self w) ->
            List.filter is_validUpdateReady new
            = [validUpdateReady (download_path (self w))])
        /\ (~ hash_matches E (self w) ->
            List.filter is_validUpdateReady new = []))
  /\ (forall file_hash,
        String.length (lower_hex (sha256_bytes file_hash)) = 64
        /\ forallb is_lower_hex
             (list_ascii_of_string (lower_hex (sha256_bytes file_hash)))
           = true)
  /\ (forall file_hash,
        length file_hash = 32 -> sha256_bytes file_hash = file_hash).
Proof.
  cbv zeta.
  pose proof (check_hash_cases E w) as Hc. cbv zeta in Hc.
  pose proof (hash_matches_dec E (self w)) as Hm.
  split; [|split; [|split; [|split]]];
    [| | |intros file_hash; rewrite <- file_hash_as_text_lower_hex;
           apply file_hash_as_text_shape
     |exact sha256_bytes_32].
  all: destruct (sha256sum E (download_path (self w))) as [file_hash|];
    [destruct (String.eqb (file_hash_as_text file_hash) (expected_hash (self w)))|];
    destruct Hc as [Hv (m & Hs)].
  all: try (rewrite Hv; split; intros; try discriminate; try contradiction;
            tauto).
  all: eexists; split; [exact Hs|]; split; intros; try contradiction;
    reflexivity.
Qed.

(** ** The worker loop *)

Lemma change_state_same E w :
  state (self w) = next_state (self w) -> change_state E w = w.
Proof. intros H. unfold change_state. destruct (decide _); [reflexivity|done]. Qed.

Lemma change_state_commits E w :
  state (self w) <> next_state (self w) ->
  change_state E w
  = match next_state (self w) with
    | StateInit =>
        let w := committed w in
        let w := assign (with_dns_query_done false) w in
        let w := assign (with_version_check_done false) w in
        let w := setDnsValid TriUnknown w in
        let w := setHashValid TriUnknown w in
        let w := setValidGitianSigs 0 w in
        let w := setMinValidGitianSigs 0 w in
        assign (with_bad_gitian_signature_found false) w
    | StateQueryDNS => load_txt_records_from_dns E dns_urls (committed w)
    | StateCheckVersion =>
        process_version (software (self w)) (buildtag (self w))
                        (good_dns_records (self w)) (committed w)
    | StateDownload => start_download E (committed w)
    | StateCheckHash => check_hash E (committed w)
    | StateImportPubkeys => import_pubkeys E (committed w)
    | StateFetchGitianSigs => fetch_gitian_sigs E (committed w)
    | _ => committed w
    end.
Proof.
  intros H. unfold change_state, committed. destruct (decide _); [done|].
  cbv zeta. cbn [self assign emit state with_state].
  destruct (next_state (self w)); reflexivity.
Qed.

(** A machine resting in [BadHash] stays there. *)
Lemma BadHash_is_terminal E w :
  state (self w) = StateBadHash -> next_state (self w) = StateBadHash ->
  forall n, updater_thread_rounds E n w = w.
Proof.
  intros Hs Hn n. induction n as [|n IH]; [reflexivity|].
  cbn [updater_thread_rounds].
  assert (updater_thread E w = w) as ->; [|exact IH].
  unfold updater_thread, change_state.
  destruct (decide _) as [_|Hne]; [|congruence]. by rewrite Hs.
Qed.

Lemma committed_signals w path :
  In (validUpdateReady path) (signals (committed w)) ->
  In (validUpdateReady path) (signals w).
Proof.
  unfold committed, signals. cbn. intros [H|[H|[H|H]]]; try discriminate; exact H.
Qed.

Lemma check_hash_no_digest E w :
  sha256sum E (download_path (self w)) = None ->
  let w' := check_hash E w in
  hashValid (self w') = TriFalse
  /\ state (self w') = state (self w)
  /\ next_state (self w') = next_state (self w)
  /\ forall path, In (validUpdateReady path) (signals w') ->
                  In (validUpdateReady path) (signals w).
Proof.
  intros Hsum. cbv zeta. unfold check_hash.
  change (download_path (self (setHashValid TriUnknown w)))
    with (download_path (self w)).
  rewrite Hsum. split_and!; try reflexivity.
  intros path. unfold signals. cbn.
  intros [H|[H|[H|H]]]; try discriminate; exact H.
Qed.

(** C10: when the digest of the downloaded file cannot be computed, the
    round that enters [CheckHash] sets [hashValid] to [false] and asks for
    [BadHash]; the machine is in [BadHash] from the next round on, with
    [hashValid] still [false], and no [validUpdateReady] is emitted on the
    way. *)
Theorem check_hash_fails_closed E w :
  next_state (self w) = StateCheckHash ->
  state (self w) <> StateCheckHash ->
  sha256sum E (download_path (self w)) = None ->
  let w1 := updater_thread E w in
  hashValid (self (check_hash E w)) = TriFalse
  /\ state (self w1) = StateCheckHash
  /\ hashValid (self w1) = TriFalse
  /\ next_state (self w1) = StateBadHash
  /\ forall n,
       let wn := updater_thread_rounds E (S n) w1 in
       state (self wn) = StateBadHash
       /\ hashValid (self wn) = TriFalse
       /\ forall path, In (validUpdateReady path) (signals wn) ->
                       In (validUpdateReady path) (signals w).
Proof.
  intros Hnext Hstate Hsum. cbv zeta.
  split; [apply (check_hash_no_digest E w Hsum)|].
  assert (sha256sum E (download_path (self (committed w))) = None) as Hsum'
    by exact Hsum.
  destruct (check_hash_no_digest E (committed w) Hsum') as (Hv & Hs & Hn & Hsig).
  assert (state (self (check_hash E (committed w))) = StateCheckHash) as Hs'.
  { rewrite Hs. cbn. exact Hnext. }
  assert (next_state (self (check_hash E (committed w))) = StateCheckHash) as Hn'.
  { rewrite Hn. cbn. exact Hnext. }
  assert (updater_thread E w
          = set_state StateBadHash (check_hash E (committed w))) as Hw1.
  { unfold updater_thread. rewrite change_state_commits by congruence.
    rewrite Hnext, Hs', Hv. reflexivity. }
  rewrite Hw1.
  set (w1 := set_state StateBadHash (check_hash E (committed w))).
  assert (state (self w1) = StateCheckHash) as Hs1 by exact Hs'.
  assert (hashValid (self w1) = TriFalse) as Hv1 by exact Hv.
  assert (next_state (self w1) = StateBadHash) as Hn1 by reflexivity.
  split_and!; try assumption.
  intros n. cbv zeta. cbn [updater_thread_rounds].
  assert (updater_thread E w1 = committed w1) as ->.
  { unfold updater_thread. rewrite change_state_commits by congruence.
    rewrite Hn1. cbv zeta.
    change (state (self (committed w1))) with (next_state (self w1)).
    rewrite Hn1. reflexivity. }
  rewrite BadHash_is_terminal; [|cbn; exact Hn1|cbn; exact Hn1].
  split_and!.
  - cbn. exact Hn1.
  - exact Hv1.
  - intros path Hin. apply committed_signals in Hin.
    apply committed_signals, Hsig. exact Hin.
Qed.

Lemma check_hash_fails_closed_witness :
  state (self (updater_thread_rounds no_digest 1
                 (updater_thread no_digest downloaded))) = StateBadHash.
Proof.
  pose proof (check_hash_fails_closed no_digest downloaded) as H.
  destruct H as (_ & _ & _ & _ & H);
    [vm_compute; reflexivity | vm_compute; congruence
    | vm_compute; reflexivity |].
  exact (proj1 (H 0)).
Defined.

(** ** DNS quorum *)

Lemma load_txt_records_from_dns_verdict E urls w :
  let results := map (get_txt_record E) urls in
  let w' := load_txt_records_from_dns E urls w in
  dnsValid (self w')
  = if (length (List.filter is_valid_record_set results) <? 2)%nat then TriFalse
    else match find_good_records_index results with
         | Some _ => TriTrue
         | None => TriFalse
         end.
Proof.
  cbv zeta. unfold load_txt_records_from_dns.
  destruct (_ <? 2)%nat; [reflexivity|].
  destruct (find_good_records_index _); reflexivity.
Qed.

Lemma find_good_records_index_Some results i :
  find_good_records_index results = Some i ->
  i < length results - 1
  /\ is_valid_record_set (nth i results no_result) = true
  /\ exists j, i < j < length results
               /\ dns_records_match (records (nth i results no_result))
                                    (records (nth j results no_result)) = true.
Proof.
  unfold find_good_records_index. intros H.
  apply find_some in H as [Hin H].
  apply in_seq in Hin. apply andb_true_iff in H as [Hv Hm].
  split; [lia|]. split; [exact Hv|].
  unfold matches_later in Hm. apply existsb_exists in Hm as (j & Hj & Hm).
  apply in_seq in Hj. exists j. split; [lia|exact Hm].
Qed.

Lemma find_good_records_index_None results i j :
  find_good_records_index results = None ->
  i < j < length results ->
  is_valid_record_set (nth i results no_result) = true ->
  dns_records_match (records (nth i results no_result))
                    (records (nth j results no_result)) = false.
Proof.
  unfold find_good_records_index. intros H Hij Hv.
  pose proof (find_none _ _ H i) as Hn. cbv beta in Hn.
  rewrite Hv in Hn. cbn in Hn.
  destruct (dns_records_match _ _) eqn:Hm; [|reflexivity].
  assert (matches_later results i = true) as Hl.
  { unfold matches_later. apply existsb_exists. exists j. split; [|exact Hm].
    apply in_seq. lia. }
  rewrite Hl in Hn. apply Hn. apply in_seq. lia.
Qed.

(** C2: the search for two matching record sets tests DNSSEC on the first
    domain of a pair only. With two validated domains that disagree and a
    third domain that echoes the first without DNSSEC, no two validated
    domains publish the same records, and still [dnsValid] becomes [true]
    and the records of the first domain are taken as good. *)
Theorem dns_quorum_counts_unvalidated_domain :
  let E := scripted unvalidated_echo None (good_signature "CA401") in
  let results := map (get_txt_record E) dns_urls in
  let w := load_txt_records_from_dns E dns_urls (Updater_new "linux-x64") in
  dnsValid (self w) = TriTrue
  /\ good_dns_records (self w) = [good_record]
  /\ length (List.filter is_valid_record_set results) = 2
  /\ forall i j, i < j ->
       is_valid_record_set (nth i results no_result) = true ->
       is_valid_record_set (nth j results no_result) = true ->
       dns_records_match (records (nth i results no_result))
                         (records (nth j results no_result)) = false.
Proof.
  cbv zeta. split_all; try (vm_compute; reflexivity).
  intros i j Hij Hi Hj.
  destruct (le_lt_dec 4 j) as [Hge|Hlt].
  - rewrite (nth_overflow _ no_result) in Hj by exact Hge. discriminate Hj.
  - destruct j as [|[|[|[|j]]]]; [| | | |lia];
      destruct i as [|[|[|i]]]; try lia; revert Hi Hj; vm_compute; congruence.
Qed.

(** C6: the hash field is rejected only when it is both of the wrong
    length and not alphanumeric. A record whose hash is three characters
    long, and one whose hash is 64 characters of punctuation, are both
    selected and give [selectedVersion] and [expectedHash]. *)
Theorem process_version_accepts_malformed_hash :
  let w0 := Updater_new "linux-x64" in
  let short := process_version "monero" "linux-x64" ["monero:linux-x64:0.18.1:abc"] w0 in
  let symbols := "////////////////////////////////////////////////////////////////" in
  let odd := process_version "monero" "linux-x64" ["monero:linux-x64:0.18.1:" +:+ symbols] w0 in
  (version (self short) = "0.18.1" /\ expected_hash (self short) = "abc")
  /\ (String.length symbols = 64
      /\ version (self odd) = "0.18.1" /\ expected_hash (self odd) = symbols).
Proof. cbv zeta; split_all; vm_compute; reflexivity. Qed.

(** ** The version comparator *)

Lemma compare_fields_nil n : compare_fields n [] [] = 0%Z.
Proof. induction n as [|n IH]; [reflexivity|exact IH]. Qed.

Lemma compare_fields_more n f0 f1 :
  Nat.max (length f0) (length f1) <= n ->
  compare_fields n f0 f1
  = compare_fields (Nat.max (length f0) (length f1)) f0 f1.
Proof.
  revert f0 f1. induction n as [|n IH]; intros f0 f1 Hn.
  - replace (Nat.max (length f0) (length f1)) with 0 by lia. reflexivity.
  - destruct f0 as [|a f0], f1 as [|b f1].
    + cbn [length Nat.max]. rewrite compare_fields_nil. reflexivity.
    + cbn [length Nat.max] in *. cbn [compare_fields hd tl].
      rewrite (IH [] f1) by (cbn; lia). reflexivity.
    + cbn [length] in *. rewrite Nat.max_0_r in *. cbn [compare_fields hd tl].
      rewrite (IH f0 []) by (cbn; lia). cbn [length]. rewrite Nat.max_0_r.
      reflexivity.
    + cbn [length] in *. rewrite <- Nat.succ_max_distr in *.
      cbn [compare_fields hd tl]. rewrite (IH f0 f1) by lia. reflexivity.
Qed.

Lemma compare_fields_range n f0 f1 :
  (compare_fields n f0 f1 = -1 \/ compare_fields n f0 f1 = 0
   \/ compare_fields n f0 f1 = 1)%Z.
Proof.
  revert f0 f1. induction n as [|n IH]; intros f0 f1; cbn [compare_fields].
  - auto.
  - destruct (_ <? _)%Z; [auto|]. destruct (_ <? _)%Z; [auto|]. apply IH.
Qed.

Lemma compare_fields_opp n f0 f1 :
  compare_fields n f1 f0 = (- compare_fields n f0 f1)%Z.
Proof.
  revert f0 f1. induction n as [|n IH]; intros f0 f1; cbn [compare_fields].
  - reflexivity.
  - destruct (Z.ltb_spec (hd 0%Z f0) (hd 0%Z f1)),
             (Z.ltb_spec (hd 0%Z f1) (hd 0%Z f0)); try lia; try reflexivity.
    apply IH.
Qed.

Lemma compare_fields_trans n f0 f1 f2 :
  (compare_fields n f0 f1 <= 0 -> compare_fields n f1 f2 <= 0 ->
   compare_fields n f0 f2 <= 0
   /\ (compare_fields n f0 f2 = 0 ->
       compare_fields n f0 f1 = 0 /\ compare_fields n f1 f2 = 0))%Z.
Proof.
  revert f0 f1 f2. induction n as [|n IH]; intros f0 f1 f2; cbn [compare_fields].
  - lia.
  - destruct (Z.ltb_spec (hd 0%Z f0) (hd 0%Z f1)),
             (Z.ltb_spec (hd 0%Z f1) (hd 0%Z f0)),
             (Z.ltb_spec (hd 0%Z f1) (hd 0%Z f2)),
             (Z.ltb_spec (hd 0%Z f2) (hd 0%Z f1)),
             (Z.ltb_spec (hd 0%Z f0) (hd 0%Z f2)),
             (Z.ltb_spec (hd 0%Z f2) (hd 0%Z f0)); try lia.
    apply IH.
Qed.

Lemma vercmp_range v0 v1 :
  (vercmp v0 v1 = -1 \/ vercmp v0 v1 = 0 \/ vercmp v0 v1 = 1)%Z.
Proof. apply compare_fields_range. Qed.

Lemma vercmp_opp v0 v1 : vercmp v1 v0 = (- vercmp v0 v1)%Z.
Proof.
  unfold vercmp. rewrite Nat.max_comm. apply compare_fields_opp.
Qed.

Lemma vercmp_refl v : vercmp v v = 0%Z.
Proof. pose proof (vercmp_opp v v). lia. Qed.

Lemma vercmp_trans v0 v1 v2 :
  (vercmp v0 v1 <= 0 -> vercmp v1 v2 <= 0 ->
   vercmp v0 v2 <= 0
   /\ (vercmp v0 v2 = 0 -> vercmp v0 v1 = 0 /\ vercmp v1 v2 = 0))%Z.
Proof.
  unfold vercmp.
  set (f0 := version_fields v0). set (f1 := version_fields v1).
  set (f2 := version_fields v2).
  set (n := Nat.max (length f0) (Nat.max (length f1) (length f2))).
  rewrite <- (compare_fields_more n f0 f1) by lia.
  rewrite <- (compare_fields_more n f1 f2) by lia.
  rewrite <- (compare_fields_more n f0 f2) by lia.
  apply compare_fields_trans.
Qed.

(** ** Version selection *)

Lemma process_records_skip software buildtag record rest found hash w :
  survivor software buildtag record = None ->
  exists w',
    process_records software buildtag (record :: rest) found hash w
    = process_records software buildtag rest found hash w'
    /\ version (self w') = version (self w)
    /\ expected_hash (self w') = expected_hash (self w).
Proof.
  unfold survivor. cbn [process_records]. intros H.
  destruct (negb (Nat.eqb (length (split (is_any_of ":") record)) 4)).
  { eexists. split; [reflexivity|]. split; reflexivity. }
  destruct (negb (String.eqb software _) || negb (String.eqb buildtag _)).
  { eexists. split; [reflexivity|]. split; reflexivity. }
  cbv zeta in H.
  destruct (negb (Nat.eqb (String.length _) 64) && negb (forallb isalnum _)).
  { eexists. split; [reflexivity|]. split; reflexivity. }
  discriminate H.
Qed.

Lemma process_records_keep software buildtag record rest found hash w v h :
  survivor software buildtag record = Some (v, h) ->
  let cmp := vercmp (version (self w)) v in
  if found && (cmp >? 0)%Z then
    exists w',
      process_records software buildtag (record :: rest) found hash w
      = process_records software buildtag rest found hash w'
      /\ version (self w') = version (self w)
      /\ expected_hash (self w') = expected_hash (self w)
  else if found && (cmp =? 0)%Z && negb (String.eqb hash h) then
    exists w',
      process_records software buildtag (record :: rest) found hash w = w'
      /\ version (self w') = ""
      /\ expected_hash (self w') = expected_hash (self w)
  else
    exists w',
      process_records software buildtag (record :: rest) found hash w
      = process_records software buildtag rest true h w'
      /\ version (self w') = v
      /\ expected_hash (self w') = expected_hash (self w).
Proof.
  unfold survivor. cbn [process_records]. intros H. cbv zeta.
  destruct (negb (Nat.eqb (length (split (is_any_of ":") record)) 4));
    [discriminate H|].
  destruct (negb (String.eqb software _) || negb (String.eqb buildtag _));
    [discriminate H|].
  cbv zeta in H.
  destruct (negb (Nat.eqb (String.length _) 64) && negb (forallb isalnum _));
    [discriminate H|].
  injection H as <- <-.
  change (version (self (add_message ("Got record: " +:+ record) w)))
    with (version (self w)).
  destruct (found && (vercmp (version (self w)) _ >? 0)%Z).
  { eexists. split; [reflexivity|]. split; reflexivity. }
  destruct (found && (vercmp (version (self w)) _ =? 0)%Z && negb (String.eqb hash _)).
  { eexists. split; [reflexivity|]. split; reflexivity. }
  eexists. split; [reflexivity|]. split; reflexivity.
Qed.

(** The loop of [process_version] computes [pick] on the survivors. *)
Lemma process_records_pick software buildtag records found hash w :
  let w' := process_records software buildtag records found hash w in
  match pick (survivors software buildtag records) found (version (self w)) hash with
  | None =>
      version (self w') = "" /\ expected_hash (self w') = expected_hash (self w)
  | Some (v, h) =>
      version (self w') = v
      /\ expected_hash (self w')
         = if String.eqb v "" then expected_hash (self w) else h
  end.
Proof.
  cbv zeta. revert found hash w.
  induction records as [|record rest IH]; intros found hash w.
  - cbn [survivors pick process_records]. cbv beta iota.
    destruct (String.eqb (version (self w)) ""); split; reflexivity.
  - cbn [survivors].
    destruct (survivor software buildtag record) as [[v h]|] eqn:Hs.
    + cbn [pick]. 
      pose proof (process_records_keep software buildtag record rest found hash w v h Hs) as Hk.
      cbv zeta in Hk.
      destruct (found && (vercmp (version (self w)) v >? 0)%Z).
      { destruct Hk as (w' & -> & Hv & He). rewrite <- Hv, <- He. apply IH. }
      destruct (found && (vercmp (version (self w)) v =? 0)%Z && negb (String.eqb hash h)).
      { destruct Hk as (w' & -> & Hv & He). split; assumption. }
      destruct Hk as (w' & -> & Hv & He). rewrite <- Hv, <- He. apply IH.
    + destruct (process_records_skip software buildtag record rest found hash w Hs)
        as (w' & -> & Hv & He).
      rewrite <- Hv, <- He. apply IH.
Qed.

Lemma process_version_pick software buildtag records w :
  let w' := process_version software buildtag records w in
  match pick (survivors software buildtag records) false "" "" with
  | None =>
      version (self w') = "" /\ expected_hash (self w') = expected_hash (self w)
  | Some (v, h) =>
      version (self w') = v
      /\ expected_hash (self w')
         = if String.eqb v "" then expected_hash (self w) else h
  end.
Proof.
  cbv zeta. unfold process_version.
  set (w0 := emit (versionChanged "")
               (assign (with_version "")
                  (assign (with_version_check_done false) w))).
  exact (process_records_pick software buildtag records false "" w0).
Qed.

Lemma ambiguous_intro l r1 r2 :
  In r1 l -> In r2 l -> vercmp (fst r1) (fst r2) = 0%Z -> snd r1 <> snd r2 ->
  ambiguous l = true.
Proof.
  intros H1 H2 Hv Hh. unfold ambiguous.
  apply existsb_exists. exists r1. split; [exact H1|].
  apply existsb_exists. exists r2. split; [exact H2|].
  rewrite Hv. cbn. destruct (String.eqb_spec (snd r1) (snd r2)); [contradiction|reflexivity].
Qed.

(** What the running choice of the loop keeps true: it is one of the
    survivors seen so far, no survivor seen so far has a higher version,
    and those of the same version carry the same hash. *)
Lemma pick_invariant l : forall seen v h,
  In (v, h) seen ->
  (forall r, In r seen -> (0 <= vercmp v (fst r))%Z) ->
  (forall r, In r seen -> vercmp v (fst r) = 0%Z -> snd r = h) ->
  match pick l true v h with
  | None => ambiguous (seen ++ l) = true
  | Some (v', h') =>
      In (v', h') (seen ++ l)
      /\ (forall r, In r (seen ++ l) -> (0 <= vercmp v' (fst r))%Z)
      /\ (forall r, In r (seen ++ l) -> vercmp v' (fst r) = 0%Z -> snd r = h')
  end.
Proof.
  induction l as [|[v1 h1] rest IH]; intros seen v h Hin Htop Hsame.
  - cbn [pick]. rewrite app_nil_r. auto.
  - cbn [pick andb].
    replace (seen ++ (v1, h1) :: rest) with ((seen ++ [(v1, h1)]) ++ rest)
      by (rewrite <- app_assoc; reflexivity).
    destruct (Z.gtb_spec (vercmp v v1) 0) as [Hgt|Hle].
    { apply IH.
      - apply in_or_app. left. exact Hin.
      - intros r [Hr|[<-|[]]]%in_app_or; [apply Htop, Hr|cbn; lia].
      - intros r [Hr|[<-|[]]]%in_app_or; [apply Hsame, Hr|cbn; lia]. }
    destruct (Z.eqb_spec (vercmp v v1) 0) as [Heq|Hne];
      [destruct (String.eqb_spec h h1) as [Hh|Hh]|]; cbn [andb negb].
    + (* same version, same hash: the later record replaces the choice *)
      apply IH.
      * apply in_or_app. right. left. reflexivity.
      * intros r [Hr|[<-|[]]]%in_app_or; cbn [fst]; [|rewrite vercmp_refl; lia].
        pose proof (Htop r Hr) as H0. rewrite (vercmp_opp (fst r) v) in H0.
        pose proof (vercmp_trans (fst r) v v1). rewrite (vercmp_opp (fst r) v1). lia.
      * intros r [Hr|[<-|[]]]%in_app_or; cbn [fst snd]; [|reflexivity].
        intros H0. rewrite (vercmp_opp (fst r) v1) in H0.
        pose proof (Htop r Hr) as H1. rewrite (vercmp_opp (fst r) v) in H1.
        pose proof (vercmp_trans (fst r) v v1) as Ht.
        rewrite <- Hh. apply Hsame; [exact Hr|].
        rewrite (vercmp_opp (fst r) v). lia.
    + (* same version, another hash: the loop gives up *)
      apply (ambiguous_intro _ (v, h) (v1, h1)); cbn [fst snd]; try assumption.
      * apply in_or_app. left. apply in_or_app. left. exact Hin.
      * apply in_or_app. left. apply in_or_app. right. left. reflexivity.
    + (* a higher version replaces the choice *)
      apply IH.
      * apply in_or_app. right. left. reflexivity.
      * intros r [Hr|[<-|[]]]%in_app_or; cbn [fst]; [|rewrite vercmp_refl; lia].
        pose proof (Htop r Hr) as H0. rewrite (vercmp_opp (fst r) v) in H0.
        pose proof (vercmp_trans (fst r) v v1). rewrite (vercmp_opp (fst r) v1). lia.
      * intros r [Hr|[<-|[]]]%in_app_or; cbn [fst snd]; [|reflexivity].
        intros H0. rewrite (vercmp_opp (fst r) v1) in H0.
        pose proof (Htop r Hr) as H1. rewrite (vercmp_opp (fst r) v) in H1.
        pose proof (vercmp_trans (fst r) v v1) as Ht. lia.
Qed.

Lemma pick_sound l :
  match pick l false "" "" with
  | None => ambiguous l = true
  | Some (v, h) =>
      match l with
      | [] => v = "" /\ h = ""
      | _ => In (v, h) l /\ is_top l (v, h) = true /\ top_ambiguous l = false
      end
  end.
Proof.
  destruct l as [|[v0 h0] rest]; [cbn; auto|].
  cbn [pick andb].
  pose proof (pick_invariant rest [(v0, h0)] v0 h0) as H.
  change ([(v0, h0)] ++ rest) with ((v0, h0) :: rest) in H.
  destruct (pick rest true v0 h0) as [[v h]|].
  - destruct H as (Hin & Htop & Hsame).
    + left. reflexivity.
    + intros r [<-|[]]. cbn. rewrite vercmp_refl. lia.
    + intros r [<-|[]] _. reflexivity.
    + split; [exact Hin|]. split.
      * apply forallb_forall. intros r Hr. apply Z.leb_le. cbn [fst]. apply Htop, Hr.
      * destruct (top_ambiguous _) eqn:Hamb; [|reflexivity]. exfalso.
        unfold top_ambiguous in Hamb.
        apply existsb_exists in Hamb as (r1 & Hr1 & [Ht1 Hamb]%andb_true_iff).
        apply existsb_exists in Hamb as (r2 & Hr2 & [Ht2 Hne]%andb_true_iff).
        assert (forall r, In r ((v0, h0) :: rest) ->
                          is_top ((v0, h0) :: rest) r = true -> snd r = h) as Hh.
        { intros r Hr Ht. apply Hsame; [exact Hr|].
          pose proof (Htop r Hr) as H1.
          unfold is_top in Ht. rewrite forallb_forall in Ht.
          pose proof (Ht _ Hin) as H2. apply Z.leb_le in H2. cbn [fst] in H2.
          rewrite (vercmp_opp v (fst r)) in H2. lia. }
        rewrite (Hh r1 Hr1 Ht1), (Hh r2 Hr2 Ht2), String.eqb_refl in Hne.
        discriminate Hne.
  - apply H.
    + left. reflexivity.
    + intros r [<-|[]]. cbn. rewrite vercmp_refl. lia.
    + intros r [<-|[]] _. reflexivity.
Qed.

(** Whatever the records, selection ends with nothing or with a survivor
    of the highest version; it ends with nothing when two survivors of the
    highest version carry different hashes, and with a survivor of the
    highest version when there is a survivor and no two survivors of equal
    version carry different hashes. *)
Lemma process_version_top_or_nothing software buildtag records w :
  let l := survivors software buildtag records in
  let u' := self (process_version software buildtag records w) in
  ((version u' = "" /\ expected_hash u' = expected_hash (self w))
   \/ exists v h,
        In (v, h) l /\ is_top l (v, h) = true
        /\ version u' = v /\ (v <> "" -> expected_hash u' = h))
  /\ (top_ambiguous l = true ->
      version u' = "" /\ expected_hash u' = expected_hash (self w))
  /\ (ambiguous l = false -> l <> [] ->
      exists v h,
        In (v, h) l /\ is_top l (v, h) = true
        /\ version u' = v /\ (v <> "" -> expected_hash u' = h)).
Proof.
  cbv zeta.
  pose proof (process_version_pick software buildtag records w) as Hp.
  pose proof (pick_sound (survivors software buildtag records)) as Hs.
  cbv zeta in Hp.
  destruct (pick (survivors software buildtag records) false "" "") as [[v h]|].
  - destruct Hp as [Hv He].
    destruct (survivors software buildtag records) as [|r l] eqn:Hl.
    + destruct Hs as [-> ->]. split_all.
      * left. split; [exact Hv|exact He].
      * discriminate.
      * intros _ Hne. contradiction.
    + destruct Hs as (Hin & Htop & Hamb).
      assert (exists v0 h0,
                In (v0, h0) (r :: l) /\ is_top (r :: l) (v0, h0) = true
                /\ version (self (process_version software buildtag records w))
                   = v0
                /\ (v0 <> "" ->
                    expected_hash
                      (self (process_version software buildtag records w))
                    = h0)) as Hex.
      { exists v, h. split_all; try assumption.
        intros Hne. rewrite He.
        destruct (String.eqb_spec v ""); [contradiction|reflexivity]. }
      split_all; [right; exact Hex|congruence|intros _ _; exact Hex].
  - split_all; [left; exact Hp|intros _; exact Hp|congruence].
Qed.

(** C5, the claim as worded fails: two survivors of version 0.17.0 with
    different hashes follow a survivor of version 0.18.1; selection does
    not give up, it selects 0.18.1. *)
Lemma process_version_ignores_lower_tie :
  let a := file_hash_as_text (repeat Byte.xaa 32) in
  let b := file_hash_as_text (repeat Byte.xbb 32) in
  let records := [ "monero:linux-x64:0.18.1:" +:+ good_hash;
                   "monero:linux-x64:0.17.0:" +:+ a;
                   "monero:linux-x64:0.17.0:" +:+ b ] in
  let w := process_version "monero" "linux-x64" records (Updater_new "linux-x64") in
  survivors "monero" "linux-x64" records
  = [("0.18.1", good_hash); ("0.17.0", a); ("0.17.0", b)]
  /\ vercmp "0.17.0" "0.17.0" = 0%Z /\ a <> b
  /\ version (self w) = "0.18.1"
  /\ expected_hash (self w) = good_hash.
Proof. cbv zeta; split_all; vm_compute; congruence. Qed.

(** ** The loop over the users *)

(** Every round ends in one of three ways: a message only, a message and
    the bad-signature flag, or a message, an increment of
    [validGitianSigs] and a new entry of [fingerprints]. *)
Lemma verify_user_shape E b p f x user (fp : gmap string string) w :
  exists m,
    (verify_user E b p f x user (fp, w) = (fp, finish_round (add_message m w))
     /\ forall fingerprint,
          user_verdict E b p (self w) user <> Some (TriFalse, fingerprint))
    \/ (verify_user E b p f x user (fp, w)
        = (fp, finish_round (assign (with_bad_gitian_signature_found true)
                               (add_message m w)))
        /\ exists fingerprint,
             user_verdict E b p (self w) user = Some (TriFalse, fingerprint))
    \/ (exists fingerprint,
          user_verdict E b p (self w) user = Some (TriTrue, fingerprint)
          /\ fp !! fingerprint = None
          /\ is_Some (imported_fingerprints (self w) !! fingerprint)
          /\ verify_user E b p f x user (fp, w)
             = (<[fingerprint := user]> fp,
                finish_round (setValidGitianSigs (validGitianSigs (self w) + 1)
                                (add_message m w)))).
Proof.
  unfold verify_user, user_verdict.
  destruct (download E (assert_url b p (self w) user)) as [assert_contents|];
    [|eexists; left; split; [reflexivity|discriminate]].
  destruct (download E (sig_url b p (self w) user)) as [sig_contents|];
    [|eexists; left; split; [reflexivity|discriminate]].
  destruct (verify_gitian_signature E assert_contents sig_contents "")
    as [res fingerprint].
  destruct res; cbn [TriState.eqb andb].
  - (* unknown *)
    eexists; left; split; [reflexivity|congruence].
  - (* true *)
    destruct (fp !! fingerprint) as [seen|] eqn:Hseen;
      destruct (imported_fingerprints (self w) !! fingerprint) as [owner|] eqn:Himp;
      repeat (rewrite bool_decide_eq_true_2 by congruence
              || rewrite bool_decide_eq_false_2 by congruence);
      cbn [andb negb].
    + eexists; left; split; [reflexivity|congruence].
    + eexists; left; split; [reflexivity|congruence].
    + destruct (find_hash E x assert_contents) as [hash|];
        [destruct (negb (String.eqb hash (expected_hash (self w))))|].
      * eexists; left; split; [reflexivity|congruence].
      * eexists; right; right. exists fingerprint.
        split; [reflexivity|]. split; [exact Hseen|]. split; [eauto|].
        reflexivity.
      * eexists; left; split; [reflexivity|congruence].
    + eexists; left; split; [reflexivity|congruence].
  - (* false *)
    destruct (bool_decide (fp !! fingerprint = None)); cbn [negb];
      eexists; right; left; (split; [reflexivity|eauto]).
Qed.

Lemma fetch_gitian_sigs_unfold E w :
  let u := self w in
  let users := listed_users E u in
  fetch_gitian_sigs E w
  = match download E (base_tree_url u) with
    | None => no_gitian_sigs (sigs_reset w)
    | Some _ =>
        if Nat.eqb (length users) 0
        then no_users_listed
               (setMinValidGitianSigs MIN_GITIAN_SIGS
                  (setValidGitianSigs 0 (sigs_reset w)))
        else sigs_loop_exit
               (snd (verify_users E (base_blob_url u)
                       (gitian_platform (buildtag u)) (gitian_filename E u)
                       (hash_expression (gitian_filename E u)) users
                       (∅, sigs_loop_entry users w)))
    end.
Proof.
  cbv zeta. unfold fetch_gitian_sigs, listed_users. cbv zeta.
  change (base_tree_url (self (sigs_reset w))) with (base_tree_url (self w)).
  destruct (download E (base_tree_url (self w))) as [s|]; [|reflexivity].
  change (base_tree_url_path
            (self (setMinValidGitianSigs MIN_GITIAN_SIGS
                     (setValidGitianSigs 0 (sigs_reset w)))))
    with (base_tree_url_path (self w)).
  destruct (Nat.eqb (length _) 0); [reflexivity|].
  change (base_blob_url (self (sigs_reset w))) with (base_blob_url (self w)).
  change (buildtag (self (sigs_reset w))) with (buildtag (self w)).
  change (gitian_filename E (self (sigs_reset w)))
    with (gitian_filename E (self w)).
  unfold sigs_loop_entry. cbv zeta.
  destruct (verify_users _ _ _ _ _ _ _) as [fp' w']. reflexivity.
Qed.

Lemma user_verdict_inputs E b p u u' user :
  software u = software u' -> version u = version u' ->
  user_verdict E b p u user = user_verdict E b p u' user.
Proof.
  intros Hs Hv. unfold user_verdict, assert_url, sig_url.
  rewrite Hs, Hv. reflexivity.
Qed.

Lemma u32_small z : (0 <= z < 2 ^ 32)%Z -> u32 z = z.
Proof. intros H. unfold u32. apply Z.mod_small. exact H. Qed.

Lemma u32_0 : u32 0 = 0%Z.
Proof. reflexivity. Qed.

Lemma u32_succ_neq z : u32 (z + 1) <> z.
Proof.
  unfold u32. intros H.
  pose proof (Z.div_mod (z + 1) (2 ^ 32) ltac:(lia)) as Hd.
  rewrite H in Hd. change (2 ^ 32)%Z with 4294967296%Z in Hd. lia.
Qed.

Lemma u32_succ_u32 z : u32 (u32 z + 1) = u32 (z + 1).
Proof. unfold u32. rewrite Zplus_mod_idemp_l. reflexivity. Qed.

Lemma verify_user_round E b p f x user (fp : gmap string string) w :
  let st' := verify_user E b p f x user (fp, w) in
  let u := self w in
  let u' := self (snd st') in
  same_inputs u u'
  /\ processedGitianSigs u' = u32 (processedGitianSigs u + 1)
  /\ (bad_gitian_signature_found u' = true <->
      bad_gitian_signature_found u = true
      \/ exists fingerprint,
           user_verdict E b p u user = Some (TriFalse, fingerprint))
  /\ ((validGitianSigs u' = validGitianSigs u /\ fst st' = fp)
      \/ exists fingerprint,
           user_verdict E b p u user = Some (TriTrue, fingerprint)
           /\ fp !! fingerprint = None
           /\ fst st' = <[fingerprint := user]> fp
           /\ validGitianSigs u' = u32 (validGitianSigs u + 1)).
Proof.
  cbv zeta.
  destruct (verify_user_shape E b p f x user fp w)
    as (m & [[-> Hv]|[[-> (fingerprint & Hv)]|(fingerprint & Hv & Hfp & _ & ->)]]);
    cbn [fst snd].
  - split; [repeat split|]. split; [reflexivity|]. split.
    + change (bad_gitian_signature_found (self (finish_round (add_message m w))))
        with (bad_gitian_signature_found (self w)).
      split; [auto|]. intros [H|(fingerprint & H)]; [exact H|].
      exfalso. exact (Hv _ H).
    + left. split; reflexivity.
  - split; [repeat split|]. split; [reflexivity|]. split.
    + split; [eauto|reflexivity].
    + left. split; reflexivity.
  - split; [repeat split|]. split; [reflexivity|]. split.
    + change (bad_gitian_signature_found (self (finish_round _)))
        with (bad_gitian_signature_found (self w)).
      split; [auto|]. intros [H|(fingerprint' & H)]; [exact H|]. congruence.
    + right. exists fingerprint. split_all; try assumption; reflexivity.
Qed.

Lemma verify_users_cons E b p f x user users st :
  verify_users E b p f x (user :: users) st
  = verify_users E b p f x users (verify_user E b p f x user st).
Proof. reflexivity. Qed.

(** The loop keeps what a round keeps, and the flag is set at its end iff
    it was set before or the engine calls a signature of a listed user
    bad. *)
Lemma verify_users_flag E b p f x users : forall (fp : gmap string string) w,
  let w' := snd (verify_users E b p f x users (fp, w)) in
  same_inputs (self w) (self w')
  /\ (bad_gitian_signature_found (self w') = true <->
      bad_gitian_signature_found (self w) = true
      \/ exists user fingerprint,
           In user users
           /\ user_verdict E b p (self w) user = Some (TriFalse, fingerprint)).
Proof.
  induction users as [|user users IH]; intros fp w; cbv zeta.
  - cbn. split; [repeat split|]. split; [auto|].
    intros [H|(user & fingerprint & [] & _)]. exact H.
  - rewrite verify_users_cons.
    pose proof (verify_user_round E b p f x user fp w) as Hr. cbv zeta in Hr.
    destruct (verify_user E b p f x user (fp, w)) as [fp1 w1]. cbn [fst snd] in Hr.
    destruct Hr as (Hsame & _ & Hbad & _).
    specialize (IH fp1 w1). cbv zeta in IH. destruct IH as (Hsame' & Hbad').
    destruct Hsame as (Hs1 & Hs2 & Hs3 & Hs4 & Hs5 & Hs6 & Hs7 & Hs8 & Hs9).
    destruct Hsame' as (Ht1 & Ht2 & Ht3 & Ht4 & Ht5 & Ht6 & Ht7 & Ht8 & Ht9).
    split; [repeat split; congruence|].
    rewrite Hbad', Hbad. split.
    + intros [[H|(fingerprint & H)]|(user' & fingerprint & Hin & H)].
      * left. exact H.
      * right. exists user, fingerprint. split; [left; reflexivity|exact H].
      * right. exists user', fingerprint. split; [right; exact Hin|].
        rewrite <- (user_verdict_inputs E b p (self w1) (self w) user' Hs1 Hs2).
        exact H.
    + intros [H|(user' & fingerprint & [<-|Hin] & H)].
      * left. left. exact H.
      * left. right. exists fingerprint. exact H.
      * right. exists user', fingerprint. split; [exact Hin|].
        rewrite (user_verdict_inputs E b p (self w1) (self w) user' Hs1 Hs2).
        exact H.
Qed.

(** ** The signature quorum *)

Lemma fetch_gitian_sigs_outcome E w :
  let u := self w in
  let u' := self (fetch_gitian_sigs E w) in
  state u' = state u
  /\ gitian_verify_sigs_done u' = true
  /\ (gitian_verify_sigs_success u' = true <->
      (MIN_GITIAN_SIGS <= validGitianSigs u')%Z
      /\ bad_gitian_signature_found u' = false)
  /\ (next_state u' = StateVerifyGitianSignatures
      \/ next_state u' = StateNoGitianSigs)
  /\ (next_state u' = StateVerifyGitianSignatures ->
      (bad_gitian_signature_found u' = true <->
       exists user fingerprint,
         In user (listed_users E u)
         /\ user_verdict E (base_blob_url u) (gitian_platform (buildtag u))
                         u user = Some (TriFalse, fingerprint))).
Proof.
  cbv zeta. rewrite fetch_gitian_sigs_unfold. cbv zeta.
  destruct (download E (base_tree_url (self w))) as [s|].
  2:{ split_all; try reflexivity; [|right; reflexivity|discriminate].
      split; [discriminate|]. intros [H _]. vm_compute in H. contradiction. }
  destruct (Nat.eqb (length (listed_users E (self w))) 0).
  { split_all; try reflexivity; [|right; reflexivity|discriminate].
    split; [discriminate|]. intros [H _]. vm_compute in H. contradiction. }
  set (users := listed_users E (self w)).
  pose proof (verify_users_flag E (base_blob_url (self w))
                (gitian_platform (buildtag (self w))) (gitian_filename E (self w))
                (hash_expression (gitian_filename E (self w))) users
                ∅ (sigs_loop_entry users w)) as Hloop.
  cbv zeta in Hloop.
  destruct (verify_users _ _ _ _ _ _ _) as [fp' w']. cbn [snd] in *.
  destruct Hloop as ((Hs1 & Hs2 & Hs3 & Hs4 & Hs5 & Hs6 & Hs7 & Hs8 & Hs9) & Hbad).
  split_all.
  - exact Hs7.
  - reflexivity.
  - change (gitian_verify_sigs_success (self (sigs_loop_exit w')))
      with ((MIN_GITIAN_SIGS <=? validGitianSigs (self w'))%Z
            && negb (bad_gitian_signature_found (self w'))).
    change (validGitianSigs (self (sigs_loop_exit w')))
      with (validGitianSigs (self w')).
    change (bad_gitian_signature_found (self (sigs_loop_exit w')))
      with (bad_gitian_signature_found (self w')).
    rewrite andb_true_iff, Z.leb_le, negb_true_iff. reflexivity.
  - left. exact Hs8.
  - intros _.
    change (bad_gitian_signature_found (self (sigs_loop_exit w')))
      with (bad_gitian_signature_found (self w')).
    rewrite Hbad. split.
    + intros [H|(user & fingerprint & Hin & H)]; [discriminate H|].
      exists user, fingerprint. split; [exact Hin|].
      rewrite <- H. apply user_verdict_inputs; reflexivity.
    + intros (user & fingerprint & Hin & H). right.
      exists user, fingerprint. split; [exact Hin|].
      rewrite <- H. apply user_verdict_inputs; reflexivity.
Qed.

(** The two rounds that follow the stage: the first enters
    [VerifyGitianSignatures] and reads the flags, the second enters the
    state they call for. *)
Lemma rounds_after_sigs E w :
  state (self w) = StateFetchGitianSigs ->
  next_state (self w) = StateVerifyGitianSignatures ->
  gitian_verify_sigs_done (self w) = true ->
  state (self (updater_thread E w)) = StateVerifyGitianSignatures
  /\ state (self (updater_thread_rounds E 2 w))
     = if gitian_verify_sigs_success (self w) then StateDownload
       else if negb (bad_gitian_signature_found (self w))
            then StateNotEnoughGitianSigs else StateBadGitianSigs.
Proof.
  intros Hs Hn Hd.
  set (next := if gitian_verify_sigs_success (self w) then StateDownload
               else if negb (bad_gitian_signature_found (self w))
                    then StateNotEnoughGitianSigs else StateBadGitianSigs).
  assert (updater_thread E w = set_state next (committed w)) as H1.
  { unfold updater_thread. rewrite change_state_commits by congruence.
    rewrite Hn. cbv zeta.
    change (state (self (committed w))) with (next_state (self w)).
    rewrite Hn.
    change (gitian_verify_sigs_done (self (committed w)))
      with (gitian_verify_sigs_done (self w)).
    rewrite Hd. cbn [negb].
    change (gitian_verify_sigs_success (self (committed w)))
      with (gitian_verify_sigs_success (self w)).
    change (bad_gitian_signature_found (self (committed w)))
      with (bad_gitian_signature_found (self w)).
    subst next.
    destruct (gitian_verify_sigs_success (self w)); [reflexivity|].
    destruct (bad_gitian_signature_found (self w)); reflexivity. }
  split; [rewrite H1; exact Hn|].
  cbn [updater_thread_rounds]. rewrite H1.
  set (w1 := set_state next (committed w)).
  assert (state (self w1) = StateVerifyGitianSignatures) as Hs1 by exact Hn.
  assert (next_state (self w1) = next) as Hn1 by reflexivity.
  assert (next <> StateVerifyGitianSignatures) as Hne.
  { subst next. destruct (gitian_verify_sigs_success (self w)); [discriminate|].
    destruct (negb _); discriminate. }
  unfold updater_thread. rewrite change_state_commits by congruence.
  rewrite Hn1. cbv zeta.
  assert (next = StateDownload \/ next = StateNotEnoughGitianSigs
          \/ next = StateBadGitianSigs) as [->|[->| ->]].
  { subst next. destruct (gitian_verify_sigs_success (self w)); [auto|].
    destruct (negb _); auto. }
  - change (state (self (start_download E (committed w1))))
      with (next_state (self w1)).
    rewrite Hn1. reflexivity.
  - change (state (self (committed w1))) with (next_state (self w1)).
    rewrite Hn1. reflexivity.
  - change (state (self (committed w1))) with (next_state (self w1)).
    rewrite Hn1. reflexivity.
Qed.

(** C1: in the round that runs [fetch_gitian_sigs], the stage succeeds iff
    [validGitianSigs >= 2] and no bad signature was found. When the loop
    over the users ran, the flag is set iff the engine called the signature
    of some listed user bad, and two rounds later the machine has left
    [VerifyGitianSignatures]: for [BadGitianSigs] when the flag is set,
    whatever the count; for [NotEnoughGitianSigs] when it is not and fewer
    than two signatures were counted; for [Download] otherwise. *)
Theorem signature_quorum_outcome E w :
  state (self w) <> StateFetchGitianSigs ->
  next_state (self w) = StateFetchGitianSigs ->
  let u := self w in
  let w1 := updater_thread E w in
  let u1 := self w1 in
  let w3 := updater_thread_rounds E 2 w1 in
  (gitian_verify_sigs_success u1 = true <->
   (MIN_GITIAN_SIGS <= validGitianSigs u1)%Z
   /\ bad_gitian_signature_found u1 = false)
  /\ (next_state u1 = StateVerifyGitianSignatures ->
      (bad_gitian_signature_found u1 = true <->
       exists user fingerprint,
         In user (listed_users E u)
         /\ user_verdict E (base_blob_url u) (gitian_platform (buildtag u))
                         u user = Some (TriFalse, fingerprint))
      /\ state (self (updater_thread E w1)) = StateVerifyGitianSignatures
      /\ (bad_gitian_signature_found u1 = true ->
          state (self w3) = StateBadGitianSigs)
      /\ (bad_gitian_signature_found u1 = false ->
          (validGitianSigs u1 < MIN_GITIAN_SIGS)%Z ->
          state (self w3) = StateNotEnoughGitianSigs)
      /\ (bad_gitian_signature_found u1 = false ->
          (MIN_GITIAN_SIGS <= validGitianSigs u1)%Z ->
          state (self w3) = StateDownload)).
Proof.
  intros Hs Hn. cbv zeta.
  assert (updater_thread E w = fetch_gitian_sigs E (committed w)) as H1.
  { unfold updater_thread. rewrite change_state_commits by congruence.
    rewrite Hn. cbv zeta.
    destruct (fetch_gitian_sigs_outcome E (committed w)) as (Hst & _).
    cbv zeta in Hst. rewrite Hst.
    change (state (self (committed w))) with (next_state (self w)).
    rewrite Hn. reflexivity. }
  rewrite H1.
  destruct (fetch_gitian_sigs_outcome E (committed w))
    as (Hst & Hdone & Hsucc & _ & Hbad).
  cbv zeta in Hst, Hdone, Hsucc, Hbad.
  split; [exact Hsucc|]. intros Hnext.
  assert (state (self (fetch_gitian_sigs E (committed w))) = StateFetchGitianSigs)
    as Hst' by (rewrite Hst; exact Hn).
  destruct (rounds_after_sigs E _ Hst' Hnext Hdone) as [Hr1 Hr2].
  split; [exact (Hbad Hnext)|]. split; [exact Hr1|].
  rewrite Hr2. split_all.
  - intros Hb. rewrite Hb.
    destruct (gitian_verify_sigs_success _); [|reflexivity].
    destruct (proj1 Hsucc eq_refl); congruence.
  - intros Hb Hlt. rewrite Hb.
    destruct (gitian_verify_sigs_success _); [|reflexivity].
    destruct (proj1 Hsucc eq_refl); lia.
  - intros Hb Hge.
    assert (gitian_verify_sigs_success
              (self (fetch_gitian_sigs E (committed w))) = true) as ->;
      [|reflexivity].
    apply Hsucc. split; assumption.
Qed.

Lemma signature_quorum_outcome_witness :
  state (self (updater_thread_rounds bad_carol 2
                 (updater_thread bad_carol keys_imported)))
  = StateBadGitianSigs.
Proof.
  pose proof (signature_quorum_outcome bad_carol keys_imported) as H.
  cbv zeta in H.
  destruct H as (_ & H); [vm_compute; congruence | vm_compute; reflexivity |].
  destruct H as (_ & _ & H & _); [vm_compute; reflexivity|].
  apply H. vm_compute. reflexivity.
Defined.

(** ** The counters *)

Lemma verify_user_counters E b p f x user (fp : gmap string string) w :
  counters_ordered (self w) ->
  (processedGitianSigs (self w) < totalGitianSigs (self w))%Z ->
  (totalGitianSigs (self w) < 2 ^ 32)%Z ->
  let w' := snd (verify_user E b p f x user (fp, w)) in
  counters_ordered (self w')
  /\ processedGitianSigs (self w') = (processedGitianSigs (self w) + 1)%Z
  /\ totalGitianSigs (self w') = totalGitianSigs (self w)
  /\ exists new,
       emitted w' = new ++ emitted w
       /\ Forall (fun eu => counters_in_round (snd eu)) new.
Proof.
  intros (Hv & Hp) Hlt Htot. cbv zeta.
  assert (u32 (processedGitianSigs (self w) + 1)
          = (processedGitianSigs (self w) + 1)%Z) as Hp1
    by (apply u32_small; lia).
  assert (u32 (validGitianSigs (self w) + 1)
          = (validGitianSigs (self w) + 1)%Z) as Hv1
    by (apply u32_small; lia).
  destruct (verify_user_shape E b p f x user fp w)
    as (m & [[-> _]|[[-> _]|(fingerprint & _ & _ & _ & ->)]]);
    cbn [snd]; unfold counters_ordered, counters_in_round.
  - split_all; cbn; rewrite ?Hp1; try lia.
    eexists [_; _]. split; [reflexivity|].
    repeat constructor; cbn; rewrite ?Hp1; lia.
  - split_all; cbn; rewrite ?Hp1; try lia.
    eexists [_; _]. split; [reflexivity|].
    repeat constructor; cbn; rewrite ?Hp1; lia.
  - split_all; cbn; rewrite ?Hp1, ?Hv1; try lia.
    eexists [_; _; _]. split; [reflexivity|].
    repeat constructor; cbn; rewrite ?Hp1, ?Hv1; lia.
Qed.

Lemma verify_users_counters E b p f x users :
  forall (fp : gmap string string) w,
  counters_ordered (self w) ->
  (processedGitianSigs (self w) + Z.of_nat (length users)
   <= totalGitianSigs (self w))%Z ->
  (totalGitianSigs (self w) < 2 ^ 32)%Z ->
  let w' := snd (verify_users E b p f x users (fp, w)) in
  counters_ordered (self w')
  /\ totalGitianSigs (self w') = totalGitianSigs (self w)
  /\ exists new,
       emitted w' = new ++ emitted w
       /\ Forall (fun eu => counters_in_round (snd eu)) new.
Proof.
  induction users as [|user users IH]; intros fp w Hord Hlen Htot; cbv zeta.
  - cbn [verify_users fold_left snd]. split; [exact Hord|].
    split; [reflexivity|].
    exists []. split; [reflexivity|constructor].
  - rewrite verify_users_cons. cbn [length] in Hlen.
    pose proof (verify_user_counters E b p f x user fp w Hord ltac:(lia) Htot)
      as Hr. cbv zeta in Hr.
    destruct (verify_user E b p f x user (fp, w)) as [fp1 w1]. cbn [snd] in Hr.
    destruct Hr as (Hord1 & Hp1 & Ht1 & new1 & He1 & Hf1).
    destruct (IH fp1 w1 Hord1 ltac:(lia) ltac:(lia))
      as (Hord2 & Ht2 & new2 & He2 & Hf2).
    split; [exact Hord2|]. split; [congruence|].
    exists (new2 ++ new1). split.
    + rewrite He2, He1, app_assoc. reflexivity.
    + apply Forall_app. split; assumption.
Qed.

Lemma counted_fingerprints_once E b p f x users :
  forall (fp : gmap string string) w,
  let counted := counted_fingerprints E b p f x users (fp, w) in
  List.NoDup counted
  /\ (forall g, In g counted -> fp !! g = None)
  /\ length counted <= length users
  /\ u32 (validGitianSigs (self (snd (verify_users E b p f x users (fp, w)))))
     = u32 (validGitianSigs (self w) + Z.of_nat (length counted)).
Proof.
  induction users as [|user users IH]; intros fp w; cbv zeta.
  - cbn. split_all; [constructor|intros g []|lia|].
    rewrite Z.add_0_r. reflexivity.
  - rewrite verify_users_cons. cbn [counted_fingerprints].
    pose proof (verify_user_round E b p f x user fp w) as Hr. cbv zeta in Hr.
    destruct (verify_user E b p f x user (fp, w)) as [fp1 w1].
    cbn [fst snd] in *.
    destruct Hr as (_ & _ & _ & Hr).
    destruct (IH fp1 w1) as (Hnd & Hfresh & Hlen & Hval).
    destruct Hr as [[Hv ->]|(fingerprint & Hverdict & Hnew & -> & Hv)].
    + rewrite Hv, Z.eqb_refl. split_all; try assumption.
      * cbn [length]. lia.
      * rewrite Hval, Hv. reflexivity.
    + rewrite Hv. destruct (Z.eqb_spec (u32 (validGitianSigs (self w) + 1))
                                       (validGitianSigs (self w))) as [Heq|_].
      { exfalso. exact (u32_succ_neq _ Heq). }
      rewrite Hverdict. split_all.
      * constructor; [|exact Hnd].
        intros Hin. specialize (Hfresh _ Hin).
        rewrite lookup_insert_eq in Hfresh. discriminate Hfresh.
      * intros g [<-|Hin]; [exact Hnew|].
        specialize (Hfresh _ Hin).
        apply lookup_insert_None in Hfresh. apply Hfresh.
      * cbn [length]. lia.
      * rewrite Hval, Hv. cbn [length]. unfold u32.
        rewrite Zplus_mod_idemp_l. f_equal. lia.
Qed.

(** C7, the claim as worded fails: in the scripted run the signal
    [validGitianSigsChanged] of the first user goes out while
    [processedGitianSigs] is still behind [validGitianSigs]. *)
Lemma valid_counted_before_processed :
  exists e u,
    In (e, u) (emitted (updater_thread bad_carol keys_imported))
    /\ (processedGitianSigs u < validGitianSigs u)%Z.
Proof.
  assert (existsb (fun eu => (processedGitianSigs (snd eu)
                              <? validGitianSigs (snd eu))%Z)
            (emitted (updater_thread bad_carol keys_imported)) = true) as H
    by (vm_compute; reflexivity).
  apply existsb_exists in H as ([e u] & Hin & Hlt).
  exists e, u. split; [exact Hin|]. apply Z.ltb_lt. exact Hlt.
Qed.

(** C7, amended: with fewer than 2^32 listed users, when
    [fetch_gitian_sigs] returns [0 <= validGitianSigs <=
    processedGitianSigs <= totalGitianSigs] holds; if the stage starts with
    [validGitianSigs] and [processedGitianSigs] at 0, every state published
    during the stage has [0 <= processedGitianSigs <= totalGitianSigs] and
    [0 <= validGitianSigs <= processedGitianSigs + 1]; and the fingerprints
    for which [validGitianSigs] was incremented are pairwise distinct, their
    number being the final [validGitianSigs]. *)
Theorem gitian_counters E w :
  (Z.of_nat (length (listed_users E (self w))) < 2 ^ 32)%Z ->
  let u := self w in
  let w' := fetch_gitian_sigs E w in
  let counted :=
    counted_fingerprints E (base_blob_url u) (gitian_platform (buildtag u))
      (gitian_filename E u) (hash_expression (gitian_filename E u))
      (listed_users E u) (∅, sigs_loop_entry (listed_users E u) w) in
  counters_ordered (self w')
  /\ (validGitianSigs u = 0%Z -> processedGitianSigs u = 0%Z ->
      exists new,
        emitted w' = new ++ emitted w
        /\ Forall (fun eu => counters_in_round (snd eu)) new)
  /\ List.NoDup counted
  /\ validGitianSigs (self w') = Z.of_nat (length counted).
Proof.
  intros Hn. cbv zeta. rewrite fetch_gitian_sigs_unfold. cbv zeta.
  set (users := listed_users E (self w)) in *.
  pose proof (counted_fingerprints_once E (base_blob_url (self w))
                (gitian_platform (buildtag (self w))) (gitian_filename E (self w))
                (hash_expression (gitian_filename E (self w))) users
                ∅ (sigs_loop_entry users w)) as Hc.
  cbv zeta in Hc. destruct Hc as (Hnd & _ & Hlen & Hval).
  assert (users = [] ->
          counted_fingerprints E (base_blob_url (self w))
            (gitian_platform (buildtag (self w))) (gitian_filename E (self w))
            (hash_expression (gitian_filename E (self w))) users
            (∅, sigs_loop_entry users w) = []) as Hnone
    by (intros ->; reflexivity).
  destruct (download E (base_tree_url (self w))) as [s|] eqn:Hdl.
  2:{ assert (users = []) as Hu
        by (subst users; unfold listed_users; rewrite Hdl; reflexivity).
      rewrite (Hnone Hu).
      split; [unfold counters_ordered; cbn; rewrite ?u32_0; lia|].
      split; [|split; [constructor|reflexivity]].
      intros Hv Hp. eexists [_; _; _; _; _]. split; [reflexivity|].
      unfold counters_in_round.
      repeat constructor; cbn; rewrite ?Hv, ?Hp, ?u32_0; lia. }
  destruct (Nat.eqb_spec (length users) 0) as [Hz|Hnz].
  { assert (users = []) as Hu by (destruct users; [reflexivity|discriminate]).
    rewrite (Hnone Hu).
    split; [unfold counters_ordered; cbn; rewrite ?u32_0; lia|].
    split; [|split; [constructor|reflexivity]].
    intros Hv Hp. eexists [_; _; _; _; _; _]. split; [reflexivity|].
    unfold counters_in_round.
    repeat constructor; cbn; rewrite ?Hv, ?Hp, ?u32_0; lia. }
  assert (u32 (Z.of_nat (length users)) = Z.of_nat (length users)) as Htot
    by (apply u32_small; lia).
  assert (counters_ordered (self (sigs_loop_entry users w))) as Hord.
  { unfold counters_ordered. cbn. rewrite Htot, ?u32_0. lia. }
  pose proof (verify_users_counters E (base_blob_url (self w))
                (gitian_platform (buildtag (self w))) (gitian_filename E (self w))
                (hash_expression (gitian_filename E (self w))) users
                ∅ (sigs_loop_entry users w) Hord) as Hloop.
  cbv zeta in Hloop.
  destruct Hloop as (Hord' & Ht & new & He & Hf).
  { cbn. rewrite Htot, ?u32_0. lia. }
  { cbn. rewrite Htot. lia. }
  destruct (verify_users _ _ _ _ _ _ _) as [fp' w']. cbn [snd] in *.
  split; [exact Hord'|]. split; [|split; [exact Hnd|]].
  - intros Hv Hp. eexists (new ++ [_; _; _; _; _; _]). split.
    + change (emitted (sigs_loop_exit w')) with (emitted w').
      rewrite He, <- app_assoc. reflexivity.
    + apply Forall_app. split; [exact Hf|].
      unfold counters_in_round.
      repeat constructor; cbn; rewrite ?Hv, ?Hp, ?Htot, ?u32_0; lia.
  - change (validGitianSigs (self (sigs_loop_exit w')))
      with (validGitianSigs (self w')).
    change (validGitianSigs (self (sigs_loop_entry users w))) with (u32 0) in Hval.
    change (totalGitianSigs (self (sigs_loop_entry users w)))
      with (u32 (Z.of_nat (length users))) in Ht.
    destruct Hord' as ((Hv0 & Hv1) & Hp1).
    rewrite (u32_small (validGitianSigs (self w'))) in Hval by lia.
    rewrite Hval. change (u32 0) with 0%Z. apply u32_small. lia.
Qed.

Lemma gitian_counters_witness :
  counters_ordered (self (fetch_gitian_sigs bad_carol keys_imported)).
Proof.
  assert (Z.of_nat (length (listed_users bad_carol (self keys_imported)))
          < 2 ^ 32)%Z as H by (vm_compute; reflexivity).
  exact (proj1 (gitian_counters bad_carol keys_imported H)).
Defined.

(** * The object as a whole *)

(** ** What the operations leave alone *)

Lemma changes_only_refl l u : changes_only l u u.
Proof. intros f _. reflexivity. Qed.

Lemma changes_only_trans l u1 u2 u3 :
  changes_only l u1 u2 -> changes_only l u2 u3 -> changes_only l u1 u3.
Proof. intros H12 H23 f Hf. rewrite (H23 f Hf). exact (H12 f Hf). Qed.

Lemma changes_only_weaken l l' u u' :
  forallb (fun f => among f l') l = true ->
  changes_only l u u' -> changes_only l' u u'.
Proof.
  intros Hsub H f Hf. apply H.
  destruct (among f l) eqn:Hin; [|reflexivity].
  unfold among in Hin. apply existsb_exists in Hin as (g & Hg & Heq).
  rewrite forallb_forall in Hsub. specialize (Hsub g Hg).
  assert (f = g) as -> by (destruct f, g; (reflexivity || discriminate Heq)).
  congruence.
Qed.

(** Settles [changes_only] for an operation that is a chain of member
    updates and signals, one member at a time. *)
Ltac frame_tac :=
  let f := fresh "f" in
  let Hf := fresh "Hf" in
  intros f Hf; destruct f; try reflexivity; discriminate Hf.

Ltac destruct_conds :=
  repeat match goal with
    | |- context [if ?c then _ else _] => destruct c
    | |- context [match ?c with Some _ => _ | None => _ end] => destruct c
    end.

Lemma check_hash_frame E w :
  changes_only [F_hashValid; F_messages] (self w) (self (check_hash E w)).
Proof. unfold check_hash. cbv zeta. destruct_conds; frame_tac. Qed.

Lemma start_download_frame E w :
  changes_only [F_download_path; F_download_done; F_download_success; F_messages]
    (self w) (self (start_download E w)).
Proof. unfold start_download. frame_tac. Qed.

Lemma on_result_frame success w :
  changes_only [F_download_done; F_download_success; F_messages]
    (self w) (self (on_result success w)).
Proof. frame_tac. Qed.

Lemma on_progress_frame a b w :
  changes_only [] (self w) (self (on_progress a b w)).
Proof. frame_tac. Qed.

Lemma select_frame s w :
  changes_only [F_software; F_next_state] (self w) (self (select s w)).
Proof. unfold select. destruct_conds; frame_tac. Qed.

Lemma retryDownload_frame w :
  changes_only [F_next_state] (self w) (self (retryDownload w)).
Proof. unfold retryDownload. destruct (decide _); frame_tac. Qed.

Lemma log_skipped_frame urls results first_index w :
  changes_only [F_messages] (self w)
    (self (log_skipped urls results first_index w)).
Proof.
  unfold log_skipped. generalize (seq 0 (length urls)). intros l. revert w.
  induction l as [|k l IH]; intros w; cbn [fold_left].
  - apply changes_only_refl.
  - eapply changes_only_trans; [|apply IH].
    unfold log_skipped_one. destruct_conds; frame_tac.
Qed.

Lemma load_txt_records_from_dns_frame E urls w :
  changes_only
    [F_dns_query_done; F_dnsValid; F_good_dns_records; F_dns_query_results;
     F_messages]
    (self w) (self (load_txt_records_from_dns E urls w)).
Proof.
  unfold load_txt_records_from_dns. cbv zeta.
  set (w1 := assign (with_dns_query_results _) _).
  pose proof (log_skipped_frame urls (map (get_txt_record E) urls)
                (random_engine E mod length urls) w1) as Hlog.
  set (w2 := log_skipped _ _ _ w1) in *.
  assert (changes_only
            [F_dns_query_done; F_dnsValid; F_good_dns_records;
             F_dns_query_results; F_messages] (self w) (self w2)) as H2.
  { eapply changes_only_trans; [|eapply changes_only_weaken; [|exact Hlog]];
      [subst w1; frame_tac|reflexivity]. }
  destruct (_ <? 2)%nat;
    [|destruct (find_good_records_index _)];
    (eapply changes_only_trans; [exact H2|frame_tac]).
Qed.

Lemma process_records_frame software buildtag records :
  forall found hash w,
  changes_only [F_version_check_done; F_version; F_expected_hash; F_messages]
    (self w) (self (process_records software buildtag records found hash w)).
Proof.
  induction records as [|record rest IH]; intros found hash w;
    cbn [process_records]; cbv zeta.
  - destruct_conds; frame_tac.
  - repeat match goal with
      | |- context [if ?c then _ else _] =>
          destruct c; try (eapply changes_only_trans; [|apply IH]; frame_tac)
      end.
    frame_tac.
Qed.

Lemma process_version_frame software buildtag records w :
  changes_only [F_version_check_done; F_version; F_expected_hash; F_messages]
    (self w) (self (process_version software buildtag records w)).
Proof.
  unfold process_version. cbv zeta.
  eapply changes_only_trans; [|apply process_records_frame]. frame_tac.
Qed.

Lemma import_keys_frame E keys :
  forall w,
  changes_only
    [F_gitian_pubkeys_import_done; F_gitian_pubkeys_import_success;
     F_imported_fingerprints; F_messages]
    (self w) (self (import_keys E keys w)).
Proof.
  induction keys as [|e rest IH]; intros w; cbn [import_keys]; cbv zeta.
  - frame_tac.
  - repeat match goal with
      | |- context [if ?c then _ else _] => destruct c; try frame_tac
      | |- context [match ?c with Some _ => _ | None => _ end] =>
          destruct c; try frame_tac
      end.
    eapply changes_only_trans; [|apply IH]. frame_tac.
Qed.

Lemma import_pubkeys_frame E w :
  changes_only
    [F_gitian_pubkeys_import_done; F_gitian_pubkeys_import_success;
     F_imported_fingerprints; F_messages]
    (self w) (self (import_pubkeys E w)).
Proof.
  unfold import_pubkeys. cbv zeta. destruct (negb (init_gpgme E)); [frame_tac|].
  eapply changes_only_trans; [|apply import_keys_frame]. frame_tac.
Qed.

Lemma verify_user_frame E b p f x user (fp : gmap string string) w :
  changes_only
    [F_bad_gitian_signature_found; F_processedGitianSigs; F_validGitianSigs;
     F_messages]
    (self w) (self (snd (verify_user E b p f x user (fp, w)))).
Proof.
  destruct (verify_user_shape E b p f x user fp w)
    as (m & [[-> _]|[[-> _]|(fingerprint & _ & _ & _ & ->)]]);
    cbn [snd]; frame_tac.
Qed.

Lemma verify_users_frame E b p f x users :
  forall (fp : gmap string string) w,
  changes_only
    [F_bad_gitian_signature_found; F_processedGitianSigs; F_validGitianSigs;
     F_messages]
    (self w) (self (snd (verify_users E b p f x users (fp, w)))).
Proof.
  induction users as [|user users IH]; intros fp w.
  - apply changes_only_refl.
  - rewrite verify_users_cons.
    pose proof (verify_user_frame E b p f x user fp w) as H1.
    destruct (verify_user E b p f x user (fp, w)) as [fp1 w1]. cbn [snd] in H1.
    eapply changes_only_trans; [exact H1|apply IH].
Qed.

Lemma fetch_gitian_sigs_frame E w :
  changes_only
    [F_gitian_verify_sigs_success; F_gitian_verify_sigs_done;
     F_bad_gitian_signature_found; F_totalGitianSigs; F_processedGitianSigs;
     F_validGitianSigs; F_minValidGitianSigs; F_next_state; F_messages]
    (self w) (self (fetch_gitian_sigs E w)).
Proof.
  rewrite fetch_gitian_sigs_unfold. cbv zeta.
  destruct (download E (base_tree_url (self w))); [|frame_tac].
  destruct (Nat.eqb _ 0); [frame_tac|].
  set (users := listed_users E (self w)).
  pose proof (verify_users_frame E (base_blob_url (self w))
                (gitian_platform (buildtag (self w))) (gitian_filename E (self w))
                (hash_expression (gitian_filename E (self w))) users ∅
                (sigs_loop_entry users w)) as Hloop.
  destruct (verify_users _ _ _ _ _ _ _) as [fp' w']. cbn [snd] in *.
  eapply changes_only_trans; [|eapply changes_only_trans].
  - instantiate (1 := self (sigs_loop_entry users w)). frame_tac.
  - eapply changes_only_weaken; [|exact Hloop]. reflexivity.
  - frame_tac.
Qed.

(** ** The worker and the transition table *)

(** [kept H F_x] reads off a [changes_only] fact that member [x] is the
    same on both sides. *)
Ltac kept H fld :=
  let X := fresh "Hkept" in
  pose proof (H fld eq_refl) as X; cbn [observe] in X;
  first [ injection X as X
        | match type of X with
          | ?c ?a = ?c ?b => clear X; assert (a = b) as X by reflexivity
          end ].

Lemma updater_thread_poll E w : updater_thread E w = poll (change_state E w).
Proof. reflexivity. Qed.

Lemma updater_thread_rounds_S E n w :
  updater_thread_rounds E (S n) w
  = updater_thread E (updater_thread_rounds E n w).
Proof.
  revert w. induction n as [|n IH]; intros w.
  - cbn [updater_thread_rounds]. reflexivity.
  - change (updater_thread_rounds E (S (S n)) w)
      with (updater_thread_rounds E (S n) (updater_thread E w)).
    rewrite IH. cbn [updater_thread_rounds]. reflexivity.
Qed.

Lemma poll_frame w : changes_only [F_next_state] (self w) (self (poll w)).
Proof. unfold poll. cbv zeta. destruct (state (self w)); destruct_conds;
  try frame_tac; destruct (hashValid (self w)); frame_tac. Qed.

Lemma poll_emitted w : emitted (poll w) = emitted w.
Proof. unfold poll. cbv zeta. destruct (state (self w)); destruct_conds;
  try reflexivity; destruct (hashValid (self w)); reflexivity. Qed.

Lemma poll_edge w :
  next_state (self (poll w)) = next_state (self w)
  \/ worker_edge (state (self w)) (next_state (self (poll w))) = true.
Proof.
  unfold poll. cbv zeta. destruct (state (self w)); destruct_conds;
    try (left; reflexivity); try (right; reflexivity).
  destruct (hashValid (self w)); (left; reflexivity) || (right; reflexivity).
Qed.

Lemma committed_frame w :
  changes_only [F_state] (self w) (self (committed w)).
Proof. frame_tac. Qed.

(** What [change_state] does when it commits, by the state entered. *)
Lemma change_state_frame E w :
  state (self w) <> next_state (self w) ->
  changes_only
    (F_state ::
     match next_state (self w) with
     | StateInit =>
         [F_dns_query_done; F_version_check_done; F_dnsValid; F_hashValid;
          F_validGitianSigs; F_minValidGitianSigs;
          F_bad_gitian_signature_found]
     | StateQueryDNS =>
         [F_dns_query_done; F_dnsValid; F_good_dns_records;
          F_dns_query_results; F_messages]
     | StateCheckVersion =>
         [F_version_check_done; F_version; F_expected_hash; F_messages]
     | StateDownload =>
         [F_download_path; F_download_done; F_download_success; F_messages]
     | StateCheckHash => [F_hashValid; F_messages]
     | StateImportPubkeys =>
         [F_gitian_pubkeys_import_done; F_gitian_pubkeys_import_success;
          F_imported_fingerprints; F_messages]
     | StateFetchGitianSigs =>
         [F_gitian_verify_sigs_success; F_gitian_verify_sigs_done;
          F_bad_gitian_signature_found; F_totalGitianSigs;
          F_processedGitianSigs; F_validGitianSigs; F_minValidGitianSigs;
          F_next_state; F_messages]
     | _ => []
     end)
    (self w) (self (change_state E w)).
Proof.
  intros Hne. rewrite change_state_commits by exact Hne.
  pose proof (committed_frame w) as Hc.
  destruct (next_state (self w));
    (eapply changes_only_trans;
     [eapply changes_only_weaken; [|exact Hc]; reflexivity|]).
  all: try apply changes_only_refl.
  - cbv zeta. frame_tac.
  - eapply changes_only_weaken; [|apply load_txt_records_from_dns_frame].
    reflexivity.
  - eapply changes_only_weaken; [|apply process_version_frame]. reflexivity.
  - eapply changes_only_weaken; [|apply start_download_frame]. reflexivity.
  - eapply changes_only_weaken; [|apply check_hash_frame]. reflexivity.
  - eapply changes_only_weaken; [|apply import_pubkeys_frame]. reflexivity.
  - eapply changes_only_weaken; [|apply fetch_gitian_sigs_frame]. reflexivity.
Qed.

Lemma change_state_state E w :
  state (self (change_state E w)) = next_state (self w).
Proof.
  destruct (decide (state (self w) = next_state (self w))) as [Heq|Hne].
  - rewrite change_state_same by exact Heq. exact Heq.
  - rewrite change_state_commits by exact Hne.
    change (next_state (self w)) with (state (self (committed w))) at 2.
    generalize (committed w). intros c.
    destruct (next_state (self w)); try reflexivity.
    + pose proof (load_txt_records_from_dns_frame E dns_urls c) as H.
      kept H F_state. exact Hkept.
    + pose proof (process_version_frame (software (self w)) (buildtag (self w))
                    (good_dns_records (self w)) c) as H.
      kept H F_state. exact Hkept.
    + pose proof (check_hash_frame E c) as H. kept H F_state. exact Hkept.
    + pose proof (import_pubkeys_frame E c) as H. kept H F_state. exact Hkept.
    + pose proof (fetch_gitian_sigs_frame E c) as H. kept H F_state. exact Hkept.
Qed.

Lemma change_state_next E w :
  next_state (self (change_state E w)) = next_state (self w)
  \/ (next_state (self w) = StateFetchGitianSigs
      /\ worker_edge StateFetchGitianSigs
           (next_state (self (change_state E w))) = true).
Proof.
  destruct (decide (state (self w) = next_state (self w))) as [Heq|Hne].
  - rewrite change_state_same by exact Heq. left. reflexivity.
  - pose proof (change_state_frame E w Hne) as H.
    destruct (next_state (self w)) eqn:Hn;
      try (left; kept H F_next_state; rewrite Hkept; exact Hn).
    right. split; [reflexivity|].
    rewrite change_state_commits by (rewrite Hn; exact Hne). rewrite Hn.
    destruct (fetch_gitian_sigs_outcome E (committed w))
      as (_ & _ & _ & [-> | ->] & _); reflexivity.
Qed.

Lemma updater_thread_state E w :
  state (self (updater_thread E w)) = next_state (self w).
Proof.
  rewrite updater_thread_poll.
  pose proof (poll_frame (change_state E w)) as Hp. kept Hp F_state.
  rewrite Hkept. apply change_state_state.
Qed.

Lemma updater_thread_next E w :
  let w' := updater_thread E w in
  next_state (self w') = state (self w')
  \/ worker_edge (state (self w')) (next_state (self w')) = true.
Proof.
  cbv zeta. rewrite updater_thread_state. rewrite updater_thread_poll.
  destruct (poll_edge (change_state E w)) as [Hsame|Hedge].
  - rewrite Hsame.
    destruct (change_state_next E w) as [->|[Hn Hedge]].
    + left. reflexivity.
    + right. rewrite Hn. exact Hedge.
  - right. rewrite change_state_state in Hedge. exact Hedge.
Qed.

(** X1: a round of the worker commits the state that was asked for, and
    what it then asks for is either that state again or a successor of it
    in the transition table. *)
Theorem worker_follows_table E w :
  let w' := updater_thread E w in
  state (self w') = next_state (self w)
  /\ (next_state (self w') = state (self w')
      \/ worker_edge (state (self w')) (next_state (self w')) = true).
Proof.
  cbv zeta. split; [apply updater_thread_state|apply updater_thread_next].
Qed.

(** X2: with no command in between, the states of two consecutive rounds
    of the worker are equal or joined by an edge of the transition
    table. *)
Theorem worker_run_follows_table E w n :
  let a := self (updater_thread_rounds E (S n) w) in
  let b := self (updater_thread_rounds E (S (S n)) w) in
  state b = state a \/ worker_edge (state a) (state b) = true.
Proof.
  cbv zeta. rewrite (updater_thread_rounds_S E (S n)).
  rewrite (updater_thread_rounds_S E n).
  set (w0 := updater_thread_rounds E n w).
  pose proof (updater_thread_next E w0) as H0. cbv zeta in H0.
  rewrite (updater_thread_state E (updater_thread E w0)).
  destruct H0 as [->|H0]; [left; reflexivity|right; exact H0].
Qed.

(** X3: a machine that rests in a state the worker does not poll, with no
    other state asked for, is left as it is by any number of rounds: only
    a command can wake it. *)
Theorem settled_machine_is_inert E w :
  state (self w) = next_state (self w) ->
  polled (state (self w)) = false ->
  forall n, updater_thread_rounds E n w = w.
Proof.
  intros Hs Hp n. induction n as [|n IH]; [reflexivity|].
  cbn [updater_thread_rounds].
  assert (updater_thread E w = w) as ->; [|exact IH].
  rewrite updater_thread_poll, change_state_same by exact Hs.
  unfold poll. cbv zeta. destruct (state (self w)); try reflexivity;
    discriminate Hp.
Qed.

(** ** The DNS stage *)

Lemma load_txt_records_from_dns_good E urls w :
  let u' := self (load_txt_records_from_dns E urls w) in
  dns_query_done u' = true
  /\ (dnsValid u' = TriTrue \/ dnsValid u' = TriFalse)
  /\ (dnsValid u' = TriTrue <-> good_dns_records u' <> [])
  /\ (dnsValid u' = TriTrue ->
      exists i,
        i < length urls
        /\ good_dns_records u' = records (get_txt_record E (nth i urls ""))
        /\ avail (get_txt_record E (nth i urls "")) = true
        /\ valid (get_txt_record E (nth i urls "")) = true).
Proof.
  cbv zeta. unfold load_txt_records_from_dns. cbv zeta.
  set (w1 := assign (with_dns_query_results _) _).
  pose proof (log_skipped_frame urls (map (get_txt_record E) urls)
                (random_engine E mod length urls) w1) as Hlog.
  set (w2 := log_skipped _ _ _ w1) in *.
  kept Hlog F_good_dns_records. cbn in Hkept.
  destruct (_ <? 2)%nat.
  { split_all; [reflexivity|right; reflexivity| |discriminate].
    split; [discriminate|]. intros H. exfalso. apply H. exact Hkept. }
  destruct (find_good_records_index (map (get_txt_record E) urls))
    as [i|] eqn:Hfind.
  2:{ split_all; [reflexivity|right; reflexivity| |discriminate].
      split; [discriminate|]. intros H. exfalso. apply H. exact Hkept. }
  apply find_good_records_index_Some in Hfind as (Hi & Hvalid & _).
  rewrite length_map in Hi.
  assert (nth i (map (get_txt_record E) urls) no_result
          = get_txt_record E (nth i urls "")) as Hnth.
  { rewrite (nth_indep _ no_result (get_txt_record E "")) by (rewrite length_map; lia).
    apply map_nth. }
  rewrite Hnth in Hvalid.
  unfold is_valid_record_set in Hvalid.
  apply andb_true_iff in Hvalid as [[Ha Hv]%andb_true_iff Hr].
  change (good_dns_records (self _))
    with (records (nth i (map (get_txt_record E) urls) no_result)).
  rewrite Hnth.
  split_all; [reflexivity|left; reflexivity| |].
  - split; [|reflexivity]. intros _ Hnil. rewrite Hnil in Hr. discriminate Hr.
  - intros _. exists i. split_all; [lia|reflexivity|exact Ha|exact Hv].
Qed.

(** X4: the round in which the worker enters QueryDNS finishes the query;
    the verdict is true exactly when good records were kept, which are
    then the records of one queried domain that is DNSSEC-available and
    DNSSEC-valid, and the worker asks for CheckVersion; otherwise the
    verdict is false, no record is kept and it asks for DNSFailed. *)
Theorem dns_verdict_matches_good_records E w :
  state (self w) <> StateQueryDNS ->
  next_state (self w) = StateQueryDNS ->
  let u' := self (updater_thread E w) in
  state u' = StateQueryDNS
  /\ dns_query_done u' = true
  /\ (dnsValid u' = TriTrue <-> good_dns_records u' <> [])
  /\ (dnsValid u' = TriTrue -> next_state u' = StateCheckVersion)
  /\ (dnsValid u' <> TriTrue ->
      dnsValid u' = TriFalse /\ next_state u' = StateDNSFailed)
  /\ (dnsValid u' = TriTrue ->
      exists i,
        i < length dns_urls
        /\ good_dns_records u'
           = records (get_txt_record E (nth i dns_urls ""))
        /\ avail (get_txt_record E (nth i dns_urls "")) = true
        /\ valid (get_txt_record E (nth i dns_urls "")) = true).
Proof.
  intros Hs Hn. cbv zeta. rewrite updater_thread_poll.
  rewrite change_state_commits by congruence. rewrite Hn.
  set (w1 := load_txt_records_from_dns E dns_urls (committed w)).
  destruct (load_txt_records_from_dns_good E dns_urls (committed w))
    as (Hdone & Hverdict & Hgood & Hfrom).
  fold w1 in Hdone, Hverdict, Hgood, Hfrom.
  pose proof (load_txt_records_from_dns_frame E dns_urls (committed w)) as Hf.
  fold w1 in Hf. kept Hf F_state. cbn in Hkept. rewrite Hn in Hkept.
  pose proof (poll_frame w1) as Hp.
  assert (next_state (self (poll w1))
          = if Nat.eqb (length (good_dns_records (self w1))) 0
            then StateDNSFailed else StateCheckVersion) as Hnext.
  { unfold poll. cbv zeta. rewrite Hkept, Hdone. cbn [negb].
    destruct (Nat.eqb _ 0); reflexivity. }
  kept Hp F_state. kept Hp F_dns_query_done. kept Hp F_dnsValid.
  kept Hp F_good_dns_records.
  rewrite Hkept0, Hkept1, Hkept2, Hkept3, Hnext.
  split_all; try assumption.
  - intros Ht. apply Hgood in Ht.
    destruct (good_dns_records (self w1)); [contradiction|reflexivity].
  - intros Hnt. destruct Hverdict as [Ht|Hfalse]; [contradiction|].
    split; [exact Hfalse|].
    destruct (good_dns_records (self w1)) eqn:Hg; [reflexivity|].
    exfalso. apply Hnt, Hgood. discriminate.
Qed.

(** ** The hash check and the quorum verdicts along a run *)

Lemma hash_matches_same E u u' :
  download_path u' = download_path u -> expected_hash u' = expected_hash u ->
  hash_matches E u -> hash_matches E u'.
Proof. unfold hash_matches. intros -> ->. exact id. Qed.

Lemma check_hash_sound E w :
  hashValid (self (check_hash E w)) = TriTrue -> hash_matches E (self w).
Proof.
  pose proof (check_hash_cases E w) as Hc. cbv zeta in Hc.
  pose proof (hash_matches_dec E (self w)) as Hm.
  destruct (sha256sum E (download_path (self w))) as [file_hash|];
    [destruct (String.eqb (file_hash_as_text file_hash) (expected_hash (self w)))|];
    destruct Hc as [Hv _]; rewrite Hv; (discriminate || (intros _; exact Hm)).
Qed.

(** Reading single members off a [changes_only] fact. *)
Lemma changes_only_state l u u' :
  changes_only l u u' -> among F_state l = false -> state u' = state u.
Proof. intros H Hf. specialize (H _ Hf). cbn [observe] in H. congruence. Qed.

Lemma changes_only_next_state l u u' :
  changes_only l u u' -> among F_next_state l = false -> next_state u' = next_state u.
Proof. intros H Hf. specialize (H _ Hf). cbn [observe] in H. congruence. Qed.

Lemma changes_only_dnsValid l u u' :
  changes_only l u u' -> among F_dnsValid l = false -> dnsValid u' = dnsValid u.
Proof. intros H Hf. specialize (H _ Hf). cbn [observe] in H. congruence. Qed.

Lemma changes_only_hashValid l u u' :
  changes_only l u u' -> among F_hashValid l = false -> hashValid u' = hashValid u.
Proof. intros H Hf. specialize (H _ Hf). cbn [observe] in H. congruence. Qed.

Lemma changes_only_validGitianSigs l u u' :
  changes_only l u u' -> among F_validGitianSigs l = false -> validGitianSigs u' = validGitianSigs u.
Proof. intros H Hf. specialize (H _ Hf). cbn [observe] in H. congruence. Qed.

Lemma changes_only_expected_hash l u u' :
  changes_only l u u' -> among F_expected_hash l = false -> expected_hash u' = expected_hash u.
Proof. intros H Hf. specialize (H _ Hf). cbn [observe] in H. congruence. Qed.

Lemma changes_only_download_path l u u' :
  changes_only l u u' -> among F_download_path l = false -> download_path u' = download_path u.
Proof. intros H Hf. specialize (H _ Hf). cbn [observe] in H. congruence. Qed.

Lemma changes_only_gitian_verify_sigs_success l u u' :
  changes_only l u u' -> among F_gitian_verify_sigs_success l = false -> gitian_verify_sigs_success u' = gitian_verify_sigs_success u.
Proof. intros H Hf. specialize (H _ Hf). cbn [observe] in H. congruence. Qed.

Lemma changes_only_bad_gitian_signature_found l u u' :
  changes_only l u u' -> among F_bad_gitian_signature_found l = false -> bad_gitian_signature_found u' = bad_gitian_signature_found u.
Proof. intros H Hf. specialize (H _ Hf). cbn [observe] in H. congruence. Qed.

Lemma changes_only_good_dns_records l u u' :
  changes_only l u u' -> among F_good_dns_records l = false -> good_dns_records u' = good_dns_records u.
Proof. intros H Hf. specialize (H _ Hf). cbn [observe] in H. congruence. Qed.

(** Rewrites with every member a [changes_only] fact says is kept. *)
Ltac use_kept H :=
  try rewrite (changes_only_state _ _ _ H eq_refl) in *;
  try rewrite (changes_only_next_state _ _ _ H eq_refl) in *;
  try rewrite (changes_only_dnsValid _ _ _ H eq_refl) in *;
  try rewrite (changes_only_hashValid _ _ _ H eq_refl) in *;
  try rewrite (changes_only_validGitianSigs _ _ _ H eq_refl) in *;
  try rewrite (changes_only_expected_hash _ _ _ H eq_refl) in *;
  try rewrite (changes_only_download_path _ _ _ H eq_refl) in *;
  try rewrite (changes_only_gitian_verify_sigs_success _ _ _ H eq_refl) in *;
  try rewrite (changes_only_bad_gitian_signature_found _ _ _ H eq_refl) in *;
  try rewrite (changes_only_good_dns_records _ _ _ H eq_refl) in *.

Ltac trusted_finish :=
  split_all; intros; cbn in *; try discriminate; try congruence;
  try solve [intuition (try discriminate; try congruence)];
  rewrite ?orb_true_iff in *;
  try solve [intuition (try discriminate; try congruence)].

Lemma select_split s w : select s w = select_request s (select_software s w).
Proof.
  unfold select, select_request, select_software.
  destruct (String.eqb s "gui"); [reflexivity|].
  destruct (String.eqb s "cli"); reflexivity.
Qed.

Lemma select_software_frame s w :
  changes_only [F_software] (self w) (self (select_software s w)).
Proof. unfold select_software. destruct_conds; frame_tac. Qed.

Lemma select_request_frame s w :
  changes_only [F_next_state] (self w) (self (select_request s w)).
Proof. unfold select_request. destruct_conds; frame_tac. Qed.

(** *** The hash check, in every run *)

Lemma hash_checked_poll E w :
  hash_checked E (self w) -> hash_checked E (self (poll w)).
Proof.
  intros (TG & TH & TI).
  pose proof (poll_frame w) as Hf.
  unfold hash_checked, hash_matches in *. use_kept Hf. clear Hf.
  unfold poll. cbv zeta.
  destruct (state (self w)) eqn:Hs;
    repeat match goal with
      | |- context [if ?c then _ else _] => destruct c eqn:?
      | |- context [match hashValid ?u with _ => _ end] =>
          destruct (hashValid u) eqn:?
      end;
    cbn [self set_state assign next_state with_next_state];
    trusted_finish.
Qed.

Lemma hash_checked_change_state E w :
  hash_checked E (self w) -> hash_checked E (self (change_state E w)).
Proof.
  intros T.
  destruct (decide (state (self w) = next_state (self w))) as [Heq|Hne];
    [rewrite change_state_same by exact Heq; exact T|].
  destruct T as (TG & TH & TI).
  pose proof (change_state_frame E w Hne) as Hf.
  pose proof (change_state_state E w) as Hst.
  pose proof (change_state_commits E w Hne) as Hcs.
  unfold hash_checked, hash_matches in *.
  destruct (next_state (self w)) eqn:Hn.
  all: try (pose proof (fetch_gitian_sigs_outcome E (committed w))
             as (_ & _ & _ & Hnext & _); cbv zeta in Hnext;
            rewrite <- Hcs in Hnext).
  all: try (pose proof (check_hash_sound E (committed w)) as Hsound;
            rewrite <- Hcs in Hsound; unfold hash_matches in Hsound;
            cbn [committed self assign emit download_path expected_hash
                 with_state] in Hsound).
  all: clear Hcs; use_kept Hf; rewrite ?Hst; clear Hf Hst.
  all: rewrite ?Hn in *.
  all: trusted_finish.
  all: destruct Hnext as [Hx|Hx]; rewrite Hx in *; discriminate.
Qed.

(** An action that leaves [state], [hashValid], [download_path] and
    [expected_hash] alone and asks for nothing, or for a state other than
    ValidUpdate, keeps the invariant. *)
Lemma hash_checked_kept E l u u' :
  changes_only l u u' ->
  among F_state l = false -> among F_hashValid l = false ->
  among F_download_path l = false -> among F_expected_hash l = false ->
  next_state u' = next_state u \/ next_state u' <> StateValidUpdate ->
  hash_checked E u -> hash_checked E u'.
Proof.
  intros Hf H1 H2 H3 H4 Hnext (TG & TH & TI).
  unfold hash_checked, hash_matches in *.
  rewrite (changes_only_state _ _ _ Hf H1),
    (changes_only_hashValid _ _ _ Hf H2),
    (changes_only_download_path _ _ _ Hf H3),
    (changes_only_expected_hash _ _ _ Hf H4).
  split_all; try assumption.
  intros Hv. destruct Hnext as [Hx|Hx]; [|contradiction].
  apply TH. congruence.
Qed.

Lemma hash_checked_act E w w' :
  act E w w' -> hash_checked E (self w) -> hash_checked E (self w').
Proof.
  intros Hact T. destruct Hact as [w|s w|s w|success w|a b w].
  - rewrite updater_thread_poll.
    apply hash_checked_poll, hash_checked_change_state, T.
  - pose proof (select_software_frame s w) as Hf.
    apply (hash_checked_kept E _ _ _ Hf); try reflexivity; [|exact T].
    left. exact (changes_only_next_state _ _ _ Hf eq_refl).
  - pose proof (select_request_frame s w) as Hf.
    apply (hash_checked_kept E _ _ _ Hf); try reflexivity; [|exact T].
    unfold select_request.
    destruct (String.eqb s "gui" || String.eqb s "cli");
      [right; discriminate|left; reflexivity].
  - pose proof (on_result_frame success w) as Hf.
    apply (hash_checked_kept E _ _ _ Hf); try reflexivity; [|exact T].
    left. exact (changes_only_next_state _ _ _ Hf eq_refl).
  - exact T.
Qed.

Lemma interleaved_hash_checked E detect_build_tag armed w :
  interleaved E detect_build_tag armed w -> hash_checked E (self w).
Proof.
  induction 1 as [|armed w w' _ IH Hact|armed w _ IH _|w _ IH].
  - unfold hash_checked. trusted_finish.
  - exact (hash_checked_act E w w' Hact IH).
  - exact IH.
  - assert (changes_only [F_next_state] (self w)
              (self (set_state StateDownload w))) as Hf by frame_tac.
    apply (hash_checked_kept E _ _ _ Hf); try reflexivity; [|exact IH].
    right. discriminate.
Qed.

(** *** The quorum verdicts, until a retry is armed *)

Lemma quorum_flags_poll w : quorum_flags (self w) -> quorum_flags (self (poll w)).
Proof.
  intros (TA & TC & TD & TE & TF).
  pose proof (poll_frame w) as Hf.
  unfold quorum_flags. use_kept Hf. clear Hf.
  unfold poll. cbv zeta.
  destruct (state (self w)) eqn:Hs;
    repeat match goal with
      | |- context [if ?c then _ else _] => destruct c eqn:?
      | |- context [match hashValid ?u with _ => _ end] =>
          destruct (hashValid u) eqn:?
      end;
    cbn [self set_state assign next_state with_next_state];
    try (destruct (good_dns_records (self w)) eqn:?);
    trusted_finish.
Qed.

Lemma quorum_flags_change_state E w :
  quorum_flags (self w) -> quorum_flags (self (change_state E w)).
Proof.
  intros T.
  destruct (decide (state (self w) = next_state (self w))) as [Heq|Hne];
    [rewrite change_state_same by exact Heq; exact T|].
  destruct T as (TA & TC & TD & TE & TF).
  pose proof (change_state_frame E w Hne) as Hf.
  pose proof (change_state_state E w) as Hst.
  pose proof (change_state_commits E w Hne) as Hcs.
  unfold quorum_flags in *.
  destruct (next_state (self w)) eqn:Hn.
  all: try (pose proof (load_txt_records_from_dns_good E dns_urls (committed w))
             as (_ & _ & Hgood & _); rewrite <- Hcs in Hgood).
  all: try (pose proof (fetch_gitian_sigs_outcome E (committed w))
             as (_ & _ & Hsucc & Hnext & _); cbv zeta in Hsucc, Hnext;
            rewrite <- Hcs in Hsucc, Hnext).
  all: clear Hcs; use_kept Hf; rewrite ?Hst; clear Hf Hst.
  all: rewrite ?Hn in *; cbn [after_dns after_quorum] in *;
    rewrite ?orb_true_r, ?orb_false_r in *.
  all: trusted_finish.
  all: destruct Hnext as [Hx|Hx]; rewrite Hx in *; discriminate.
Qed.

Lemma quorum_flags_act E w w' :
  act E w w' -> quorum_flags (self w) -> quorum_flags (self w').
Proof.
  intros Hact T. destruct Hact as [w|s w|s w|success w|a b w].
  - rewrite updater_thread_poll.
    apply quorum_flags_poll, quorum_flags_change_state, T.
  - destruct T as (TA & TC & TD & TE & TF).
    pose proof (select_software_frame s w) as Hf.
    unfold quorum_flags in *. use_kept Hf. trusted_finish.
  - destruct T as (TA & TC & TD & TE & TF).
    pose proof (select_request_frame s w) as Hf.
    unfold quorum_flags in *. use_kept Hf. clear Hf.
    unfold select_request.
    destruct (String.eqb s "gui" || String.eqb s "cli");
      cbn [self set_state assign next_state with_next_state];
      cbn [after_dns after_quorum]; rewrite ?orb_false_r;
      trusted_finish.
  - destruct T as (TA & TC & TD & TE & TF).
    pose proof (on_result_frame success w) as Hf.
    unfold quorum_flags in *. use_kept Hf. trusted_finish.
  - exact T.
Qed.

Lemma interleaved_quorum_flags E detect_build_tag armed w :
  interleaved E detect_build_tag armed w -> armed = false ->
  quorum_flags (self w).
Proof.
  induction 1 as [|armed w w' _ IH Hact|armed w _ IH _|w _ IH]; intros Ha;
    try discriminate Ha.
  - unfold quorum_flags. trusted_finish.
  - exact (quorum_flags_act E w w' Hact (IH Ha)).
Qed.

(** Every run of whole commands is a run of their halves. *)
Lemma reachable_interleaved E detect_build_tag w :
  reachable E detect_build_tag w ->
  exists armed, interleaved E detect_build_tag armed w.
Proof.
  induction 1 as [|w w' _ [armed IH] Hstep]; [exists false; constructor|].
  destruct Hstep as [w|s w|w|success w|a b w].
  - exists armed. exact (interleaved_act _ _ _ _ _ IH (act_round E w)).
  - exists armed. rewrite select_split.
    eapply interleaved_act; [|apply act_select_request].
    exact (interleaved_act _ _ _ _ _ IH (act_select_software E s w)).
  - unfold retryDownload.
    destruct (decide (state (self w) = StateDownloadFailed)) as [Hs|Hs].
    + exists true. apply interleaved_retry_write.
      exact (interleaved_retry_test _ _ _ _ IH Hs).
    + exists armed. exact IH.
  - exists armed. exact (interleaved_act _ _ _ _ _ IH (act_on_result E success w)).
  - exists armed. exact (interleaved_act _ _ _ _ _ IH (act_on_progress E a b w)).
Qed.

(** X5: in every run, with the two halves of select and of retryDownload
    as separate actions and rounds of the worker and callbacks anywhere in
    between, an object in ValidUpdate has [hashValid] true and a file at
    [download_path] whose digest, in lowercase hexadecimal, is
    [expected_hash]. (Nothing more is said: the verdicts of the two
    quorums can be those of an earlier selection.) *)
Theorem valid_update_has_expected_hash E detect_build_tag armed w :
  interleaved E detect_build_tag armed w ->
  state (self w) = StateValidUpdate ->
  hash_matches E (self w) /\ hashValid (self w) = TriTrue.
Proof.
  intros Hr Hs.
  destruct (interleaved_hash_checked E detect_build_tag armed w Hr)
    as (_ & _ & TI).
  exact (TI Hs).
Qed.

(** X6: as long as no call of retryDownload has found the machine in
    DownloadFailed, the machine is in Download, DownloadFailed, CheckHash,
    BadHash or ValidUpdate only with gitian_verify_sigs_success set, at
    least MIN_GITIAN_SIGS signatures counted, no bad signature found, a
    DNS verdict of true and good records kept: the first download of a
    run is started only after both quorums have passed. The hypothesis is
    needed: a retryDownload that finds DownloadFailed can write
    [next_state] after a later selection has cleared the verdicts. *)
Theorem first_download_needs_quorum E detect_build_tag w :
  interleaved E detect_build_tag false w ->
  after_quorum (state (self w)) = true ->
  gitian_verify_sigs_success (self w) = true
  /\ (MIN_GITIAN_SIGS <= validGitianSigs (self w))%Z
  /\ bad_gitian_signature_found (self w) = false
  /\ dnsValid (self w) = TriTrue
  /\ good_dns_records (self w) <> [].
Proof.
  intros Hr Hs.
  destruct (interleaved_quorum_flags E detect_build_tag false w Hr eq_refl)
    as (_ & TC & TD & TE & TF).
  rewrite Hs in *. cbn [orb] in *.
  assert (after_dns (state (self w)) = true) as Hd
    by (destruct (state (self w)); (reflexivity || discriminate Hs)).
  rewrite Hd in TD. cbn [orb] in TD.
  specialize (TD eq_refl). specialize (TF eq_refl).
  destruct (TE TF) as [Hv Hb].
  split_all; auto.
Qed.

(** ** Runs that meet the hypotheses *)



Lemma interleaved_rounds E detect_build_tag armed n w :
  interleaved E detect_build_tag armed w ->
  interleaved E detect_build_tag armed (updater_thread_rounds E n w).
Proof.
  revert w. induction n as [|n IH]; intros w Hr; [exact Hr|].
  cbn [updater_thread_rounds]. apply IH.
  exact (interleaved_act E detect_build_tag _ _ _ Hr (act_round E w)).
Qed.

Lemma interleaved_verified_update :
  interleaved all_good "linux-x64" false verified_update.
Proof.
  unfold verified_update. rewrite select_split.
  apply interleaved_rounds.
  refine (interleaved_act _ _ _ _ _ _ (act_on_result _ true _)).
  apply interleaved_rounds.
  refine (interleaved_act _ _ _ _ _ _ (act_select_request _ "cli" _)).
  refine (interleaved_act _ _ _ _ _ _ (act_select_software _ "cli" _)).
  refine (interleaved_act _ _ _ _ _ _ (act_round _ _)).
  apply interleaved_new.
Qed.

(** Without the hypothesis on retryDownload the verdicts of the quorums
    say nothing of the update at hand: in this run the machine is in
    ValidUpdate for the GUI, whose signature quorum failed. *)
Lemma late_retry_skips_quorum :
  interleaved gui_unsigned "linux-x64" true unsigned_update
  /\ state (self unsigned_update) = StateValidUpdate
  /\ software (self unsigned_update) = "monero-gui"
  /\ gitian_verify_sigs_success (self unsigned_update) = false
  /\ validGitianSigs (self unsigned_update) = 0%Z.
Proof.
  split; [|vm_compute; split_all; reflexivity].
  unfold unsigned_update.
  apply interleaved_rounds.
  refine (interleaved_act _ _ _ _ _ _ (act_on_result _ true _)).
  refine (interleaved_act _ _ _ _ _ _ (act_round _ _)).
  apply interleaved_retry_write.
  apply interleaved_rounds.
  apply (interleaved_retry_test gui_unsigned "linux-x64" false);
    [|vm_compute; reflexivity].
  unfold gui_selected.
  refine (interleaved_act _ _ _ _ _ _ (act_select_request _ "gui" _)).
  refine (interleaved_act _ _ _ _ _ _ (act_select_software _ "gui" _)).
  apply interleaved_rounds.
  refine (interleaved_act _ _ _ _ _ _ (act_on_result _ false _)).
  apply interleaved_rounds.
  refine (interleaved_act _ _ _ _ _ _ (act_select_request _ "cli" _)).
  refine (interleaved_act _ _ _ _ _ _ (act_select_software _ "cli" _)).
  refine (interleaved_act _ _ _ _ _ _ (act_round _ _)).
  apply interleaved_new.
Qed.

Lemma valid_update_has_expected_hash_witness :
  hash_matches all_good (self verified_update)
  /\ hashValid (self verified_update) = TriTrue.
Proof.
  assert (state (self verified_update) = StateValidUpdate) as Hs
    by (vm_compute; reflexivity).
  exact (valid_update_has_expected_hash all_good "linux-x64" false
           verified_update interleaved_verified_update Hs).
Defined.

Lemma first_download_needs_quorum_witness :
  gitian_verify_sigs_success (self verified_update) = true.
Proof.
  assert (after_quorum (state (self verified_update)) = true) as Hs
    by (vm_compute; reflexivity).
  exact (proj1 (first_download_needs_quorum all_good "linux-x64"
                  verified_update interleaved_verified_update Hs)).
Defined.

(** ** The scan of the listing page *)


Lemma scan_users_valid s link_prefix fuel : forall idx users,
  Forall (fun user => valid_user user = true) users ->
  Forall (fun user => valid_user user = true)
         (scan_users fuel s link_prefix idx users).
Proof.
  induction fuel as [|fuel IH]; intros idx users Hu; [exact Hu|].
  cbn [scan_users].
  destruct (String.index idx link_prefix s) as [i|]; [|exact Hu].
  cbv zeta.
  destruct (String.index _ dquote s) as [idx2|]; [|exact Hu].
  destruct (_ <=? _)%nat; [exact Hu|].
  match goal with
  | |- context [if (20 <? String.length ?u)%nat || _ then _ else _] =>
      set (user := u)
  end.
  destruct (20 <? String.length user)%nat eqn:Hlen; cbn [orb];
    [apply IH, Hu|].
  destruct (forallb (is_any_of user_chars) (list_ascii_of_string user))
    eqn:Hchars; cbn [negb]; [|apply IH, Hu].
  apply IH. apply Forall_app. split; [exact Hu|].
  constructor; [|constructor].
  unfold valid_user. rewrite Hchars, andb_true_r.
  apply Nat.leb_le. apply Nat.ltb_ge in Hlen. exact Hlen.
Qed.

(** X7: every user name taken from the listing page is at most 20
    characters long and made of the characters of [user_chars] only; in
    particular it holds no slash and no dot. *)
Theorem listed_users_are_sanitised E u :
  Forall
    (fun user =>
       String.length user <= 20
       /\ forall c, In c (list_ascii_of_string user) ->
            is_any_of user_chars c = true
            /\ c <> "/"%char /\ c <> "."%char)
    (listed_users E u).
Proof.
  unfold listed_users.
  destruct (download E (base_tree_url u)) as [s|]; [|constructor].
  eapply List.Forall_impl; [|apply scan_users_valid; constructor].
  intros user Hv. unfold valid_user in Hv.
  apply andb_true_iff in Hv as [Hlen Hchars].
  split; [apply Nat.leb_le, Hlen|].
  intros c Hc. rewrite forallb_forall in Hchars. specialize (Hchars c Hc).
  split; [exact Hchars|].
  split; intros ->; vm_compute in Hchars; discriminate Hchars.
Qed.




(** ** The text of a digest *)

Lemma hex_value_of_byte (x : Byte.byte) :
  let b := Z.of_N (Byte.to_N x) in
  (hex_value (digit_at (Z.shiftr b 4)) * 16
   + hex_value (digit_at (Z.land b 15)))%Z = b.
Proof. destruct x; reflexivity. Qed.

Lemma flat_map_pairs_inj {A} (hi lo hi' lo' : nat -> A) (l : list nat) :
  flat_map (fun i => [hi i; lo i]) l = flat_map (fun i => [hi' i; lo' i]) l ->
  forall i, In i l -> hi i = hi' i /\ lo i = lo' i.
Proof.
  induction l as [|j l IH]; intros H i Hi; [destruct Hi|].
  cbn in H. injection H as H1 H2 H3.
  destruct Hi as [<-|Hi]; [split; assumption|exact (IH H3 i Hi)].
Qed.

(** X9: two digests with the same text agree on each of their 32 bytes, so
    comparing the texts compares the digests. *)
Theorem file_hash_as_text_injective (a b : list Byte.byte) :
  file_hash_as_text a = file_hash_as_text b ->
  forall i, i < 32 -> nth i a Byte.x00 = nth i b Byte.x00.
Proof.
  unfold file_hash_as_text. intros H i Hi.
  apply (f_equal list_ascii_of_string) in H.
  rewrite !list_ascii_of_string_of_list_ascii in H.
  destruct (flat_map_pairs_inj _ _ _ _ _ H i) as [Hhi Hlo];
    [apply in_seq; lia|].
  pose proof (hex_value_of_byte (nth i a Byte.x00)) as Ha.
  pose proof (hex_value_of_byte (nth i b Byte.x00)) as Hb.
  cbv zeta in Ha, Hb. rewrite Hhi, Hlo, Hb in Ha.
  apply N2Z.inj in Ha.
  pose proof (Byte.of_to_N (nth i a Byte.x00)) as Ea.
  pose proof (Byte.of_to_N (nth i b Byte.x00)) as Eb.
  rewrite <- Ha in Ea. congruence.
Qed.

Lemma file_hash_as_text_injective_witness :
  nth 5 (good_file_hash ++ [Byte.x2a]) Byte.x00 = nth 5 good_file_hash Byte.x00.
Proof.
  apply (file_hash_as_text_injective (good_file_hash ++ [Byte.x2a]) good_file_hash);
    [vm_compute; reflexivity|lia].
Defined.

(** ** Version selection *)

Lemma process_records_done software buildtag records : forall found hash w,
  version_check_done
    (self (process_records software buildtag records found hash w)) = true.
Proof.
  induction records as [|record rest IH]; intros found hash w;
    cbn [process_records]; cbv zeta.
  - destruct (negb _); reflexivity.
  - repeat match goal with
      | |- context [if ?c then _ else _] => destruct c
      end; try apply IH; reflexivity.
Qed.

Lemma survivor_record software buildtag record v h :
  survivor software buildtag record = Some (v, h) ->
  split (is_any_of ":") record = [software; buildtag; v; h].
Proof.
  unfold survivor. cbv zeta.
  destruct (split (is_any_of ":") record)
    as [|f0 [|f1 [|f2 [|f3 [|f4 rest]]]]];
    cbn [length Nat.eqb negb nth]; try discriminate.
  destruct (String.eqb_spec software f0) as [->|]; cbn [negb orb];
    [|discriminate].
  destruct (String.eqb_spec buildtag f1) as [->|]; cbn [negb orb];
    [|discriminate].
  destruct (_ && _); [discriminate|].
  intros H. injection H as <- <-. reflexivity.
Qed.

Lemma survivors_records software buildtag records v h :
  In (v, h) (survivors software buildtag records) ->
  exists record,
    In record records
    /\ split (is_any_of ":") record = [software; buildtag; v; h].
Proof.
  induction records as [|record rest IH]; cbn [survivors]; [intros []|].
  destruct (survivor software buildtag record) as [[v0 h0]|] eqn:Hs.
  - intros [Heq|Hin].
    + injection Heq as -> ->. exists record.
      split; [left; reflexivity|exact (survivor_record _ _ _ _ _ Hs)].
    + destruct (IH Hin) as (r & Hr & Hf). exists r.
      split; [right; exact Hr|exact Hf].
  - intros Hin. destruct (IH Hin) as (r & Hr & Hf). exists r.
    split; [right; exact Hr|exact Hf].
Qed.

(** X10: version selection always finishes, and what it publishes is the
    version and hash of one and the same record: a record of the list
    whose four fields are the software, the build tag, that version and
    that hash; when it publishes no version the expected hash is left as
    it was. *)
Theorem process_version_publishes_one_record software buildtag records w :
  let u' := self (process_version software buildtag records w) in
  version_check_done u' = true
  /\ ((version u' = "" /\ expected_hash u' = expected_hash (self w))
      \/ (version u' <> ""
          /\ In (version u', expected_hash u')
                (survivors software buildtag records)
          /\ exists record,
               In record records
               /\ split (is_any_of ":") record
                  = [software; buildtag; version u'; expected_hash u'])).
Proof.
  cbv zeta. split; [apply process_records_done|].
  pose proof (process_version_pick software buildtag records w) as Hp.
  pose proof (pick_sound (survivors software buildtag records)) as Hs.
  cbv zeta in Hp.
  destruct (pick (survivors software buildtag records) false "" "")
    as [[v h]|]; [|left; exact Hp].
  destruct Hp as [Hv He]. rewrite Hv, He.
  destruct (String.eqb_spec v "") as [->|Hne]; [left; split; reflexivity|].
  right. split; [exact Hne|].
  assert (In (v, h) (survivors software buildtag records)) as Hin
    by (destruct (survivors software buildtag records);
        [destruct Hs as [-> _]; congruence|apply Hs]).
  split; [exact Hin|exact (survivors_records _ _ _ _ _ Hin)].
Qed.

(** ** Import of the public keys *)

Lemma import_keys_outcome E keys : forall w,
  let u' := self (import_keys E keys w) in
  gitian_pubkeys_import_done u' = true
  /\ (gitian_pubkeys_import_success u' = true <->
      forallb (fun e => import_ok (gpgme_import E (snd e))) keys = true)
  /\ (gitian_pubkeys_import_success u' = true ->
      forall e, In e keys ->
        exists fingerprint,
          import_fpr (gpgme_import E (snd e)) = Some fingerprint
          /\ is_Some (imported_fingerprints u' !! fingerprint))
  /\ (forall fingerprint owner,
        imported_fingerprints u' !! fingerprint = Some owner ->
        imported_fingerprints (self w) !! fingerprint = Some owner
        \/ exists key, In (owner, key) keys
                       /\ import_fpr (gpgme_import E key) = Some fingerprint)
  /\ (forall fingerprint,
        is_Some (imported_fingerprints (self w) !! fingerprint) ->
        is_Some (imported_fingerprints u' !! fingerprint)).
Proof.
  induction keys as [|[owner key] rest IH]; intros w; cbv zeta.
  - cbn. split_all; try tauto; try (intros _ e []).
  - cbn [import_keys forallb snd fst]. unfold import_ok at 1.
    destruct (pubkey_data_err (gpgme_import E key) =? 0)%Z; cbn [negb andb].
    2:{ split_all; try (cbn; tauto); try discriminate;
        split; discriminate. }
    destruct (op_import_err (gpgme_import E key) =? 0)%Z; cbn [negb andb].
    2:{ split_all; try (cbn; tauto); try discriminate;
        split; discriminate. }
    destruct (import_fpr (gpgme_import E key)) as [fingerprint|] eqn:Hfpr;
      cbn [negb andb].
    2:{ split_all; try (cbn; tauto); try discriminate;
        split; discriminate. }
    destruct (get_key_err (gpgme_import E key) =? 0)%Z; cbn [negb andb].
    2:{ split_all; try (cbn; tauto); try discriminate;
        split; discriminate. }
    destruct (tofu_policy_err (gpgme_import E key) =? 0)%Z; cbn [negb andb].
    2:{ split_all; try (cbn; tauto); try discriminate;
        split; discriminate. }
    cbv zeta.
    match goal with |- context [import_keys E rest ?w1] => set (w' := w1) end.
    destruct (IH w') as (Hdone & Hsucc & Hall & Hfrom & Hkeep).
    assert (imported_fingerprints (self w')
            = <[fingerprint := owner]> (imported_fingerprints (self w)))
      as Hins by reflexivity.
    split_all.
    + exact Hdone.
    + exact Hsucc.
    + intros Hok e [<-|Hin]; [|exact (Hall Hok e Hin)].
      exists fingerprint. split; [exact Hfpr|].
      apply Hkeep. rewrite Hins, lookup_insert_eq. eauto.
    + intros g o Hg. destruct (Hfrom g o Hg) as [Hold|(k & Hin & Hk)].
      * rewrite Hins in Hold.
        apply lookup_insert_Some in Hold as [[<- <-]|[_ Hold]].
        -- right. exists key. split; [left; reflexivity|exact Hfpr].
        -- left. exact Hold.
      * right. exists k. split; [right; exact Hin|exact Hk].
    + intros g Hg. apply Hkeep. rewrite Hins.
      destruct (decide (fingerprint = g)) as [->|Hne];
        [rewrite lookup_insert_eq; eauto
        |rewrite lookup_insert_ne by exact Hne; exact Hg].
Qed.

(** X11: the import of the public keys always finishes; it succeeds exactly
    when the engine starts and every key of the table passes every step of
    its import; after a success every key of the table has its fingerprint
    on the allow-list; and a fingerprint is on the allow-list only if it
    was there before or the engine gave it for a key of the table, under
    the owner of that key. *)
Theorem import_pubkeys_outcome E w :
  let u' := self (import_pubkeys E w) in
  gitian_pubkeys_import_done u' = true
  /\ (gitian_pubkeys_import_success u' = true <->
      init_gpgme E = true
      /\ forallb (fun e => import_ok (gpgme_import E (snd e))) (pubkeys E)
         = true)
  /\ (gitian_pubkeys_import_success u' = true ->
      forall e, In e (pubkeys E) ->
        exists fingerprint,
          import_fpr (gpgme_import E (snd e)) = Some fingerprint
          /\ is_Some (imported_fingerprints u' !! fingerprint))
  /\ (forall fingerprint owner,
        imported_fingerprints u' !! fingerprint = Some owner ->
        imported_fingerprints (self w) !! fingerprint = Some owner
        \/ exists key, In (owner, key) (pubkeys E)
                       /\ import_fpr (gpgme_import E key) = Some fingerprint).
Proof.
  cbv zeta. unfold import_pubkeys. cbv zeta.
  destruct (init_gpgme E); cbn [negb].
  - match goal with |- context [import_keys E _ ?w1] => set (w' := w1) end.
    destruct (import_keys_outcome E (pubkeys E) w')
      as (Hdone & Hsucc & Hall & Hfrom & _).
    split_all; [exact Hdone| |exact Hall|exact Hfrom].
    rewrite Hsucc. tauto.
  - split_all; [reflexivity| |discriminate|cbn; tauto].
    split; [discriminate|intros [H _]; discriminate H].
Qed.

(** ** The signature quorum and the allow-list *)

Lemma assert_url_inputs b p u u' user :
  software u = software u' -> version u = version u' ->
  assert_url b p u user = assert_url b p u' user.
Proof. unfold assert_url. intros -> ->. reflexivity. Qed.

Lemma verify_user_counts E b p f x user (fp : gmap string string) w :
  validGitianSigs (self (snd (verify_user E b p f x user (fp, w))))
  <> validGitianSigs (self w) ->
  exists a g,
    download E (assert_url b p (self w) user) = Some a
    /\ user_verdict E b p (self w) user = Some (TriTrue, g)
    /\ fp !! g = None
    /\ is_Some (imported_fingerprints (self w) !! g)
    /\ find_hash E x a = Some (expected_hash (self w)).
Proof.
  unfold verify_user, user_verdict.
  destruct (download E (assert_url b p (self w) user)) as [assert_contents|];
    [|intros H; exfalso; apply H; reflexivity].
  destruct (download E (sig_url b p (self w) user)) as [sig_contents|];
    [|intros H; exfalso; apply H; reflexivity].
  destruct (verify_gitian_signature E assert_contents sig_contents "")
    as [res fingerprint].
  destruct res; cbn [TriState.eqb andb].
  - intros H; exfalso; apply H; reflexivity.
  - destruct (fp !! fingerprint) as [seen|] eqn:Hseen;
      destruct (imported_fingerprints (self w) !! fingerprint) as [owner|] eqn:Himp;
      repeat (rewrite bool_decide_eq_true_2 by congruence
              || rewrite bool_decide_eq_false_2 by congruence);
      cbn [andb negb];
      try (intros H; exfalso; apply H; reflexivity).
    destruct (find_hash E x assert_contents) as [hash|] eqn:Hfh;
      [destruct (String.eqb_spec hash (expected_hash (self w))) as [->|Hne];
       cbn [negb]|];
      try (intros H; exfalso; apply H; reflexivity).
    intros _. exists assert_contents, fingerprint.
    split_all; [reflexivity|reflexivity|exact Hseen|eauto|exact Hfh].
  - destruct (bool_decide (fp !! fingerprint = None)); cbn [negb];
      intros H; exfalso; apply H; reflexivity.
Qed.

Lemma counted_fingerprints_allowed E b p f x users :
  forall (fp : gmap string string) w g,
  In g (counted_fingerprints E b p f x users (fp, w)) ->
  exists user a,
    In user users
    /\ download E (assert_url b p (self w) user) = Some a
    /\ user_verdict E b p (self w) user = Some (TriTrue, g)
    /\ is_Some (imported_fingerprints (self w) !! g)
    /\ find_hash E x a = Some (expected_hash (self w)).
Proof.
  induction users as [|user users IH]; intros fp w g Hg; [destruct Hg|].
  cbn [counted_fingerprints] in Hg. cbv zeta in Hg.
  pose proof (verify_user_round E b p f x user fp w) as Hr. cbv zeta in Hr.
  pose proof (verify_user_counts E b p f x user fp w) as Hc.
  destruct (verify_user E b p f x user (fp, w)) as [fp1 w1].
  cbn [fst snd] in *.
  destruct Hr as ((Hsw & Hver & _ & Hexp & Himp & _) & _).
  assert (In g (counted_fingerprints E b p f x users (fp1, w1)) ->
          exists user0 a,
            In user0 (user :: users)
            /\ download E (assert_url b p (self w) user0) = Some a
            /\ user_verdict E b p (self w) user0 = Some (TriTrue, g)
            /\ is_Some (imported_fingerprints (self w) !! g)
            /\ find_hash E x a = Some (expected_hash (self w))) as Hlater.
  { intros Hin. destruct (IH fp1 w1 g Hin) as (u0 & a & H1 & H2 & H3 & H4 & H5).
    exists u0, a. split; [right; exact H1|].
    rewrite (assert_url_inputs b p (self w) (self w1)) by congruence.
    rewrite (user_verdict_inputs E b p (self w) (self w1)) by congruence.
    rewrite <- Himp, <- Hexp. split_all; assumption. }
  destruct (Z.eqb_spec (validGitianSigs (self w1)) (validGitianSigs (self w)))
    as [_|Hne]; [exact (Hlater Hg)|].
  destruct (Hc Hne) as (a & g' & Hd & Hv & _ & Hi & Hh).
  rewrite Hv in Hg. destruct Hg as [<-|Hg]; [|exact (Hlater Hg)].
  exists user, a. split; [left; reflexivity|]. split_all; assumption.
Qed.

Lemma NoDup_keys_size (m : gmap string string) (l : list string) :
  List.NoDup l -> (forall g, In g l -> is_Some (m !! g)) ->
  length l <= size m.
Proof.
  intros Hnd Hin. apply NoDup_ListNoDup in Hnd.
  rewrite <- size_dom.
  apply (submseteq_length l (elements (dom m))).
  apply NoDup_submseteq; [exact Hnd|].
  intros g Hg. apply elem_of_elements, elem_of_dom, Hin, list_elem_of_In, Hg.
Qed.

Lemma verify_users_processed E b p f x users :
  forall (fp : gmap string string) w,
  u32 (processedGitianSigs (self (snd (verify_users E b p f x users (fp, w)))))
  = u32 (processedGitianSigs (self w) + Z.of_nat (length users)).
Proof.
  induction users as [|user users IH]; intros fp w.
  - cbn. rewrite Z.add_0_r. reflexivity.
  - rewrite verify_users_cons.
    pose proof (verify_user_round E b p f x user fp w) as Hr. cbv zeta in Hr.
    destruct (verify_user E b p f x user (fp, w)) as [fp1 w1].
    cbn [fst snd] in *. destruct Hr as (_ & Hp & _).
    rewrite IH, Hp. unfold u32. rewrite Zplus_mod_idemp_l.
    f_equal. cbn [length]. lia.
Qed.

(** What the stage leaves in the counters, and which fingerprints it
    counted. *)
Lemma fetch_gitian_sigs_counted E w :
  (Z.of_nat (length (listed_users E (self w))) < 2 ^ 32)%Z ->
  let u := self w in
  let u' := self (fetch_gitian_sigs E w) in
  let counted :=
    counted_fingerprints E (base_blob_url u) (gitian_platform (buildtag u))
      (gitian_filename E u) (hash_expression (gitian_filename E u))
      (listed_users E u) (∅, sigs_loop_entry (listed_users E u) w) in
  List.NoDup counted
  /\ validGitianSigs u' = Z.of_nat (length counted)
  /\ totalGitianSigs u' = Z.of_nat (length (listed_users E u))
  /\ processedGitianSigs u' = Z.of_nat (length (listed_users E u))
  /\ (next_state u' = StateNoGitianSigs <-> listed_users E u = [])
  /\ (next_state u' = StateVerifyGitianSignatures <-> listed_users E u <> [])
  /\ (listed_users E u = [] -> gitian_verify_sigs_success u' = false).
Proof.
  intros Hn. cbv zeta. rewrite fetch_gitian_sigs_unfold. cbv zeta.
  set (users := listed_users E (self w)) in *.
  pose proof (counted_fingerprints_once E (base_blob_url (self w))
                (gitian_platform (buildtag (self w))) (gitian_filename E (self w))
                (hash_expression (gitian_filename E (self w))) users
                ∅ (sigs_loop_entry users w)) as Hc.
  cbv zeta in Hc. destruct Hc as (Hnd & _ & Hlen & Hval).
  assert (users = [] ->
          counted_fingerprints E (base_blob_url (self w))
            (gitian_platform (buildtag (self w))) (gitian_filename E (self w))
            (hash_expression (gitian_filename E (self w))) users
            (∅, sigs_loop_entry users w) = []) as Hnone
    by (intros ->; reflexivity).
  destruct (download E (base_tree_url (self w))) as [s|] eqn:Hdl.
  2:{ assert (users = []) as Hu
        by (subst users; unfold listed_users; rewrite Hdl; reflexivity).
      rewrite (Hnone Hu), Hu.
      split_all; try reflexivity; try constructor; try discriminate;
        try tauto; intros H; congruence. }
  destruct (Nat.eqb_spec (length users) 0) as [Hz|Hnz].
  { assert (users = []) as Hu by (destruct users; [reflexivity|discriminate]).
    rewrite (Hnone Hu), Hu.
    split_all; try reflexivity; try constructor; try discriminate;
      try tauto; intros H; congruence. }
  assert (users <> []) as Hne by (intros ->; apply Hnz; reflexivity).
  assert (u32 (Z.of_nat (length users)) = Z.of_nat (length users)) as Htot
    by (apply u32_small; lia).
  assert (counters_ordered (self (sigs_loop_entry users w))) as Hord.
  { unfold counters_ordered. cbn. rewrite Htot, ?u32_0. lia. }
  pose proof (verify_users_counters E (base_blob_url (self w))
                (gitian_platform (buildtag (self w))) (gitian_filename E (self w))
                (hash_expression (gitian_filename E (self w))) users
                ∅ (sigs_loop_entry users w) Hord) as Hloop.
  pose proof (verify_users_processed E (base_blob_url (self w))
                (gitian_platform (buildtag (self w))) (gitian_filename E (self w))
                (hash_expression (gitian_filename E (self w))) users
                ∅ (sigs_loop_entry users w)) as Hproc.
  pose proof (verify_users_flag E (base_blob_url (self w))
                (gitian_platform (buildtag (self w))) (gitian_filename E (self w))
                (hash_expression (gitian_filename E (self w))) users
                ∅ (sigs_loop_entry users w)) as Hflag.
  cbv zeta in Hloop, Hflag.
  destruct Hloop as (Hord' & Ht & _).
  { cbn. rewrite Htot, ?u32_0. lia. }
  { cbn. rewrite Htot. lia. }
  destruct Hflag as ((_ & _ & _ & _ & _ & _ & _ & Hnext & _) & _).
  destruct (verify_users _ _ _ _ _ _ _) as [fp' w']. cbn [snd] in *.
  change (validGitianSigs (self (sigs_loop_exit w')))
    with (validGitianSigs (self w')).
  change (totalGitianSigs (self (sigs_loop_exit w')))
    with (totalGitianSigs (self w')).
  change (processedGitianSigs (self (sigs_loop_exit w')))
    with (processedGitianSigs (self w')).
  change (next_state (self (sigs_loop_exit w')))
    with (next_state (self w')).
  change (validGitianSigs (self (sigs_loop_entry users w))) with (u32 0) in Hval.
  change (processedGitianSigs (self (sigs_loop_entry users w)))
    with (u32 0) in Hproc.
  change (totalGitianSigs (self (sigs_loop_entry users w)))
    with (u32 (Z.of_nat (length users))) in Ht.
  change (next_state (self (sigs_loop_entry users w)))
    with StateVerifyGitianSignatures in Hnext.
  destruct Hord' as ((Hv0 & Hv1) & Hp1).
  rewrite Htot in Ht.
  rewrite (u32_small (validGitianSigs (self w'))) in Hval by lia.
  rewrite (u32_small (processedGitianSigs (self w'))) in Hproc by lia.
  rewrite u32_0, Z.add_0_l in Hval, Hproc.
  rewrite u32_small in Hval by lia. rewrite Htot in Hproc.
  rewrite Hnext.
  split_all; try assumption; try tauto; try discriminate.
  split; [discriminate|contradiction].
Qed.

(** X12: every signature the quorum counts comes from a fingerprint on the
    allow-list, was verified as true by the engine for a listed user, and
    signs an assertion whose hash for the file is the expected hash; the
    fingerprints counted are distinct, so the count cannot exceed the size
    of the allow-list. *)
Theorem quorum_counts_allow_listed_signers E w :
  (Z.of_nat (length (listed_users E (self w))) < 2 ^ 32)%Z ->
  let u := self w in
  let u' := self (fetch_gitian_sigs E w) in
  exists counted : list string,
    List.NoDup counted
    /\ validGitianSigs u' = Z.of_nat (length counted)
    /\ (validGitianSigs u' <= Z.of_nat (size (imported_fingerprints u)))%Z
    /\ Forall
         (fun g =>
            is_Some (imported_fingerprints u !! g)
            /\ exists user a,
                 In user (listed_users E u)
                 /\ download E (assert_url (base_blob_url u)
                                  (gitian_platform (buildtag u)) u user)
                    = Some a
                 /\ user_verdict E (base_blob_url u)
                      (gitian_platform (buildtag u)) u user
                    = Some (TriTrue, g)
                 /\ find_hash E (hash_expression (gitian_filename E u)) a
                    = Some (expected_hash u))
         counted.
Proof.
  intros Hn. cbv zeta.
  destruct (fetch_gitian_sigs_counted E w Hn) as (Hnd & Hval & _).
  cbv zeta in Hnd, Hval.
  set (counted := counted_fingerprints _ _ _ _ _ _ _) in *.
  assert (forall g, In g counted ->
            is_Some (imported_fingerprints (self w) !! g)
            /\ exists user a,
                 In user (listed_users E (self w))
                 /\ download E (assert_url (base_blob_url (self w))
                                  (gitian_platform (buildtag (self w)))
                                  (self w) user) = Some a
                 /\ user_verdict E (base_blob_url (self w))
                      (gitian_platform (buildtag (self w))) (self w) user
                    = Some (TriTrue, g)
                 /\ find_hash E (hash_expression (gitian_filename E (self w))) a
                    = Some (expected_hash (self w))) as Hall.
  { intros g Hg. subst counted.
    apply counted_fingerprints_allowed in Hg
      as (user & a & H1 & H2 & H3 & H4 & H5).
    split; [exact H4|]. exists user, a. split_all; assumption. }
  exists counted. split_all; [exact Hnd|exact Hval| |].
  - rewrite Hval. apply inj_le.
    apply NoDup_keys_size; [exact Hnd|]. intros g Hg. apply (Hall g Hg).
  - apply Forall_forall. intros g Hg. apply Hall, list_elem_of_In, Hg.
Qed.

Lemma quorum_counts_allow_listed_signers_witness :
  exists counted : list string,
    List.NoDup counted
    /\ validGitianSigs (self (fetch_gitian_sigs bad_carol keys_imported))
       = Z.of_nat (length counted).
Proof.
  assert (Z.of_nat (length (listed_users bad_carol (self keys_imported)))
          < 2 ^ 32)%Z as Hn by (vm_compute; reflexivity).
  destruct (quorum_counts_allow_listed_signers bad_carol keys_imported Hn)
    as (counted & Hnd & Hval & _).
  exists counted. split; [exact Hnd|exact Hval].
Defined.

(** X13: the stage goes through every listed user, whatever the verdicts:
    at its end processedGitianSigs and totalGitianSigs both are the number
    of users listed; it asks for NoGitianSigs exactly when no user is
    listed (then without success), and for VerifyGitianSignatures
    otherwise. *)
Theorem fetch_gitian_sigs_processes_every_user E w :
  (Z.of_nat (length (listed_users E (self w))) < 2 ^ 32)%Z ->
  let u := self w in
  let u' := self (fetch_gitian_sigs E w) in
  totalGitianSigs u' = Z.of_nat (length (listed_users E u))
  /\ processedGitianSigs u' = Z.of_nat (length (listed_users E u))
  /\ (next_state u' = StateNoGitianSigs <-> listed_users E u = [])
  /\ (next_state u' = StateVerifyGitianSignatures <-> listed_users E u <> [])
  /\ (listed_users E u = [] -> gitian_verify_sigs_success u' = false).
Proof.
  intros Hn. cbv zeta.
  destruct (fetch_gitian_sigs_counted E w Hn) as (_ & _ & H). exact H.
Qed.

Lemma fetch_gitian_sigs_processes_every_user_witness :
  processedGitianSigs (self (fetch_gitian_sigs all_good keys_imported))
  = Z.of_nat (length (listed_users all_good (self keys_imported))).
Proof.
  assert (Z.of_nat (length (listed_users all_good (self keys_imported)))
          < 2 ^ 32)%Z as Hn by (vm_compute; reflexivity).
  exact (proj1 (proj2 (fetch_gitian_sigs_processes_every_user
                         all_good keys_imported Hn))).
Defined.

(** ** The random start of the diagnostic loop *)

Lemma log_skipped_one_messages dns_urls results cur_index w :
  messages (self (log_skipped_one dns_urls results cur_index w))
  = messages (self w) ++ skipped_message dns_urls results cur_index.
Proof.
  unfold log_skipped_one, skipped_message. cbv zeta.
  repeat match goal with
    | |- context [if ?c then _ else _] => destruct c
    end; try reflexivity.
  rewrite app_nil_r. reflexivity.
Qed.

Lemma log_skipped_fold_messages dns_urls results (g : nat -> nat) l :
  forall w,
  messages
    (self (fold_left (fun w k => log_skipped_one dns_urls results (g k) w) l w))
  = messages (self w)
    ++ flat_map (skipped_message dns_urls results) (map g l).
Proof.
  induction l as [|k l IH]; intros w; cbn [fold_left map flat_map].
  - rewrite app_nil_r. reflexivity.
  - rewrite IH, log_skipped_one_messages, <- app_assoc. reflexivity.
Qed.

Lemma rotation_Permutation a n :
  Permutation (map (fun k => (a + k) mod n) (seq 0 n)) (seq 0 n).
Proof.
  destruct n as [|n]; [constructor|].
  apply Permutation_map_same_l.
  - apply NoDup_map_NoDup_ForallPairs; [|apply seq_NoDup].
    intros k k' Hk Hk' Heq.
    apply in_seq in Hk, Hk'.
    pose proof (Nat.div_mod_eq (a + k) (S n)) as H1.
    pose proof (Nat.div_mod_eq (a + k') (S n)) as H2.
    rewrite Heq in H1.
    destruct (lt_eq_lt_dec ((a + k) / S n) ((a + k') / S n)) as [[Hlt|Heq']|Hgt];
      [nia|rewrite Heq' in H1; lia|nia].
  - intros x Hx. apply in_map_iff in Hx as (k & <- & _).
    apply in_seq. split; [lia|].
    cbn [Nat.add]. apply Nat.mod_upper_bound. discriminate.
Qed.

(** X14: the random start index of the diagnostic loop decides nothing but
    the order of the log: with another random engine the stage leaves the
    same value in every member other than the message log, and the same
    messages up to their order. *)
Theorem dns_verdict_ignores_random_start E n urls w :
  let u := self (load_txt_records_from_dns E urls w) in
  let u' := self (load_txt_records_from_dns (with_random_engine n E) urls w) in
  (forall f, among f [F_messages] = false -> observe f u' = observe f u)
  /\ Permutation (messages u') (messages u).
Proof.
  cbv zeta. unfold load_txt_records_from_dns. cbv zeta.
  change (get_txt_record (with_random_engine n E)) with (get_txt_record E).
  change (random_engine (with_random_engine n E)) with n.
  set (results := map (get_txt_record E) urls).
  set (w1 := assign (with_dns_query_results results) _).
  pose proof (log_skipped_frame urls results (random_engine E mod length urls) w1)
    as Hf.
  pose proof (log_skipped_frame urls results (n mod length urls) w1) as Hf'.
  assert (forall first,
            messages (self (log_skipped urls results first w1))
            = messages (self w1)
              ++ flat_map (skipped_message urls results)
                   (map (fun k => (first + k) mod length urls)
                        (seq 0 (length urls)))) as Hmsg
    by (intros first;
        exact (log_skipped_fold_messages urls results
                 (fun k => (first + k) mod length urls)
                 (seq 0 (length urls)) w1)).
  pose proof (Hmsg (random_engine E mod length urls)) as Hm.
  pose proof (Hmsg (n mod length urls)) as Hm'.
  clear Hmsg.
  set (w2 := log_skipped urls results (random_engine E mod length urls) w1) in *.
  set (w2' := log_skipped urls results (n mod length urls) w1) in *.
  assert (forall f, among f [F_messages] = false ->
            observe f (self w2') = observe f (self w2)) as Hsame
    by (intros f Hx; rewrite (Hf f Hx), (Hf' f Hx); reflexivity).
  assert (Permutation (messages (self w2')) (messages (self w2))) as Hperm.
  { rewrite Hm, Hm'. apply Permutation_app_head, Permutation_flat_map.
    rewrite !rotation_Permutation. reflexivity. }
  clearbody w2 w2'. clear Hf Hf' Hm Hm'.
  assert (forall m, Permutation (messages (self w2') ++ [m])
                                (messages (self w2) ++ [m])) as Hperm'
    by (intros m; apply Permutation_app_tail, Hperm).
  destruct (_ <? 2)%nat; [|destruct (find_good_records_index results)];
    (split;
     [intros f Hx; pose proof (Hsame f Hx) as Hk;
      destruct f; try discriminate Hx;
      cbn [observe self assign emit add_message setDnsValid
           state next_state dnsValid hashValid validGitianSigs
           minValidGitianSigs totalGitianSigs processedGitianSigs software
           buildtag current_version version expected_hash download_path
           messages dns_query_done version_check_done download_done
           download_success gitian_pubkeys_import_done
           gitian_pubkeys_import_success gitian_verify_sigs_done
           gitian_verify_sigs_success bad_gitian_signature_found
           dns_query_results good_dns_records imported_fingerprints
           with_dns_query_done with_dnsValid with_good_dns_records
           with_messages] in Hk |- *;
      first [reflexivity | exact Hk]
     |apply Hperm']).
Qed.

(** ** The message log and the signals *)

Lemma logged_refl w : logged w w.
Proof.
  exists []. split_all; [reflexivity|cbn; rewrite app_nil_r; reflexivity|].
  constructor.
Qed.


Lemma logged_assign f w0 w :
  (forall u, messages (f u) = messages u) ->
  logged w0 w -> logged w0 (assign f w).
Proof.
  intros Hf (new & He & Hm & Hc). exists new. split_all; [exact He| |exact Hc].
  cbn [assign self]. rewrite Hf. exact Hm.
Qed.

Lemma logged_emit e w0 w :
  match e with message _ => False | _ => True end ->
  carries_own_value (e, self w) ->
  logged w0 w -> logged w0 (emit e w).
Proof.
  intros Hne Hv (new & He & Hm & Hc). exists ((e, self w) :: new). split_all.
  - cbn [emit emitted]. rewrite He. reflexivity.
  - cbn [emit self]. rewrite Hm. f_equal.
    destruct e; try contradiction; reflexivity.
  - constructor; assumption.
Qed.

Lemma logged_add_message s w0 w :
  logged w0 w -> logged w0 (add_message s w).
Proof.
  intros (new & He & Hm & Hc). unfold add_message. cbv zeta.
  eexists ((message s, _) :: new). split_all.
  - cbn [emit emitted assign]. rewrite He. reflexivity.
  - cbn [emit self assign messages with_messages message_texts flat_map
         fst rev].
    fold (message_texts new). rewrite Hm, <- !app_assoc. reflexivity.
  - constructor; [|exact Hc].
    unfold carries_own_value. cbn [fst snd self assign messages with_messages].
    apply last_snoc.
Qed.

(** Walks through an operation made of member updates, signals and
    messages. *)
Ltac logged_side :=
  first [exact I | reflexivity | split; reflexivity].

Ltac logged_tac :=
  repeat first
    [ assumption
    | apply logged_add_message
    | apply logged_emit; [exact I|logged_side|]
    | apply logged_assign; [intros; reflexivity|]
    | match goal with
      | |- logged _ (if ?c then _ else _) => destruct c
      | |- logged _ (match ?c with Some _ => _ | None => _ end) => destruct c
      end ].

Lemma logged_setDnsValid t w0 w : logged w0 w -> logged w0 (setDnsValid t w).
Proof. intros H. unfold setDnsValid. cbv zeta. logged_tac. Qed.

Lemma logged_setHashValid t w0 w : logged w0 w -> logged w0 (setHashValid t w).
Proof. intros H. unfold setHashValid. cbv zeta. logged_tac. Qed.

Lemma logged_setValidGitianSigs n w0 w :
  logged w0 w -> logged w0 (setValidGitianSigs n w).
Proof. intros H. unfold setValidGitianSigs. cbv zeta. logged_tac. Qed.

Lemma logged_setMinValidGitianSigs n w0 w :
  logged w0 w -> logged w0 (setMinValidGitianSigs n w).
Proof. intros H. unfold setMinValidGitianSigs. cbv zeta. logged_tac. Qed.

Lemma logged_setProcessedGitianSigs n w0 w :
  logged w0 w -> logged w0 (setProcessedGitianSigs n w).
Proof. intros H. unfold setProcessedGitianSigs. cbv zeta. logged_tac. Qed.

Lemma logged_setTotalGitianSigs n w0 w :
  logged w0 w -> logged w0 (setTotalGitianSigs n w).
Proof. intros H. unfold setTotalGitianSigs. cbv zeta. logged_tac. Qed.

Ltac logged_setters :=
  repeat first
    [ assumption
    | apply logged_setDnsValid
    | apply logged_setHashValid
    | apply logged_setValidGitianSigs
    | apply logged_setMinValidGitianSigs
    | apply logged_setProcessedGitianSigs
    | apply logged_setTotalGitianSigs
    | apply logged_add_message
    | apply logged_emit; [exact I|logged_side|]
    | apply logged_assign; [intros; reflexivity|]
    | match goal with
      | |- logged _ (if ?c then _ else _) => destruct c
      | |- logged _ (match ?c with Some _ => _ | None => _ end) => destruct c
      end ].

Lemma logged_committed w0 w : logged w0 w -> logged w0 (committed w).
Proof. intros H. unfold committed. cbv zeta. logged_setters. Qed.

Lemma logged_log_skipped dns_urls results first_index w0 w :
  logged w0 w -> logged w0 (log_skipped dns_urls results first_index w).
Proof.
  unfold log_skipped. cbv zeta. generalize (seq 0 (length dns_urls)).
  intros l. revert w. induction l as [|k l IH]; intros w H; [exact H|].
  cbn [fold_left]. apply IH. unfold log_skipped_one. cbv zeta. logged_setters.
Qed.

Lemma logged_load_txt_records_from_dns E dns_urls w0 w :
  logged w0 w -> logged w0 (load_txt_records_from_dns E dns_urls w).
Proof.
  intros H. unfold load_txt_records_from_dns. cbv zeta.
  match goal with
  | |- context [log_skipped ?a ?b ?c ?d] =>
      assert (logged w0 (log_skipped a b c d)) as Hl
        by (apply logged_log_skipped; logged_setters);
      generalize dependent (log_skipped a b c d)
  end.
  intros w2 Hl. logged_setters.
Qed.

Lemma logged_process_records software buildtag records w0 :
  forall found hash w,
  logged w0 w ->
  logged w0 (process_records software buildtag records found hash w).
Proof.
  induction records as [|record rest IH]; intros found hash w H;
    cbn [process_records]; cbv zeta.
  - logged_setters.
  - repeat match goal with
      | |- logged _ (if ?c then _ else _) => destruct c
      end; try apply IH; logged_setters.
Qed.

Lemma logged_process_version software buildtag records w0 w :
  logged w0 w -> logged w0 (process_version software buildtag records w).
Proof.
  intros H. unfold process_version. cbv zeta.
  apply logged_process_records. logged_setters.
Qed.

Lemma logged_start_download E w0 w :
  logged w0 w -> logged w0 (start_download E w).
Proof. intros H. unfold start_download. cbv zeta. logged_setters. Qed.

Lemma logged_check_hash E w0 w : logged w0 w -> logged w0 (check_hash E w).
Proof. intros H. unfold check_hash. cbv zeta. logged_setters. Qed.

Lemma logged_import_keys E keys w0 : forall w,
  logged w0 w -> logged w0 (import_keys E keys w).
Proof.
  induction keys as [|e rest IH]; intros w H; cbn [import_keys]; cbv zeta;
    unfold import_failed; cbv zeta.
  - logged_setters.
  - repeat match goal with
      | |- logged _ (if ?c then _ else _) => destruct c
      | |- logged _ (match ?c with Some _ => _ | None => _ end) => destruct c
      end; try apply IH; logged_setters.
Qed.

Lemma logged_import_pubkeys E w0 w :
  logged w0 w -> logged w0 (import_pubkeys E w).
Proof.
  intros H. unfold import_pubkeys, import_failed. cbv zeta.
  destruct (negb (init_gpgme E)); [|apply logged_import_keys]; logged_setters.
Qed.

Lemma logged_verify_users E b p f x users w0 :
  forall (fp : gmap string string) w,
  logged w0 w -> logged w0 (snd (verify_users E b p f x users (fp, w))).
Proof.
  induction users as [|user users IH]; intros fp w H; [exact H|].
  rewrite verify_users_cons.
  destruct (verify_user_shape E b p f x user fp w)
    as (m & [[-> _]|[[-> _]|(g & _ & _ & _ & ->)]]);
    apply IH; unfold finish_round; logged_setters.
Qed.

Lemma logged_sigs_reset w0 w : logged w0 w -> logged w0 (sigs_reset w).
Proof. intros H. unfold sigs_reset. cbv zeta. logged_setters. Qed.

Lemma logged_no_gitian_sigs w0 w : logged w0 w -> logged w0 (no_gitian_sigs w).
Proof. intros H. unfold no_gitian_sigs. cbv zeta. logged_setters. Qed.

Lemma logged_no_users_listed w0 w :
  logged w0 w -> logged w0 (no_users_listed w).
Proof. intros H. unfold no_users_listed. cbv zeta. logged_setters. Qed.

Lemma logged_sigs_loop_entry users w0 w :
  logged w0 w -> logged w0 (sigs_loop_entry users w).
Proof.
  intros H. unfold sigs_loop_entry. cbv zeta.
  apply logged_setTotalGitianSigs.
  apply logged_assign; [intros; reflexivity|].
  apply logged_setMinValidGitianSigs, logged_setValidGitianSigs.
  apply logged_sigs_reset, H.
Qed.

Lemma logged_sigs_loop_exit w0 w : logged w0 w -> logged w0 (sigs_loop_exit w).
Proof. intros H. unfold sigs_loop_exit. cbv zeta. logged_setters. Qed.

Lemma logged_fetch_gitian_sigs E w0 w :
  logged w0 w -> logged w0 (fetch_gitian_sigs E w).
Proof.
  intros H. rewrite fetch_gitian_sigs_unfold. cbv zeta.
  destruct (download E (base_tree_url (self w)));
    [destruct (Nat.eqb (length (listed_users E (self w))) 0)|].
  - apply logged_no_users_listed, logged_setMinValidGitianSigs,
      logged_setValidGitianSigs, logged_sigs_reset, H.
  - apply logged_sigs_loop_exit, logged_verify_users, logged_sigs_loop_entry, H.
  - apply logged_no_gitian_sigs, logged_sigs_reset, H.
Qed.

Lemma logged_change_state E w0 w :
  logged w0 w -> logged w0 (change_state E w).
Proof.
  intros H.
  destruct (decide (state (self w) = next_state (self w))) as [Heq|Hne];
    [rewrite change_state_same by exact Heq; exact H|].
  rewrite change_state_commits by exact Hne.
  pose proof (logged_committed w0 w H) as Hc.
  destruct (next_state (self w)); cbv zeta; try exact Hc.
  - logged_setters.
  - apply logged_load_txt_records_from_dns, Hc.
  - apply logged_process_version, Hc.
  - apply logged_start_download, Hc.
  - apply logged_check_hash, Hc.
  - apply logged_import_pubkeys, Hc.
  - apply logged_fetch_gitian_sigs, Hc.
Qed.

Lemma logged_poll w0 w : logged w0 w -> logged w0 (poll w).
Proof.
  intros H. unfold poll. cbv zeta.
  destruct (state (self w)); try exact H;
    repeat match goal with
      | |- logged _ (if ?c then _ else _) => destruct c
      | |- logged _ (match hashValid ?u with _ => _ end) =>
          destruct (hashValid u)
      end; logged_setters.
Qed.

Lemma step_logged E w w' : step E w w' -> logged w w'.
Proof.
  intros [w1|s w1|w1|success w1|a b w1].
  - rewrite updater_thread_poll. apply logged_poll, logged_change_state.
    apply logged_refl.
  - pose proof (logged_refl w1) as H. unfold select. logged_setters.
  - pose proof (logged_refl w1) as H. unfold retryDownload.
    destruct (decide _); logged_setters.
  - pose proof (logged_refl w1) as H. unfold on_result. cbv zeta.
    logged_setters.
  - pose proof (logged_refl w1) as H. unfold on_progress. logged_setters.
Qed.


(** X15: no round of the worker, command or callback removes anything: it
    only puts new signals before the ones emitted so far and new messages
    after the ones logged so far, one message for each new [message]
    signal, in the same order. *)
Theorem operations_only_append E w w' :
  step E w w' ->
  exists new,
    emitted w' = new ++ emitted w
    /\ messages (self w') = messages (self w) ++ rev (message_texts new).
Proof.
  intros Hstep. destruct (step_logged E w w' Hstep) as (new & He & Hm & _).
  exists new. split; assumption.
Qed.

Lemma operations_only_append_witness :
  exists new,
    emitted (on_result true started) = new ++ emitted started
    /\ messages (self (on_result true started))
       = messages (self started) ++ rev (message_texts new).
Proof.
  exact (operations_only_append all_good started (on_result true started)
           (step_on_result all_good true started)).
Defined.





(** ** The download and its callbacks *)

(** X18: while the download has not reported, the worker waits in Download
    and changes nothing; once the completion callback has run, the next
    round asks for CheckHash after a success and for DownloadFailed after
    a failure. *)
Theorem download_waits_for_callback E w :
  state (self w) = StateDownload ->
  next_state (self w) = StateDownload ->
  download_done (self w) = false ->
  (forall n, updater_thread_rounds E n w = w)
  /\ forall success,
       let w' := updater_thread E (on_result success w) in
       state (self w') = StateDownload
       /\ next_state (self w')
          = if success then StateCheckHash else StateDownloadFailed.
Proof.
  intros Hs Hn Hd. split.
  - intros n. induction n as [|n IH]; [reflexivity|].
    cbn [updater_thread_rounds].
    assert (updater_thread E w = w) as ->; [|exact IH].
    rewrite updater_thread_poll, change_state_same by congruence.
    unfold poll. cbv zeta. rewrite Hs, Hd. reflexivity.
  - intros success. cbv zeta. rewrite updater_thread_poll.
    set (w1 := on_result success w).
    assert (state (self w1) = StateDownload) as Hs1 by exact Hs.
    assert (next_state (self w1) = StateDownload) as Hn1 by exact Hn.
    assert (download_done (self w1) = true) as Hd1 by reflexivity.
    assert (download_success (self w1) = success) as Hx1 by reflexivity.
    clearbody w1.
    rewrite change_state_same by congruence.
    unfold poll. cbv zeta. rewrite Hs1, Hd1, Hx1.
    destruct success; split; (exact Hs1 || reflexivity).
Qed.

Lemma download_waits_for_callback_witness :
  updater_thread_rounds all_good 4 awaiting_download = awaiting_download.
Proof.
  assert (state (self awaiting_download) = StateDownload) as Hs
    by (vm_compute; reflexivity).
  assert (next_state (self awaiting_download) = StateDownload) as Hn
    by (vm_compute; reflexivity).
  assert (download_done (self awaiting_download) = false) as Hd
    by (vm_compute; reflexivity).
  exact (proj1 (download_waits_for_callback all_good awaiting_download
                  Hs Hn Hd) 4).
Defined.

(** X19: retryDownload after a failed download makes the next round of the
    worker enter Download again and start the download anew: both
    download flags are cleared, downloadStarted is the last signal, and
    the worker waits. *)
Theorem retryDownload_restarts_download E w :
  state (self w) = StateDownloadFailed ->
  next_state (self w) = StateDownloadFailed ->
  let w' := updater_thread E (retryDownload w) in
  w' = start_download E (committed (set_state StateDownload w))
  /\ state (self w') = StateDownload
  /\ next_state (self w') = StateDownload
  /\ download_done (self w') = false
  /\ download_success (self w') = false
  /\ hd_error (signals w') = Some downloadStarted.
Proof.
  intros Hs Hn. cbv zeta.
  assert (retryDownload w = set_state StateDownload w) as ->
    by (unfold retryDownload; destruct (decide _); [reflexivity|contradiction]).
  rewrite updater_thread_poll.
  set (w1 := set_state StateDownload w).
  assert (state (self w1) = StateDownloadFailed) as Hs1 by exact Hs.
  assert (next_state (self w1) = StateDownload) as Hn1 by reflexivity.
  clearbody w1.
  rewrite change_state_commits by congruence. rewrite Hn1.
  set (w2 := committed w1).
  assert (state (self w2) = StateDownload) as Hs2 by exact Hn1.
  assert (next_state (self w2) = StateDownload) as Hn2 by exact Hn1.
  clearbody w2.
  set (w3 := start_download E w2).
  assert (state (self w3) = StateDownload) as Hs3 by exact Hs2.
  assert (next_state (self w3) = StateDownload) as Hn3 by exact Hn2.
  assert (download_done (self w3) = false) as Hd3 by reflexivity.
  assert (download_success (self w3) = false) as Hx3 by reflexivity.
  assert (hd_error (signals w3) = Some downloadStarted) as He3 by reflexivity.
  clearbody w3.
  assert (poll w3 = w3) as ->
    by (unfold poll; cbv zeta; rewrite Hs3, Hd3; reflexivity).
  split_all; (assumption || reflexivity).
Qed.

Lemma retryDownload_restarts_download_witness :
  state (self (updater_thread all_good (retryDownload download_failed)))
  = StateDownload.
Proof.
  assert (state (self download_failed) = StateDownloadFailed) as Hs
    by (vm_compute; reflexivity).
  assert (next_state (self download_failed) = StateDownloadFailed) as Hn
    by (vm_compute; reflexivity).
  exact (proj1 (proj2 (retryDownload_restarts_download all_good download_failed
                         Hs Hn))).
Defined.

(** ** What a round and a command may write *)

Lemma stage_members_change_state E w :
  state (self w) <> next_state (self w) ->
  changes_only
    (F_state :: F_next_state :: stage_members (next_state (self w)))
    (self w) (self (change_state E w)).
Proof.
  intros Hne. eapply changes_only_weaken; [|exact (change_state_frame E w Hne)].
  destruct (next_state (self w)); reflexivity.
Qed.

(** X20: of the members the model carries (every member [updater.cpp]
    names but [download_handle], [gpg_home], [ctx] and the plumbing of the
    worker thread), a round of the worker writes [state], [next_state] and
    the members of the stage it enters, and no other. Outside these, the
    source also writes [download_handle] on entering Download and
    [gpg_home] and [ctx] on entering ImportPubkeys. *)
Theorem round_writes_stage_members E w :
  changes_only
    (F_state :: F_next_state :: stage_members (next_state (self w)))
    (self w) (self (updater_thread E w)).
Proof.
  rewrite updater_thread_poll.
  eapply changes_only_trans;
    [|eapply changes_only_weaken; [|apply poll_frame]; reflexivity].
  destruct (decide (state (self w) = next_state (self w))) as [Heq|Hne].
  - rewrite change_state_same by exact Heq. apply changes_only_refl.
  - apply stage_members_change_state, Hne.
Qed.

(** X21: of the members the model carries, the commands and the download
    callbacks write none that a stage decides on: select writes
    [software] and [next_state], retryDownload [next_state], the
    completion callback the two download flags and the message log, the
    progress callback none. Outside these, the completion callback also
    clears [download_handle]. *)
Theorem commands_write_own_members s success length content_length w :
  changes_only [F_software; F_next_state] (self w) (self (select s w))
  /\ changes_only [F_next_state] (self w) (self (retryDownload w))
  /\ changes_only [F_download_done; F_download_success; F_messages]
       (self w) (self (on_result success w))
  /\ changes_only [] (self w) (self (on_progress length content_length w)).
Proof.
  split_all;
    [apply select_frame|apply retryDownload_frame|apply on_result_frame
    |apply on_progress_frame].
Qed.

(** ** Runs that meet the hypotheses of the statements on the worker *)

Lemma settled_machine_is_inert_witness :
  updater_thread_rounds all_good 5 verified_update = verified_update.
Proof.
  assert (state (self verified_update) = next_state (self verified_update))
    as Hs by (vm_compute; reflexivity).
  assert (polled (state (self verified_update)) = false) as Hp
    by (vm_compute; reflexivity).
  exact (settled_machine_is_inert all_good verified_update Hs Hp 5).
Defined.

Lemma dns_verdict_matches_good_records_witness :
  dns_query_done (self (updater_thread all_good started)) = true.
Proof.
  assert (state (self started) <> StateQueryDNS) as Hs
    by (vm_compute; discriminate).
  assert (next_state (self started) = StateQueryDNS) as Hn
    by (vm_compute; reflexivity).
  exact (proj1 (proj2 (dns_verdict_matches_good_records all_good started
                         Hs Hn))).
Defined.

(** ** The table of the states *)

(** X22: the table gives the outcome unknown exactly to the states the
    machine is still on its way in: the two states before a selection and
    the states the worker leaves by an edge of its own. Every state the
    worker rests in has a decided outcome. *)
Theorem outcome_unknown_iff_in_progress s :
  get_state_outcome s = TriUnknown <->
  s = StateNone \/ s = StateInit \/ exists s', worker_edge s s' = true.
Proof.
  split.
  - destruct s; intros H; try discriminate H;
      first [ left; reflexivity
            | right; left; reflexivity
            | right; right; eexists StateCheckVersion; reflexivity
            | right; right; eexists StateUpToDate; reflexivity
            | right; right; eexists StateFetchGitianSigs; reflexivity
            | right; right; eexists StateNoGitianSigs; reflexivity
            | right; right; eexists StateDownload; reflexivity
            | right; right; eexists StateCheckHash; reflexivity
            | right; right; eexists StateValidUpdate; reflexivity ].
  - intros [->|[->|[s' H]]]; [reflexivity|reflexivity|].
    destruct s; try reflexivity; destruct s'; discriminate H.
Qed.

(** X23: the names of the table tell the states apart: two states with the
    same name are the same state. *)
Theorem get_state_name_injective s s' :
  get_state_name s = get_state_name s' -> s = s'.
Proof. destruct s, s'; intros H; (reflexivity || discriminate H). Qed.

Lemma get_state_name_injective_witness :
  state (self verified_update) = StateValidUpdate.
Proof.
  apply (get_state_name_injective (state (self verified_update)) StateValidUpdate).
  vm_compute. reflexivity.
Defined.

(** ** Only the download makes the worker wait *)

Lemma sigs_done_poll w :
  sigs_done_known (self w) -> sigs_done_known (self (poll w)).
Proof.
  unfold sigs_done_known. intros H.
  pose proof (poll_frame w) as Hf.
  kept Hf F_state. kept Hf F_gitian_verify_sigs_done.
  rewrite Hkept, Hkept0. clear Hf Hkept Hkept0.
  unfold poll. cbv zeta.
  destruct (state (self w)) eqn:Hs;
    repeat match goal with
      | |- context [if ?c then _ else _] => destruct c eqn:?
      | |- context [match hashValid ?u with _ => _ end] =>
          destruct (hashValid u) eqn:?
      end;
    cbn [self set_state assign next_state with_next_state];
    intros [Hx|Hx]; try discriminate Hx; auto.
  all: try (apply negb_false_iff; assumption).
Qed.

Lemma sigs_done_change_state E w :
  sigs_done_known (self w) -> sigs_done_known (self (change_state E w)).
Proof.
  intros H.
  destruct (decide (state (self w) = next_state (self w))) as [Heq|Hne];
    [rewrite change_state_same by exact Heq; exact H|].
  unfold sigs_done_known in *.
  pose proof (change_state_frame E w Hne) as Hf.
  pose proof (change_state_state E w) as Hst.
  pose proof (change_state_commits E w Hne) as Hcs.
  rewrite Hst.
  destruct (next_state (self w)) eqn:Hn.
  all: try (kept Hf F_next_state; kept Hf F_gitian_verify_sigs_done;
            rewrite Hkept, Hkept0, Hn; intros [Hx|Hx];
            first [discriminate Hx | apply H; right; reflexivity]).
  intros _. rewrite Hcs.
  apply (fetch_gitian_sigs_outcome E (committed w)).
Qed.

Lemma sigs_done_step E w w' :
  step E w w' -> sigs_done_known (self w) -> sigs_done_known (self w').
Proof.
  intros Hstep H. destruct Hstep as [w|s w|w|success w|a b w].
  - rewrite updater_thread_poll. apply sigs_done_poll, sigs_done_change_state, H.
  - unfold sigs_done_known in *. pose proof (select_frame s w) as Hf.
    kept Hf F_state. kept Hf F_gitian_verify_sigs_done.
    rewrite Hkept, Hkept0. unfold select.
    destruct (String.eqb s "gui"); [|destruct (String.eqb s "cli")];
      cbn [self set_state assign next_state with_next_state with_software];
      intros [Hx|Hx]; try discriminate Hx; auto.
  - unfold sigs_done_known in *. pose proof (retryDownload_frame w) as Hf.
    kept Hf F_state. kept Hf F_gitian_verify_sigs_done.
    rewrite Hkept, Hkept0. unfold retryDownload.
    destruct (decide _);
      cbn [self set_state assign next_state with_next_state];
      intros [Hx|Hx]; try discriminate Hx; auto.
  - exact H.
  - exact H.
Qed.

Lemma reachable_sigs_done E detect_build_tag w :
  reachable E detect_build_tag w -> sigs_done_known (self w).
Proof.
  induction 1 as [|w w' _ IH Hstep].
  - intros [Hx|Hx]; discriminate Hx.
  - exact (sigs_done_step E w w' Hstep IH).
Qed.

Lemma import_pubkeys_done E w :
  gitian_pubkeys_import_done (self (import_pubkeys E w)) = true.
Proof.
  unfold import_pubkeys. cbv zeta.
  destruct (negb (init_gpgme E)); [reflexivity|].
  apply import_keys_outcome.
Qed.

Lemma check_hash_decides E w :
  hashValid (self (check_hash E w)) = TriTrue
  \/ hashValid (self (check_hash E w)) = TriFalse.
Proof.
  pose proof (check_hash_cases E w) as Hc. cbv zeta in Hc.
  destruct (sha256sum E (download_path (self w))) as [file_hash|];
    [destruct (String.eqb (file_hash_as_text file_hash) (expected_hash (self w)))|];
    destruct Hc as [Hv _]; rewrite Hv; auto.
Qed.

(** X24: in every run, the round that enters QueryDNS, CheckVersion,
    ImportPubkeys, FetchGitianSigs, VerifyGitianSignatures or CheckHash
    already asks for a successor of that state: the stage is over within
    the round, and Download is the only state in which the worker waits. *)
Theorem only_download_waits E detect_build_tag w :
  reachable E detect_build_tag w ->
  state (self w) <> next_state (self w) ->
  answers_at_once (next_state (self w)) = true ->
  let w' := updater_thread E w in
  state (self w') = next_state (self w)
  /\ worker_edge (next_state (self w)) (next_state (self w')) = true.
Proof.
  intros Hr Hne Ha. cbv zeta.
  split; [apply updater_thread_state|].
  rewrite updater_thread_poll.
  pose proof (reachable_sigs_done E detect_build_tag w Hr) as Hsd.
  pose proof (change_state_state E w) as Hst.
  pose proof (change_state_commits E w Hne) as Hcs.
  pose proof (change_state_frame E w Hne) as Hf.
  destruct (next_state (self w)) eqn:Hn; try discriminate Ha; clear Ha.
  - (* QueryDNS *)
    destruct (load_txt_records_from_dns_good E dns_urls (committed w))
      as (Hd & _).
    rewrite <- Hcs in Hd. clear Hcs Hf.
    generalize dependent (change_state E w). intros c Hst Hd.
    unfold poll. cbv zeta. rewrite Hst, Hd. cbn [negb].
    destruct (Nat.eqb _ 0); reflexivity.
  - (* CheckVersion *)
    assert (version_check_done (self (change_state E w)) = true) as Hd
      by (rewrite Hcs; apply process_records_done).
    clear Hcs Hf.
    generalize dependent (change_state E w). intros c Hst Hd.
    unfold poll. cbv zeta. rewrite Hst, Hd. cbn [negb].
    destruct (String.eqb _ ""); [reflexivity|].
    destruct (_ >? 0)%Z; [reflexivity|].
    destruct (_ <? 0)%Z; reflexivity.
  - (* CheckHash *)
    assert (hashValid (self (change_state E w)) = TriTrue
            \/ hashValid (self (change_state E w)) = TriFalse) as Hd
      by (rewrite Hcs; apply check_hash_decides).
    clear Hcs Hf.
    generalize dependent (change_state E w). intros c Hst Hd.
    unfold poll. cbv zeta. rewrite Hst.
    destruct Hd as [-> | ->]; reflexivity.
  - (* ImportPubkeys *)
    assert (gitian_pubkeys_import_done (self (change_state E w)) = true) as Hd
      by (rewrite Hcs; apply import_pubkeys_done).
    clear Hcs Hf.
    generalize dependent (change_state E w). intros c Hst Hd.
    unfold poll. cbv zeta. rewrite Hst, Hd. cbn [negb].
    destruct (gitian_pubkeys_import_success (self c)); reflexivity.
  - (* FetchGitianSigs *)
    destruct (fetch_gitian_sigs_outcome E (committed w))
      as (_ & _ & _ & Hnext & _).
    cbv zeta in Hnext. rewrite <- Hcs in Hnext. clear Hcs Hf.
    generalize dependent (change_state E w). intros c Hst Hnext.
    unfold poll. cbv zeta. rewrite Hst.
    destruct Hnext as [-> | ->]; reflexivity.
  - (* VerifyGitianSignatures *)
    kept Hf F_gitian_verify_sigs_done.
    assert (gitian_verify_sigs_done (self (change_state E w)) = true) as Hd
      by (rewrite Hkept; apply Hsd; right; exact Hn).
    clear Hcs Hf Hkept.
    generalize dependent (change_state E w). intros c Hst Hd.
    unfold poll. cbv zeta. rewrite Hst, Hd. cbn [negb].
    destruct (gitian_verify_sigs_success (self c)); [reflexivity|].
    destruct (bad_gitian_signature_found (self c)); reflexivity.
Qed.

Lemma only_download_waits_witness :
  worker_edge StateQueryDNS
    (next_state (self (updater_thread no_digest started))) = true.
Proof.
  assert (reachable no_digest "linux-x64" started) as Hr.
  { unfold started. fold no_digest.
    refine (reachable_step _ _ _ _ _ (step_select _ "cli" _)).
    refine (reachable_step _ _ _ _ _ (step_round _ _)).
    apply reachable_new. }
  assert (state (self started) <> next_state (self started)) as Hne
    by (vm_compute; discriminate).
  assert (answers_at_once (next_state (self started)) = true) as Ha
    by (vm_compute; reflexivity).
  exact (proj2 (only_download_waits no_digest "linux-x64" started Hr Hne Ha)).
Defined.

(** ** Version selection in the worker *)

(** C5, amended: the round in which the worker enters CheckVersion runs
    the selection on the good records. It ends with nothing, or with a
    surviving record of the highest version: the version is then that of
    the record and, unless that version is the empty string,
    [expected_hash] is its hash. It ends with nothing whenever two
    survivors of the highest version carry different hashes, and with a
    survivor of the highest version whenever there is a survivor and no
    two survivors of equal version carry different hashes. Ending with
    nothing leaves the version empty and [expected_hash] as it was, and
    leads to NoUpdateInfoFound: the round asks for it and the next round
    enters it. *)
Theorem process_version_selects_highest E w :
  state (self w) <> StateCheckVersion ->
  next_state (self w) = StateCheckVersion ->
  let l := survivors (software (self w)) (buildtag (self w))
                     (good_dns_records (self w)) in
  let w1 := updater_thread E w in
  let w2 := updater_thread E w1 in
  state (self w1) = StateCheckVersion
  /\ ((version (self w1) = ""
       /\ expected_hash (self w1) = expected_hash (self w))
      \/ exists v h,
           In (v, h) l /\ is_top l (v, h) = true
           /\ version (self w1) = v
           /\ (v <> "" -> expected_hash (self w1) = h))
  /\ (top_ambiguous l = true ->
      version (self w1) = ""
      /\ expected_hash (self w1) = expected_hash (self w))
  /\ (ambiguous l = false -> l <> [] ->
      exists v h,
        In (v, h) l /\ is_top l (v, h) = true
        /\ version (self w1) = v
        /\ (v <> "" -> expected_hash (self w1) = h))
  /\ (version (self w1) = "" ->
      next_state (self w1) = StateNoUpdateInfoFound
      /\ state (self w2) = StateNoUpdateInfoFound).
Proof.
  intros Hs Hn. cbv zeta.
  rewrite (updater_thread_state E (updater_thread E w)).
  rewrite (updater_thread_state E w), Hn.
  rewrite updater_thread_poll.
  assert (state (self w) <> next_state (self w)) as Hne by congruence.
  pose proof (change_state_commits E w Hne) as Hcs. rewrite Hn in Hcs.
  pose proof (change_state_state E w) as Hst. rewrite Hn in Hst.
  pose proof (process_version_top_or_nothing (software (self w))
                (buildtag (self w)) (good_dns_records (self w)) (committed w))
    as Hsel.
  cbv zeta in Hsel. rewrite <- Hcs in Hsel.
  change (expected_hash (self (committed w)))
    with (expected_hash (self w)) in Hsel.
  assert (version_check_done (self (change_state E w)) = true) as Hd
    by (rewrite Hcs; apply process_records_done).
  clear Hcs.
  pose proof (poll_frame (change_state E w)) as Hf.
  kept Hf F_version. kept Hf F_expected_hash. rewrite Hkept, Hkept0.
  clear Hf Hkept Hkept0.
  destruct Hsel as (Hany & Htop & Hclean).
  split_all; try assumption; try reflexivity.
  intros Hv.
  assert (next_state (self (poll (change_state E w)))
          = StateNoUpdateInfoFound) as Hnext.
  { generalize dependent (change_state E w). intros c Hst Hany Htop Hclean Hd Hv.
    unfold poll. cbv zeta. rewrite Hst, Hd, Hv. reflexivity. }
  split; exact Hnext.
Qed.

(** The run of the spec in which two records of the same version carry
    different hashes ends in NoUpdateInfoFound with no version
    selected. *)
Lemma process_version_selects_highest_witness :
  version (self (updater_thread tie_published tie_queried)) = ""
  /\ state (self (updater_thread tie_published
                    (updater_thread tie_published tie_queried)))
     = StateNoUpdateInfoFound.
Proof.
  assert (state (self tie_queried) <> StateCheckVersion) as Hs
    by (vm_compute; discriminate).
  assert (next_state (self tie_queried) = StateCheckVersion) as Hn
    by (vm_compute; reflexivity).
  assert (top_ambiguous
            (survivors (software (self tie_queried))
               (buildtag (self tie_queried))
               (good_dns_records (self tie_queried))) = true) as Ht
    by (vm_compute; reflexivity).
  pose proof (process_version_selects_highest tie_published tie_queried Hs Hn)
    as H.
  cbv zeta in H.
  destruct H as (_ & _ & Htop & _ & Hnone).
  destruct (Htop Ht) as [Hv _].
  split; [exact Hv|exact (proj2 (Hnone Hv))].
Defined.
